(** * BD_AGRO_INTERSECT: classification, aggregation, loading and geometry
      repair of NDVI intersect shapefiles

    A shallow embedding of
      - [source/modules/intersectNdvi/intersectNdviData.py]
      - [source/modules/intersectNdvi/insertNdviDataIntoDatabase.py]
      - [source/services/database.py]
      - [source/helpers/gisFunctions.py]

    Conventions.
      - A pandas frame is a list of column names and a list of rows; a row
        is a finite map from column name to cell.  Every statement of the
        source of the shape [df.loc[mask, col] = v] has an element-wise
        mask, so it is a map over the rows.
      - Python [str] values are code-point sequences; here they are the
        UTF-8 byte strings of the same text.  Equality, concatenation,
        replacement of a substring, lexicographic order, and the tests
        "first / last characters equal an ASCII text" agree in both views.
      - Floating-point columns (areas) are exact rationals.
      - An exception is a value of [error]; a method that can raise returns
        a [result]. *)

From Stdlib Require Import ZArith QArith Qround String Ascii List Bool Lia.
From Stdlib Require Import DecimalString DecimalZ.
From stdpp Require Import gmap strings list sorting.
Close Scope Q_scope.
#[global] Set Warnings "-clear-no-such-hyp".
Open Scope string_scope.
Open Scope Z_scope.

(** ** Values *)

Inductive month :=
| Jan | Feb | Mar | Apr | May | Jun | Jul | Aug | Sep | Oct | Nov | Dec.

(** A calendar date as carried by a pandas [Timestamp] (time of day is
    never read by the code). *)
Record date := mkDate { year : Z; mon : month; day : Z }.

Definition month_number (m : month) : Z :=
  match m with
  | Jan => 1 | Feb => 2 | Mar => 3 | Apr => 4 | May => 5 | Jun => 6
  | Jul => 7 | Aug => 8 | Sep => 9 | Oct => 10 | Nov => 11 | Dec => 12
  end.

(** One cell of a frame.  [NA] stands for [None], [NaN], [NaT] and
    [pd.NA] alike. *)
Inductive cell :=
| NA
| Str (s : string)
| Int (z : Z)
| Num (q : Q)
| Date (d : date).

#[global] Instance month_eq_dec : EqDecision month.
Proof. solve_decision. Defined.
#[global] Instance date_eq_dec : EqDecision date.
Proof. solve_decision. Defined.
#[global] Instance Q_eq_dec : EqDecision Q.
Proof. solve_decision. Defined.
#[global] Instance cell_eq_dec : EqDecision cell.
Proof. solve_decision. Defined.

(** ** Exceptions *)

Inductive error :=
| ValueError (msg : string)
| KeyError (column : string)
| TypeError (what : string)
| IndexError
| ParserError (c : cell)
(* the three [ValueError]s of [NdviDataValidation], with their payload *)
| InvalidEstagio (wrong_values list_estagios : list cell)
| InvalidGridcode (wrong_values : list cell)
| InvalidContrato (wrong_values : list cell).

Inductive result (A : Type) :=
| Ok (a : A)
| Raise (e : error).
Arguments Ok {A} a.
Arguments Raise {A} e.

#[global] Instance result_ret : MRet result := fun _ a => Ok a.
#[global] Instance result_bind : MBind result := fun _ _ f m =>
  match m with
  | Ok a => f a
  | Raise e => Raise e
  end.


(** ** Python strings *)

(** [str(n)] for an [int]. *)
Definition str_of_int (z : Z) : string := NilZero.string_of_int (Z.to_int z).

(** [int(s)] for a decimal numeral; [None] when Python raises. *)
Definition int_of_str (s : string) : option Z :=
  Z.of_int <$> NilZero.int_of_string s.

(** [s[-n:]] *)
Definition str_last (n : nat) (s : string) : string :=
  String.substring (String.length s - n) n s.

(** [s[0]] as pandas' [.str[0]] gives it: missing on the empty string. *)
Definition str_first (s : string) : option string :=
  match s with
  | EmptyString => None
  | String c _ => Some (String c EmptyString)
  end.

(** [s.replace(old, new)] for a non-empty [old]: all non-overlapping
    occurrences, left to right.  [skip] counts the characters of a match
    still to be dropped. *)
Fixpoint replace_from (old new : string) (skip : nat) (s : string) : string :=
  match s with
  | EmptyString => EmptyString
  | String c s' =>
      match skip with
      | S k => replace_from old new k s'
      | O =>
          if String.prefix old s
          then new ++ replace_from old new (String.length old - 1) s'
          else String c (replace_from old new 0 s')
      end
  end.

Definition str_replace (old new s : string) : string :=
  replace_from old new 0 s.

Definition ascii_upper (c : ascii) : ascii :=
  let n := nat_of_ascii c in
  if ((97 <=? n) && (n <=? 122))%nat then ascii_of_nat (n - 32) else c.

Definition ascii_lower (c : ascii) : ascii :=
  let n := nat_of_ascii c in
  if ((65 <=? n) && (n <=? 90))%nat then ascii_of_nat (n + 32) else c.

Fixpoint str_map (f : ascii -> ascii) (s : string) : string :=
  match s with
  | EmptyString => EmptyString
  | String c s' => String (f c) (str_map f s')
  end.

(** [s.upper()] and [s.lower()], exact on ASCII column names. *)
Definition upper : string -> string := str_map ascii_upper.
Definition lower : string -> string := str_map ascii_lower.

(** ** Frames *)

Record DataFrame := mkFrame {
  columns : list string;
  rows : list (gmap string cell)
}.

(** [row[col]] *)
Definition at_col (col : string) (r : gmap string cell) : cell :=
  default NA (r !! col).

(** [col in df.columns] *)
Definition has_column (col : string) (df : DataFrame) : bool :=
  bool_decide (col ∈ columns df).

(** [df[col]] raises [KeyError] on a missing column. *)
Definition require (col : string) (df : DataFrame) : result unit :=
  if has_column col df then Ok tt else Raise (KeyError col).

Definition add_column (col : string) (cols : list string) : list string :=
  if bool_decide (col ∈ cols) then cols else (cols ++ [col])%list.

(** [df[col] = <element-wise expression>] *)
Definition assign (col : string) (f : gmap string cell -> cell)
    (df : DataFrame) : DataFrame :=
  {| columns := add_column col (columns df);
     rows := (fun r => <[col := f r]> r) <$> rows df |}.

(** [df.loc[mask, col] = v] *)
Definition loc_set (mask : gmap string cell -> bool) (col : string) (v : cell)
    (df : DataFrame) : DataFrame :=
  assign col (fun r => if mask r then v else at_col col r) df.

(** [df.empty] *)
Definition empty_frame (df : DataFrame) : bool :=
  match columns df, rows df with
  | [], _ | _, [] => true
  | _, _ => false
  end.

(** *** Element-wise operations of a column *)

Definition isna (c : cell) : bool :=
  match c with NA => true | _ => false end.

(** [series.isin(values)] *)
Definition isin (values : list cell) (c : cell) : bool :=
  bool_decide (c ∈ values).

(** [series == 'text'] *)
Definition eq_str (text : string) (c : cell) : bool :=
  bool_decide (c = Str text).

(** [series.str[0].astype(str) == ch] for a one-character ASCII [ch]. *)
Definition first_is (ch : string) (c : cell) : bool :=
  match c with
  | Str s => bool_decide (str_first s = Some ch)
  | _ => false
  end.

(** [series.str[-n:].astype(str) == text] *)
Definition last_is (n : nat) (text : string) (c : cell) : bool :=
  match c with
  | Str s => bool_decide (str_last n s = text)
  | _ => false
  end.

(** [series.str.len()] *)
Definition str_len (c : cell) : option nat :=
  match c with
  | Str s => Some (String.length s)
  | _ => None
  end.

(** [series.str.replace(old, new)] *)
Definition cell_replace (old new : string) (c : cell) : cell :=
  match c with
  | Str s => Str (str_replace old new s)
  | _ => NA
  end.

(** [series.astype(str)] on one value of a [string] or integer column.
    The text pandas prints for a float or a timestamp is not modelled:
    [None]. *)
Definition astype_str (c : cell) : option string :=
  match c with
  | NA => Some "<NA>"
  | Str s => Some s
  | Int z => Some (str_of_int z)
  | Num _ | Date _ => None
  end.

(** [series.astype(int)] on one value: floats are truncated, numerals are
    parsed, a missing value raises. *)
Definition astype_int (c : cell) : option Z :=
  match c with
  | Int z => Some z
  | Num q => Some (Z.quot (Qnum q) (Zpos (Qden q)))
  | Str s => int_of_str s
  | NA | Date _ => None
  end.

(** The value of a numeric cell in a [sum()], which skips missing values;
    [None] on a cell that is not a number. *)
Definition number (c : cell) : option Q :=
  match c with
  | NA => Some 0%Q
  | Int z => Some (inject_Z z)
  | Num q => Some q
  | Str _ | Date _ => None
  end.

Definition value (c : cell) : Q := default 0%Q (number c).

(** [series.drop_duplicates().to_list()]: first occurrences, in order. *)
Fixpoint drop_duplicates (l : list cell) : list cell :=
  match l with
  | [] => []
  | c :: l' => c :: filter (fun c' => c' ≠ c) (drop_duplicates l')
  end.

(** ** [class ImproveEstagios] *)

Module ImproveEstagios.

Definition rules_1c : list cell :=
  Str <$> ["9M"; "10M"; "11M"; "12M"; "13M"; "14M";
           "15M"; "16M"; "17M"; "18M"; "2VER"].
Definition rules_2c : list cell :=
  Str <$> ["2ºC"; "2°C"; "2º"; "2°"; "2º CORTE"; "2° CORTE"].
Definition rules_3c : list cell :=
  Str <$> ["3ºC"; "3°C"; "3º"; "3°"; "3º CORTE"; "3° CORTE"].
Definition rules_4c : list cell :=
  Str <$> ["4ºC"; "4°C"; "4º"; "4°"; "4º CORTE"; "4° CORTE"].

(** [range(5, 31)] *)
Definition range_5_31 : list Z := (fun n => 5 + Z.of_nat n) <$> seq 0 26.

Definition create_5c_list_values : list cell :=
  let variant (suffix : string) :=
    (fun number => Str (str_of_int number ++ suffix)) <$> range_5_31 in
  (variant "ºC" ++ variant "°C" ++
   variant "º" ++ variant "°" ++
   variant "ºCORTE" ++ variant "°CORTE" ++
   variant "ºC+" ++ variant "°C+")%list.

Definition rules_5c : list cell := create_5c_list_values.
Definition rules_plantio : list cell := Str <$> ["12MF"; "15MF"; "18MF"; "9MF"].
Definition rules_adef : list cell := Str <$> [""; "EXP"; "POU"; "POUSIO"; "ADEF"].
Definition rules_bis : list cell :=
  Str <$> ["BIS"; "BISADA"; "BISANOEMEIO"; "SOQUEIRA"; "SOQ"].

Definition classify_adef_ref_plantio (df : DataFrame) : DataFrame :=
  let df := loc_set (fun r => isin rules_adef (at_col "ESTAGIO" r)
                              || isna (at_col "ESTAGIO" r)
                              || isna (at_col "ESTAGIO" r))
                    "ESTAGIO_D" (Str "ADEF") df in
  let df := loc_set (fun r => isin rules_plantio (at_col "ESTAGIO" r))
                    "ESTAGIO_D" (Str "PLANTIO") df in
  loc_set (fun r => eq_str "REF" (at_col "ESTAGIO" r))
          "ESTAGIO_D" (Str "REF") df.

Definition classify_bis (df : DataFrame) : DataFrame :=
  loc_set (fun r => last_is 1 "B" (at_col "ESTAGIO" r)
                    || last_is 3 "BIS" (at_col "ESTAGIO" r)
                    || isin rules_bis (at_col "ESTAGIO" r))
          "ESTAGIO_D" (Str "BIS") df.

Definition classify_cortes (df : DataFrame) : DataFrame :=
  let df := loc_set (fun r => isin rules_1c (at_col "ESTAGIO" r))
                    "ESTAGIO_D" (Str "1ºC") df in
  let df := loc_set (fun r => isin rules_2c (at_col "ESTAGIO" r))
                    "ESTAGIO_D" (Str "2ºC") df in
  let df := loc_set (fun r => isin rules_3c (at_col "ESTAGIO" r))
                    "ESTAGIO_D" (Str "3ºC") df in
  let df := loc_set (fun r => isin rules_4c (at_col "ESTAGIO" r))
                    "ESTAGIO_D" (Str "4ºC") df in
  loc_set (fun r => isin rules_5c (at_col "ESTAGIO" r)
                    || first_is ">" (at_col "ESTAGIO" r))
          "ESTAGIO_D" (Str "5ºC+") df.

Definition format_estagios (df : DataFrame) : result DataFrame :=
  _ ← require "ESTAGIO" df;
  let df := assign "ESTAGIO_D" (fun _ => Str "") df in
  let df := classify_adef_ref_plantio df in
  let df := classify_bis df in
  let df := classify_cortes df in
  Ok df.

End ImproveEstagios.

(** ** Column-wise helpers that can raise *)

(** [df[col] = df[col].astype(int)] *)
Definition astype_int_column (col : string) (df : DataFrame) : result DataFrame :=
  _ ← require col df;
  rs ← mapM (fun r => match astype_int (at_col col r) with
                      | Some z => Ok (<[col := Int z]> r)
                      | None => Raise (ValueError "cannot convert to int")
                      end) (rows df);
  Ok {| columns := columns df; rows := rs |}.

(** ** [groupby]

    pandas factorises the key columns, drops the rows whose key holds a
    missing value ([dropna=True], the default), and orders the groups by
    key ([sort=True], the default); inside a group the rows keep their
    order. *)

Definition cell_rank (c : cell) : Z :=
  match c with NA => 0 | Int _ => 1 | Num _ => 2 | Str _ => 3 | Date _ => 4 end.

Definition date_compare (a b : date) : comparison :=
  match year a ?= year b with
  | Eq => match month_number (mon a) ?= month_number (mon b) with
          | Eq => day a ?= day b
          | c => c
          end
  | c => c
  end.

(** Order of the values of one column; a column is homogeneous, the rank
    only makes the order total. *)
Definition cell_compare (a b : cell) : comparison :=
  match a, b with
  | Int x, Int y => x ?= y
  | Num x, Num y => (x ?= y)%Q
  | Str x, Str y => String.compare x y
  | Date x, Date y => date_compare x y
  | _, _ => cell_rank a ?= cell_rank b
  end.

Fixpoint key_compare (k1 k2 : list cell) : comparison :=
  match k1, k2 with
  | [], [] => Eq
  | [], _ :: _ => Lt
  | _ :: _, [] => Gt
  | a :: k1', b :: k2' =>
      match cell_compare a b with
      | Eq => key_compare k1' k2'
      | c => c
      end
  end.

Definition key_le (k1 k2 : list cell) : Prop := key_compare k1 k2 ≠ Gt.

#[global] Instance key_le_dec k1 k2 : Decision (key_le k1 k2).
Proof. unfold key_le. solve_decision. Defined.

(** The key of a row, [None] when one of the key columns is missing in it. *)
Definition group_key (by_ : list string) (r : gmap string cell)
    : option (list cell) :=
  let k := (fun col => at_col col r) <$> by_ in
  if forallb (fun c => negb (isna c)) k then Some k else None.

Definition group_keys (by_ : list string) (rs : list (gmap string cell))
    : list (list cell) :=
  merge_sort key_le (remove_dups (omap (group_key by_) rs)).

Definition group_rows (by_ : list string) (k : list cell)
    (rs : list (gmap string cell)) : list (gmap string cell) :=
  filter (fun r => group_key by_ r = Some k) rs.

(** [df.groupby(by_)]: the groups, in key order. *)
Definition groupby (by_ : list string) (df : DataFrame)
    : list (list cell * list (gmap string cell)) :=
  (fun k => (k, group_rows by_ k (rows df))) <$> group_keys by_ (rows df).

Definition sumQ (l : list Q) : Q := foldr Qplus 0%Q l.

(** The aggregation ['sum'] of a column over a group. *)
Definition agg_sum (col : string) (rs : list (gmap string cell)) : Q :=
  sumQ ((fun r => value (at_col col r)) <$> rs).

(** The aggregation ['first']: the first value that is not missing. *)
Definition agg_first (col : string) (rs : list (gmap string cell)) : cell :=
  default NA (head (filter (fun c => isna c = false)
                           ((fun r => at_col col r) <$> rs))).

(** A ['sum'] raises on a column that holds text or timestamps. *)
Definition require_numeric (col : string) (df : DataFrame) : result unit :=
  _ ← require col df;
  if forallb (fun r => bool_decide (is_Some (number (at_col col r)))) (rows df)
  then Ok tt else Raise (TypeError col).

(** [series.idxmax()]: the label of the first maximum. *)
Fixpoint idxmax_from {K : Type} (best : K) (m : Q) (l : list (K * Q)) : K :=
  match l with
  | [] => best
  | (k, q) :: l' =>
      if Qle_bool q m then idxmax_from best m l' else idxmax_from k q l'
  end.

Definition idxmax {K : Type} (l : list (K * Q)) : option K :=
  match l with
  | [] => None
  | (k, q) :: l' => Some (idxmax_from k q l')
  end.

(** ** Dates *)

(** [pd.to_datetime] on one value that is not missing; the first argument
    is [dayfirst].  [None] when the value cannot be parsed.  The parser
    belongs to pandas and is left open. *)
Class DateParser := to_datetime : bool -> cell -> option date.

Definition zero_pad (width : nat) (s : string) : string :=
  String.concat "" (replicate (width - String.length s) "0") ++ s.

(** [ts.strftime('%Y-%m-%d')] *)
Definition strftime (d : date) : string :=
  zero_pad 4 (str_of_int (year d)) ++ "-" ++
  zero_pad 2 (str_of_int (month_number (mon d))) ++ "-" ++
  zero_pad 2 (str_of_int (day d)).

(** [pd.to_datetime(series, errors=...)] on one value: a missing value
    gives [NaT]; a value that cannot be parsed gives [NaT] under
    [errors='coerce'] and raises otherwise. *)
Definition pd_to_datetime `{DateParser} (coerce dayfirst : bool) (c : cell)
    : result (option date) :=
  match c with
  | NA => Ok None
  | _ => match to_datetime dayfirst c with
         | Some d => Ok (Some d)
         | None => if coerce then Ok None else Raise (ParserError c)
         end
  end.

(** ** [class ImproveContratos] *)

Module ImproveContratos.

Definition proprias_values : list cell :=
  Str <$> ["1-SETOR A PROPRIA"; "Próprio"; "AGRICOLA CASE";
           "2-PARCERIA"; "PROPRIA"; "SUBPARCERIA"; "ARRENDAMENTO";
           "COMPRA DE CANA"; "ARRE"].

Definition fornecedores_values : list cell :=
  Str <$> ["Fornecedores"; "3-FORNECEDOR";
           "6-FRANQUIA"; "FORNEC.C"; "FORNEC.S"; "SPOT"].

Definition get_empty_rows_value (df : DataFrame) : cell :=
  let options_contracts :=
    drop_duplicates (filter (fun c => isna c = false)
                            ((fun r => at_col "TP_PROP" r) <$> rows df)) in
  match options_contracts with
  | [only] => only
  | _ => Str "ADEF"
  end.

Definition format_contratos (df : DataFrame) : result DataFrame :=
  _ ← require "TP_PROP" df;
  let df := loc_set (fun r => first_is "P" (at_col "TP_PROP" r))
                    "TP_PROP" (Str "PRÓPRIAS") df in
  let df := loc_set (fun r => isin proprias_values (at_col "TP_PROP" r))
                    "TP_PROP" (Str "PRÓPRIAS") df in
  let df := loc_set (fun r => first_is "F" (at_col "TP_PROP" r))
                    "TP_PROP" (Str "FORNECEDORES") df in
  let df := loc_set (fun r => isin fornecedores_values (at_col "TP_PROP" r))
                    "TP_PROP" (Str "FORNECEDORES") df in
  let empty_rows_value := get_empty_rows_value df in
  let df := loc_set (fun r => eq_str "" (at_col "TP_PROP" r)
                              || isna (at_col "TP_PROP" r)
                              || isna (at_col "TP_PROP" r))
                    "TP_PROP" empty_rows_value df in
  Ok df.

End ImproveContratos.

(** [df.columns = [f(column) for column in df.columns]] *)
Definition rename_columns (f : string -> string) (df : DataFrame) : DataFrame :=
  {| columns := f <$> columns df;
     rows := (fun r : gmap string cell => (kmap f r : gmap string cell))
               <$> rows df |}.

(** [df[col] = df[col].astype(str)] *)
Definition astype_str_column (col : string) (df : DataFrame) : result DataFrame :=
  _ ← require col df;
  rs ← mapM (fun r => match astype_str (at_col col r) with
                      | Some s => Ok (<[col := Str s]> r)
                      | None => Raise (TypeError col)
                      end) (rows df);
  Ok {| columns := columns df; rows := rs |}.

(** ** [class JanelaDeColheita] *)

Module JanelaDeColheita.
Section WithParser.
Context `{DateParser}.

(** [(JAN_COL == '') | JAN_COL.isnull() | (JAN_COL.str.len() == 0)] *)
Definition jan_col_unset (r : gmap string cell) : bool :=
  eq_str "" (at_col "JAN_COL" r)
  || isna (at_col "JAN_COL" r)
  || bool_decide (str_len (at_col "JAN_COL" r) = Some 0%nat).

Definition int_gt (n : Z) (c : cell) : bool :=
  match c with Int z => n <? z | _ => false end.

Definition int_le (n : Z) (c : cell) : bool :=
  match c with Int z => z <=? n | _ => false end.

Definition format_gridcode (df : DataFrame) : result DataFrame :=
  df ← astype_int_column "GRIDCODE" df;
  df ← astype_str_column "GRIDCODE" df;
  astype_int_column "GRIDCODE" df.

Definition classificar_estagio (df : DataFrame) : result DataFrame :=
  let df := assign "JAN_COL" (fun _ => Str "") df in
  _ ← require "ESTAGIO" df;
  let df := loc_set (fun r => eq_str "12M" (at_col "ESTAGIO" r))
                    "JAN_COL" (Str "TARDIA") df in
  let df := loc_set (fun r => eq_str "15M" (at_col "ESTAGIO" r))
                    "JAN_COL" (Str "MÉDIA") df in
  let df := loc_set (fun r => eq_str "18M" (at_col "ESTAGIO" r))
                    "JAN_COL" (Str "INÍCIO") df in
  let df := loc_set (fun r => eq_str "2VER" (at_col "ESTAGIO" r))
                    "JAN_COL" (Str "INÍCIO") df in
  Ok df.

Definition classificar_cana_bis (df : DataFrame) : result DataFrame :=
  _ ← require "DESC_CANA" df;
  Ok (loc_set (fun r => eq_str "BIS" (at_col "DESC_CANA" r)
                        || eq_str "BISADA" (at_col "DESC_CANA" r))
              "JAN_COL" (Str "INÍCIO") df).

Definition create_mes_corte_column (df : DataFrame) : result DataFrame :=
  _ ← require "DT_ULT_COR" df;
  rs ← mapM (fun r =>
               d ← pd_to_datetime false false (at_col "DT_ULT_COR" r);
               let month_ := match d with
                             | Some d => month_number (mon d)
                             | None => 0
                             end in
               Ok (<["MES_CORTE" := Int month_]> r)) (rows df);
  let df := {| columns := add_column "MES_CORTE" (columns df); rows := rs |} in
  Ok (loc_set (fun r => match str_len (at_col "JAN_COL" r) with
                        | Some n => (0 <? n)%nat
                        | None => false
                        end)
              "MES_CORTE" (Int 0) df).

Definition classificar_mes_corte (df : DataFrame) : result DataFrame :=
  df ← create_mes_corte_column df;
  let df := loc_set (fun r => jan_col_unset r &&
                      isin (Int <$> [1; 2; 3; 4; 5; 6]) (at_col "MES_CORTE" r))
                    "JAN_COL" (Str "INÍCIO") df in
  let df := loc_set (fun r => jan_col_unset r &&
                      isin (Int <$> [7; 8]) (at_col "MES_CORTE" r))
                    "JAN_COL" (Str "MÉDIA") df in
  let df := loc_set (fun r => jan_col_unset r &&
                      isin (Int <$> [9; 10; 11; 12]) (at_col "MES_CORTE" r))
                    "JAN_COL" (Str "TARDIA") df in
  Ok df.

Definition classificar_idade_img (df : DataFrame) : result DataFrame :=
  df ← astype_int_column "IDADE_IMG" df;
  let df := loc_set (fun r => jan_col_unset r
                      && bool_decide (at_col "MES_CORTE" r = Int 0)
                      && int_gt 10 (at_col "IDADE_IMG" r))
                    "JAN_COL" (Str "INÍCIO") df in
  let df := loc_set (fun r => jan_col_unset r
                      && bool_decide (at_col "MES_CORTE" r = Int 0)
                      && isin (Int <$> [8; 9; 10]) (at_col "IDADE_IMG" r))
                    "JAN_COL" (Str "MÉDIA") df in
  let df := loc_set (fun r => jan_col_unset r
                      && bool_decide (at_col "MES_CORTE" r = Int 0)
                      && int_le 7 (at_col "IDADE_IMG" r))
                    "JAN_COL" (Str "TARDIA") df in
  Ok df.

(** The four classification steps of the [else] branch. *)
Definition gerar_jan_col (df : DataFrame) : result DataFrame :=
  df ← classificar_estagio df;
  df ← classificar_cana_bis df;
  df ← classificar_mes_corte df;
  classificar_idade_img df.

(** The closing [ReprojectGeometries(...).reproject()] rewrites the
    geometry column and the CRS only, and cannot raise; the attribute
    table it returns is the one computed here. *)
Definition classify_janela_colheita (df : DataFrame) : result DataFrame :=
  df ← (if has_column "JAN_COL" df then Ok df else gerar_jan_col df);
  format_gridcode df.

End WithParser.
End JanelaDeColheita.

(** ** [class NdviDataValidation] *)

Module NdviDataValidation.

Definition gridcode_values : list cell := Int <$> [1; 2; 3; 4; 5; 6].
Definition contratos_values : list cell :=
  Str <$> ["PRÓPRIAS"; "FORNECEDORES"; "ADEF"].
Definition estagios_values : list cell :=
  Str <$> ["1ºC"; "2ºC"; "3ºC";
           "4ºC"; "5ºC+"; "BIS";
           "ADEF"; "REF"; "PLANTIO"].

(** [df.loc[~df[col].isin(values)]] *)
Definition not_isin_rows (col : string) (values : list cell) (df : DataFrame)
    : list (gmap string cell) :=
  filter (fun r => isin values (at_col col r) = false) (rows df).

Definition column_values (col : string) (rs : list (gmap string cell))
    : list cell :=
  (fun r => at_col col r) <$> rs.

Definition contratos_validation (df : DataFrame) : result unit :=
  _ ← require "TP_PROP" df;
  let contratos_rows := not_isin_rows "TP_PROP" contratos_values df in
  let wrong_values := drop_duplicates (column_values "TP_PROP" contratos_rows) in
  match contratos_rows with
  | [] => Ok tt
  | _ :: _ => Raise (InvalidContrato wrong_values)
  end.

Definition estagios_validation (df : DataFrame) : result unit :=
  _ ← require "ESTAGIO_D" df;
  let list_estagios := drop_duplicates (column_values "ESTAGIO_D" (rows df)) in
  let estagios_rows := not_isin_rows "ESTAGIO_D" estagios_values df in
  let wrong_values := drop_duplicates (column_values "ESTAGIO_D" estagios_rows) in
  match estagios_rows with
  | [] => Ok tt
  | _ :: _ => Raise (InvalidEstagio wrong_values list_estagios)
  end.

Definition gridcode_validation (df : DataFrame) : result unit :=
  _ ← require "GRIDCODE" df;
  let gridcode_rows := not_isin_rows "GRIDCODE" gridcode_values df in
  let wrong_values := drop_duplicates (column_values "GRIDCODE" gridcode_rows) in
  match gridcode_rows with
  | [] => Ok tt
  | _ :: _ => Raise (InvalidGridcode wrong_values)
  end.

Definition validation (df : DataFrame) : result unit :=
  _ ← estagios_validation df;
  _ ← gridcode_validation df;
  contratos_validation df.

End NdviDataValidation.

(** ** [class IntersectNdvi] *)

Module IntersectNdvi.
Section WithParser.
Context `{DateParser}.

Definition check_columns (df : DataFrame) : result unit :=
  foldr (fun column k =>
           if has_column column df then k
           else Raise (ValueError ("Coluna " ++ column ++ " não está no shapefile!")))
        (Ok tt) ["DESC_CANA"; "GRIDCODE"; "IDADE_IMG"; "DATA_IMG"].

Definition classify_date_image (df : DataFrame) : result DataFrame :=
  _ ← require "DATA_IMG" df;
  _ ← require_numeric "AREA_NDVI" df;
  let grouped := (fun g => (g.1, agg_sum "AREA_NDVI" g.2))
                   <$> groupby ["DATA_IMG"] df in
  match idxmax grouped with
  | None => Raise (ValueError "attempt to get argmax of an empty sequence")
  | Some k =>
      let date_with_highest_sum_area := default NA (head k) in
      Ok (assign "DATA_IMG" (fun _ => date_with_highest_sum_area) df)
  end.

Definition format_date_column (date_column : string) (df : DataFrame)
    : result DataFrame :=
  _ ← require date_column df;
  let df := assign date_column
              (fun r => if isna (at_col date_column r)
                        then Str "1900-01-01" else at_col date_column r) df in
  let df := loc_set (fun r => eq_str "" (at_col date_column r)
                              || isna (at_col date_column r)
                              || isna (at_col date_column r)
                              || eq_str "<NA>" (at_col date_column r))
                    date_column (Str "1900-01-01") df in
  rs ← mapM (fun r =>
               d ← pd_to_datetime true false (at_col date_column r);
               Ok (<[date_column := match d with
                                    | Some d => Str (strftime d)
                                    | None => NA
                                    end]> r)) (rows df);
  Ok {| columns := columns df; rows := rs |}.

(** The first name of [names] that is a column, as the list
    comprehensions of the two [__create_dt_*] methods select it. *)
Definition first_present (names : list string) (df : DataFrame)
    : option string :=
  head (filter (fun name => name ∈ columns df) names).

Definition create_dt_imagem_column (df : DataFrame) : result DataFrame :=
  df ← (if has_column "DATA_IMG" df then Ok df
        else match first_present ["DT_IMAGEM"; "DT_IMG"] df with
             | None => Raise (ValueError "INTERSECT_NDVI não possui coluna de DATA_IMG")
             | Some column => Ok (assign "DATA_IMG" (at_col column) df)
             end);
  format_date_column "DATA_IMG" df.

Definition create_estagio_column (safra : Z) (df : DataFrame)
    : result DataFrame :=
  let estagio_ano_column := "ESTAGIO_" ++ str_last 2 (str_of_int safra) in
  let df := if has_column estagio_ano_column df
            then assign "ESTAGIO" (at_col estagio_ano_column) df
            else df in
  if negb (has_column "ESTAGIO" df)
  then Raise (ValueError "INTERSECT_NDVI não possui coluna de ESTAGIO")
  else
    let df := assign "ESTAGIO"
                (fun r => cell_replace "Â" "" (at_col "ESTAGIO" r)) df in
    let df := assign "ESTAGIO"
                (fun r => cell_replace " " "" (at_col "ESTAGIO" r)) df in
    Ok df.

Definition create_dt_ult_corte_column (safra : Z) (df : DataFrame)
    : result DataFrame :=
  df ← (if has_column "DT_ULT_COR" df then Ok df
        else
          match int_of_str (str_last 2 (str_of_int safra)) with
          | None => Raise (ValueError "invalid literal for int()")
          | Some yy =>
              let last_year := yy - 1 in
              let columns_dt_ult_corte :=
                ["ULT_CORTE"; "CORTE_" ++ str_of_int last_year] in
              match first_present columns_dt_ult_corte df with
              | None => Raise (ValueError "INTERSECT_NDVI não possui coluna de DT_ULT_COR")
              | Some column => Ok (assign "DT_ULT_COR" (at_col column) df)
              end
          end);
  format_date_column "DT_ULT_COR" df.

(** The geometry column, which [__format_columns] also copies, is not
    part of the attribute table modelled here. *)
Definition format_columns (safra : Z) (df : DataFrame) : result DataFrame :=
  let df := rename_columns upper df in
  df ← create_estagio_column safra df;
  df ← create_dt_imagem_column df;
  df ← create_dt_ult_corte_column safra df;
  _ ← check_columns df;
  Ok df.

Definition ndvi_data (safra : Z) (intersect_ndvi : DataFrame)
    : result DataFrame :=
  df ← format_columns safra intersect_ndvi;
  improved_contracts ← ImproveContratos.format_contratos df;
  improved_estagios ← ImproveEstagios.format_estagios improved_contracts;
  ndvi_data_classified ←
    JanelaDeColheita.classify_janela_colheita improved_estagios;
  ndvi_data_classified ← classify_date_image ndvi_data_classified;
  _ ← NdviDataValidation.validation ndvi_data_classified;
  Ok ndvi_data_classified.

End WithParser.
End IntersectNdvi.

(** ** [class IntersectNdviSummarized] *)

Inductive aggfunc := first_ | sum_.

Definition aggregate (f : aggfunc) (col : string) (rs : list (gmap string cell))
    : cell :=
  match f with
  | first_ => agg_first col rs
  | sum_ => Num (agg_sum col rs)
  end.

Definition require_all (cols : list string) (df : DataFrame) : result unit :=
  foldr (fun col k => _ ← require col df; k) (Ok tt) cols.

(** The row that [groupby(by_).agg(spec)] followed by [reset_index()], or
    with [as_index=False], makes of one group. *)
Definition agg_row (by_ : list string) (spec : list (string * aggfunc))
    (g : list cell * list (gmap string cell)) : gmap string cell :=
  list_to_map (zip by_ g.1 ++
               ((fun cf => (cf.1, aggregate cf.2 cf.1 g.2)) <$> spec))%list.

Definition groupby_agg (by_ : list string) (spec : list (string * aggfunc))
    (df : DataFrame) : result DataFrame :=
  _ ← require_all (by_ ++ spec.*1)%list df;
  _ ← foldr (fun cf k => match cf.2 with
                         | sum_ => _ ← require_numeric cf.1 df; k
                         | first_ => k
                         end) (Ok tt) spec;
  Ok {| columns := (by_ ++ spec.*1)%list;
        rows := agg_row by_ spec <$> groupby by_ df |}.

Module IntersectNdviSummarized.
Section Self.
(** [self.safra], [self.janela]; [self.client_id] is [str(client_id)]. *)
Variables (safra : Z) (janela : string) (client_id : Z).

Definition format_columns (df : DataFrame) : result DataFrame :=
  let df := assign "SAFRA" (fun _ => Int safra) df in
  let df := assign "JANELA" (fun _ => Str janela) df in
  df ← astype_str_column "SAFRA" df;
  _ ← require "ESTAGIO_D" df;
  let df := assign "ESTAGIO" (at_col "ESTAGIO_D") df in
  Ok (rename_columns lower df).

(** [df[col].astype(str)] for one row *)
Definition text_of (col : string) (r : gmap string cell) : result string :=
  match astype_str (at_col col r) with
  | Some s => Ok s
  | None => Raise (TypeError col)
  end.

Definition create_chave_column (df : DataFrame) : result DataFrame :=
  _ ← require_all ["fazenda"; "gridcode"; "estagio"; "tp_prop";
                   "variedade"; "jan_col"; "safra"; "janela"] df;
  rs ← mapM (fun r =>
               fazenda ← text_of "fazenda" r;
               gridcode ← text_of "gridcode" r;
               estagio ← text_of "estagio" r;
               tp_prop ← text_of "tp_prop" r;
               variedade ← text_of "variedade" r;
               jan_col ← text_of "jan_col" r;
               safra_ ← text_of "safra" r;
               janela_ ← text_of "janela" r;
               Ok (<["chave" := Str (fazenda ++ "_" ++
                                     gridcode ++ "_" ++
                                     estagio ++ "_" ++
                                     tp_prop ++ "_" ++
                                     variedade ++ "_" ++
                                     jan_col ++ "_" ++
                                     safra_ ++ "_" ++
                                     janela_)]> r)) (rows df);
  Ok {| columns := add_column "chave" (columns df); rows := rs |}.

Definition groupby_intersect_ndvi_data_by_chave (df : DataFrame)
    : result DataFrame :=
  groupby_agg ["chave"]
    [("safra", first_); ("fazenda", first_); ("gridcode", first_);
     ("estagio", first_); ("tp_prop", first_); ("variedade", first_);
     ("jan_col", first_); ("janela", first_); ("area_ndvi", sum_);
     ("data_img", first_)] df.

Definition create_chave_final_column (df : DataFrame) : result DataFrame :=
  df ← astype_int_column "safra" df;
  _ ← require_all ["safra"; "janela"; "estagio"; "jan_col"; "gridcode"] df;
  rs ← mapM (fun r =>
               safra_ ← text_of "safra" r;
               janela_ ← text_of "janela" r;
               estagio ← text_of "estagio" r;
               jan_col ← text_of "jan_col" r;
               gridcode ← text_of "gridcode" r;
               Ok (<["chave" := Str (str_of_int client_id ++ "_" ++
                                     safra_ ++ "_" ++
                                     janela_ ++ "_" ++
                                     estagio ++ "_" ++
                                     jan_col ++ "_" ++
                                     gridcode)]> r)) (rows df);
  Ok {| columns := add_column "chave" (columns df); rows := rs |}.

Definition list_columns : list string :=
  ["chave"; "safra"; "janela"; "estagio";
   "jan_col"; "gridcode"; "tp_prop"; "data_img"].

Definition groupby_data_final (df : DataFrame) : result DataFrame :=
  df ← create_chave_final_column df;
  groupby_agg list_columns [("area_ndvi", sum_)] df.


End Self.
End IntersectNdviSummarized.

(** ** [class DataBase] and [class InsertIntersectNdviIntoDatabase]

    The warehouse holds the table [public.clientes], read once when the
    loader is built, and the table [powerbi.intersect_ndvi].  Statements
    are taken to succeed: the paths on which psycopg2 or SQLAlchemy raise
    are printed and swallowed by [DataBase] and are not modelled. *)

Record Database := mkDatabase {
  clientes : DataFrame;
  intersect_ndvi : list (gmap string cell)
}.

Module InsertIntersectNdviIntoDatabase.
Section WithParser.
Context `{DateParser}.

(** The rows selected by
    [WHERE client_id = {client_id} AND safra = {safra} AND janela = '{janela}']. *)
Definition where_unit (client_id safra : Z) (janela : string)
    (r : gmap string cell) : bool :=
  bool_decide (at_col "client_id" r = Int client_id)
  && bool_decide (at_col "safra" r = Int safra)
  && bool_decide (at_col "janela" r = Str janela).

(** [DataBase.delete_rows] on that statement *)
Definition delete_old_rows_from_database (client_id : Z) (janela : string)
    (safra : Z) (db : Database) : Database :=
  {| clientes := clientes db;
     intersect_ndvi :=
       filter (fun r => where_unit client_id safra janela r = false)
              (intersect_ndvi db) |}.

(** [DataBase.insert_dataframe_into_postgres]: [to_sql(if_exists='append')] *)
Definition insert_dataframe_into_postgres (dataframe : DataFrame)
    (db : Database) : Database :=
  {| clientes := clientes db;
     intersect_ndvi := (intersect_ndvi db ++ rows dataframe)%list |}.

Definition get_client_data_interest (column : string) (client_id : Z)
    (db : Database) : cell :=
  match filter (fun r => at_col "id" r = Int client_id) (rows (clientes db)) with
  | [] => NA
  | r :: _ => at_col column r
  end.

Definition insert_ndvi_data_into_database (client_id : Z) (janela : string)
    (client_ndvi_data : DataFrame) (safra : Z) (db : Database)
    : result Database :=
  let client_complete_name := get_client_data_interest "cliente" client_id db in
  let df := assign "client_id" (fun _ => Int client_id) client_ndvi_data in
  let df := assign "client_name" (fun _ => client_complete_name) df in
  _ ← require "data_img" df;
  rs ← mapM (fun r =>
               d ← pd_to_datetime false true (at_col "data_img" r);
               Ok (<["data_img" := match d with
                                   | Some d => Date d
                                   | None => NA
                                   end]> r)) (rows df);
  let df := {| columns := columns df; rows := rs |} in
  match rows df with
  | [] => Raise IndexError
  | _ :: _ =>
      let db := delete_old_rows_from_database client_id janela safra db in
      Ok (insert_dataframe_into_postgres df db)
  end.

End WithParser.
End InsertIntersectNdviIntoDatabase.

(** ** Geometry ([source/helpers/gisFunctions.py])

    The geometry algorithms are those of shapely (GEOS), pyproj and the
    [utm] package.  The code reaches them through the interface below,
    which is left open; [GisLib] names each operation after the call the
    source makes. *)

Class GisLib (geometry : Type) := {
  geom_type : geometry -> string;
  is_empty : geometry -> bool;
  is_valid : geometry -> bool;
  (** [geometry.geoms], the members of a collection *)
  geoms : geometry -> list geometry;
  (** the geometries of [GeoDataFrame({'geometry': [g]}).explode()] *)
  explode : geometry -> list geometry;
  (** the geometry of [gdf.dissolve()]; [None] when it raises *)
  dissolve : list geometry -> option geometry;
  make_valid : geometry -> geometry;
  buffer : Q -> geometry -> geometry;
  (** [loads(str(g))], the round trip through WKT *)
  loads_str : geometry -> geometry;
  (** [geometry.centroid], as [(x, y)] *)
  centroid : geometry -> Q * Q;
  area : geometry -> Q;
  (** [utm.from_latlon(latitude, longitude)]: easting, northing, zone
      number and zone letter; [None] when it raises [OutOfRangeError] *)
  from_latlon : Q -> Q -> option (Q * Q * Z * string);
  (** the coordinate transform pyproj builds from one EPSG code to
      another; [None] when it raises *)
  transformer : Z -> Z -> option (geometry -> geometry);
  (** whether [gdf.loc[[index], 'geometry'] = g] raises *)
  setitem_raises : geometry -> bool
}.

Record Feature (geometry : Type) := mkFeature {
  attrs : gmap string cell;
  geom : geometry
}.
Arguments mkFeature {geometry} attrs geom.
Arguments attrs {geometry} f.
Arguments geom {geometry} f.

(** A [GeoDataFrame]: one CRS (an EPSG code, if any) for the whole frame. *)
Record GeoDataFrame (geometry : Type) := mkGeo {
  crs : option Z;
  features : list (Feature geometry)
}.
Arguments mkGeo {geometry} crs features.
Arguments crs {geometry} g.
Arguments features {geometry} g.

(** The parameter [to] of [ReprojectGeometries]: ['utm'], or the decimal
    numeral of an EPSG code (['4326'] by default). *)
Inductive target := UTM | EPSG (code : Z).

Section Gis.
Context {geometry : Type} `{GisLib geometry}.

Definition set_geom (g : geometry) (f : Feature geometry) : Feature geometry :=
  {| attrs := attrs f; geom := g |}.

Definition map_geom (t : geometry -> geometry) (f : Feature geometry)
    : Feature geometry :=
  set_geom (t (geom f)) f.

(** [gdf.to_crs(epsg=epsg)]; [None] when it raises (a frame without CRS,
    or no transform between the two codes). *)
Definition to_crs (epsg : Z) (gdf : GeoDataFrame geometry)
    : option (GeoDataFrame geometry) :=
  src ← crs gdf;
  t ← transformer src epsg;
  Some {| crs := Some epsg; features := map_geom t <$> features gdf |}.

(** [gdf.crs = f"EPSG:{epsg}"] *)
Definition set_crs (epsg : Z) (gdf : GeoDataFrame geometry)
    : GeoDataFrame geometry :=
  {| crs := Some epsg; features := features gdf |}.

(** [try: gdf = gdf.to_crs(epsg=epsg)  except: gdf.crs = f"EPSG:{epsg}"] *)
Definition to_crs_or_set (epsg : Z) (gdf : GeoDataFrame geometry)
    : GeoDataFrame geometry :=
  match to_crs epsg gdf with
  | Some gdf' => gdf'
  | None => set_crs epsg gdf
  end.

(** *** [class ReprojectGeometries] *)

(** One turn of the loop of [__reproject_to_utm]: [row] comes from the
    frame the loop was started on, the reprojection acts on the frame
    [self.geodataframe] currently names. *)
Definition reproject_to_utm_step (current : result (GeoDataFrame geometry))
    (row : Feature geometry) : result (GeoDataFrame geometry) :=
  gdf ← current;
  let c := centroid (geom row) in
  match from_latlon c.2 c.1 with
  | None => Raise (ValueError "OutOfRangeError")
  | Some (utm_x, utm_y, band, zone) =>
      if Qlt_le_dec c.2 0
      then let epsg := 32700 + band in Ok (to_crs_or_set epsg gdf)
      else Ok gdf
  end.

Definition reproject_to_utm (gdf : GeoDataFrame geometry)
    : result (GeoDataFrame geometry) :=
  foldl reproject_to_utm_step (Ok gdf) (features gdf).

Definition reproject_epsg (code : Z) (gdf : GeoDataFrame geometry)
    : GeoDataFrame geometry :=
  to_crs_or_set code gdf.

Definition reproject (to : target) (gdf : GeoDataFrame geometry)
    : result (GeoDataFrame geometry) :=
  match to with
  | UTM => reproject_to_utm gdf
  | EPSG code => Ok (reproject_epsg code gdf)
  end.

(** *** [class ImproveGeometryCollections] *)

Definition multipolygon_to_polygons (g : geometry) : list geometry :=
  explode g.

Definition get_new_geometry (new_multipolygon : geometry) : geometry :=
  buffer 0 (loads_str new_multipolygon).

Definition geometry_collection_to_multipolygon (row_geometry : geometry)
    : result geometry :=
  let new_gdf :=
    flat_map multipolygon_to_polygons
      (filter (fun g => geom_type g ≠ "LineString") (geoms row_geometry)) in
  match dissolve new_gdf with
  | None => Raise (ValueError "dissolve")
  | Some new_multipolygon => Ok (get_new_geometry new_multipolygon)
  end.

(** *** [class MakeValidGeometries] *)

Definition geoM_type_list : list string :=
  ["Polygon"; "MultiPolygon"; "GeometryCollection"].

(** [__init__]: the rows kept *)
Definition init_MakeValidGeometries (gdf : GeoDataFrame geometry)
    : GeoDataFrame geometry :=
  {| crs := crs gdf;
     features :=
       filter (fun f => negb (is_empty (geom f)) = true
                        ∧ geom_type (geom f) ∈ geoM_type_list)
              (features gdf) |}.

Definition improve_geometry_collection (gdf : GeoDataFrame geometry)
    : result (GeoDataFrame geometry) :=
  fs ← mapM (fun f =>
               if decide (geom_type (geom f) = "GeometryCollection")
               then new_geometry ← geometry_collection_to_multipolygon (geom f);
                    if setitem_raises new_geometry
                    then Raise (ValueError "setting geometry")
                    else Ok (set_geom new_geometry f)
               else Ok f) (features gdf);
  Ok {| crs := crs gdf; features := fs |}.

(** The loop of [__make_valid], on one row. *)
Definition repair_row (f : Feature geometry) : Feature geometry :=
  if is_valid (geom f) then f
  else
    let fix_ := make_valid (geom f) in
    if setitem_raises fix_
    then set_geom (buffer 0 (geom f)) f
    else set_geom fix_ f.

Definition make_valid_frame (gdf : GeoDataFrame geometry)
    : GeoDataFrame geometry :=
  let gdf := {| crs := crs gdf; features := repair_row <$> features gdf |} in
  let gdf := {| crs := crs gdf;
                features := map_geom (buffer 0) <$> features gdf |} in
  reproject_epsg 4326 gdf.

Definition improve_geometry (gdf : GeoDataFrame geometry)
    : result (GeoDataFrame geometry) :=
  new_geodataframe ← improve_geometry_collection (init_MakeValidGeometries gdf);
  Ok (make_valid_frame new_geodataframe).

(** *** [class Area] *)

(** Half-to-even rounding to an integer, then [round(x, 7)]. *)
Definition round_half_even (q : Q) : Z :=
  let f := Qfloor q in
  match ((q - inject_Z f) ?= 1 # 2)%Q with
  | Lt => f
  | Gt => f + 1
  | Eq => if Z.even f then f else f + 1
  end.

Definition round7 (q : Q) : Q :=
  (inject_Z (round_half_even (q * inject_Z (10 ^ 7))) / inject_Z (10 ^ 7))%Q.

(** [gdf[column_name] = round(gdf['geometry'].area / 10000, 7)] *)
Definition set_area_column (column_name : string) (gdf : GeoDataFrame geometry)
    : GeoDataFrame geometry :=
  {| crs := crs gdf;
     features :=
       (fun f => {| attrs := <[column_name :=
                                 Num (round7 (area (geom f) / inject_Z 10000))]>
                               (attrs f);
                    geom := geom f |}) <$> features gdf |}.

(** [Area(gdf, column_name).calculate_area()]: the constructor
    reprojects, the method writes the column and repairs. *)
Definition calculate_area (column_name : string) (gdf : GeoDataFrame geometry)
    : result (GeoDataFrame geometry) :=
  self_geodataframe ← reproject UTM gdf;
  improve_geometry (set_area_column column_name self_geodataframe).

End Gis.

(** ** Interpretations of the open interfaces, to run the code on examples *)

Definition month_of_number (z : Z) : option month :=
  match z with
  | 1 => Some Jan | 2 => Some Feb | 3 => Some Mar | 4 => Some Apr
  | 5 => Some May | 6 => Some Jun | 7 => Some Jul | 8 => Some Aug
  | 9 => Some Sep | 10 => Some Oct | 11 => Some Nov | 12 => Some Dec
  | _ => None
  end.

(** The ISO format [YYYY-MM-DD], which [strftime] above writes. *)
Definition iso_date (s : string) : option date :=
  if bool_decide (String.length s = 10%nat
                  ∧ String.substring 4 1 s = "-"
                  ∧ String.substring 7 1 s = "-")
  then
    y ← int_of_str (String.substring 0 4 s);
    m ← int_of_str (String.substring 5 2 s) ≫= month_of_number;
    d ← int_of_str (String.substring 8 2 s);
    if (1 <=? d) && (d <=? 31) then Some (mkDate y m d) else None
  else None.

(** A parser that reads ISO dates only. *)
Definition iso_parser : DateParser :=
  fun _ c =>
    match c with
    | Str s => iso_date s
    | Date d => Some d
    | _ => None
    end.

(** A frame from its column names and rows of values. *)
Definition frame (cols : list string) (values : list (list cell)) : DataFrame :=
  {| columns := cols;
     rows := (fun vs => list_to_map (zip cols vs)) <$> values |}.

(** The values of a frame, column by column, to read a result. *)
Definition to_values (df : DataFrame) : list (list cell) :=
  (fun r => (fun col => at_col col r) <$> columns df) <$> rows df.

(** A small geometry library: a geometry is its type name, its validity,
    its centroid, its area and its members.  The transform between two
    EPSG codes moves the centroid east by the difference of the codes; it
    stands for any transform that changes coordinates. *)
#[local] Unset Elimination Schemes.
Inductive sketch :=
| Sketch (kind : string) (valid : bool) (x y surface : Q) (members : list sketch).

#[local] Set Elimination Schemes.

Definition sketch_kind (g : sketch) : string :=
  match g with Sketch kind _ _ _ _ _ => kind end.
Definition sketch_valid (g : sketch) : bool :=
  match g with Sketch _ valid _ _ _ _ => valid end.
Definition sketch_centroid (g : sketch) : Q * Q :=
  match g with Sketch _ _ x y _ _ => (x, y) end.
Definition sketch_area (g : sketch) : Q :=
  match g with Sketch _ _ _ _ surface _ => surface end.
Definition sketch_members (g : sketch) : list sketch :=
  match g with Sketch _ _ _ _ _ members => members end.

Definition sketch_buffer (_ : Q) (g : sketch) : sketch :=
  match g with
  | Sketch kind _ x y surface members =>
      Sketch (if bool_decide (kind = "MultiPolygon") then kind else "Polygon")
             true x y surface members
  end.

Definition sketch_make_valid (g : sketch) : sketch :=
  match g with
  | Sketch kind _ x y surface members => Sketch kind true x y surface members
  end.

Definition sketch_move (east : Z) (g : sketch) : sketch :=
  match g with
  | Sketch kind valid x y surface members =>
      Sketch kind valid (x + inject_Z east)%Q y surface members
  end.

Definition sketch_dissolve (l : list sketch) : option sketch :=
  match l with
  | [] => None
  | g :: _ =>
      Some (Sketch "MultiPolygon" true (sketch_centroid g).1 (sketch_centroid g).2
                   (foldr Qplus 0%Q (sketch_area <$> l)) l)
  end.

(** The zone number of [utm.from_latlon] away from Norway and Svalbard. *)
Definition sketch_from_latlon (latitude longitude : Q)
    : option (Q * Q * Z * string) :=
  if Qle_bool (-80) latitude && Qle_bool latitude 84
     && Qle_bool (-180) longitude && Qle_bool longitude 180
  then Some (0%Q, 0%Q,
             Qfloor ((longitude + 180) / 6) `mod` 60 + 1, "")
  else None.

Definition sketch_lib : GisLib sketch := {|
  geom_type := sketch_kind;
  is_empty := fun g => bool_decide (sketch_kind g = "");
  is_valid := sketch_valid;
  geoms := sketch_members;
  explode := fun g => match sketch_members g with [] => [g] | ms => ms end;
  dissolve := sketch_dissolve;
  make_valid := sketch_make_valid;
  buffer := sketch_buffer;
  loads_str := fun g => g;
  centroid := sketch_centroid;
  area := sketch_area;
  from_latlon := sketch_from_latlon;
  transformer := fun src dst => Some (sketch_move (dst - src));
  setitem_raises := fun _ => false
|}.

Definition polygon_at (x y surface : Q) : sketch :=
  Sketch "Polygon" true x y surface [].


(** ** Example frames *)

(** One row per spelling of the second cut. *)
Definition segundo_corte : DataFrame :=
  frame ["ESTAGIO"]
        [[Str "2°C"]; [Str "2ºC"]; [Str "2º CORTE"]; [Str "2° CORTE"]].

(** A shapefile table with every column the pipeline reads, and one field
    in its second cut, written [2º CORTE]. *)
Definition talhao_segundo_corte : DataFrame :=
  frame ["FAZENDA"; "VARIEDADE"; "ESTAGIO"; "TP_PROP"; "DESC_CANA";
         "GRIDCODE"; "IDADE_IMG"; "DATA_IMG"; "DT_ULT_COR"; "AREA_NDVI"]
        [[Str "FAZ1"; Str "VAR1"; Str "2º CORTE"; Str "PROPRIA"; Str "SOCA";
          Int 3; Int 9; Str "2025-03-10"; Str "2024-08-20"; Num (25 # 10)]].

(** The estagio seed followed by the estagio-derived rules. *)
Definition seed_and_classify (safra : Z) (df : DataFrame) : result DataFrame :=
  df ← IntersectNdvi.create_estagio_column safra df;
  ImproveEstagios.format_estagios df.

(** ** Invariants of the harvest-window steps *)

Definition janelas : list cell := [Str "INÍCIO"; Str "MÉDIA"; Str "TARDIA"].

(** The harvest window of a row is still empty, or it is one of the three
    windows. *)
Definition empty_or_janela (r : gmap string cell) : Prop :=
  at_col "JAN_COL" r = Str "" \/ at_col "JAN_COL" r ∈ janelas.

(** What the last two steps read of a row. *)
Definition jan_col_is (P : cell -> cell -> cell -> Prop) (r : gmap string cell)
    : Prop :=
  P (at_col "JAN_COL" r) (at_col "MES_CORTE" r) (at_col "IDADE_IMG" r).

(** The window is set, or it is empty and the cut month satisfies [S]. *)
Definition month_left (S : Z -> Prop) (j m i : cell) : Prop :=
  j ∈ janelas \/ (j = Str "" /\ exists n, m = Int n /\ S n).

(** The window is set, or it is empty, the cut month is 0 and the image
    age satisfies [S]. *)
Definition age_left (S : Z -> Prop) (j m i : cell) : Prop :=
  j ∈ janelas \/ (j = Str "" /\ m = Int 0 /\ exists z, i = Int z /\ S z).

(** The sentence of the specification on unclassified rows: a frame with a
    row whose harvest window is empty does not pass validation. *)
Definition jan_col_caught_by_validation (df : DataFrame) : Prop :=
  (exists r, r ∈ rows df /\ JanelaDeColheita.jan_col_unset r = true) ->
  exists e, NdviDataValidation.validation df = Raise e.

(** A table that brings its own [JAN_COL], empty on the second field. *)
Definition talhoes_com_jan_col : DataFrame :=
  frame ["FAZENDA"; "VARIEDADE"; "ESTAGIO"; "TP_PROP"; "DESC_CANA";
         "GRIDCODE"; "IDADE_IMG"; "DATA_IMG"; "DT_ULT_COR"; "AREA_NDVI";
         "JAN_COL"]
        [[Str "FAZ1"; Str "VAR1"; Str "12M"; Str "PROPRIA"; Str "PLANTA";
          Int 3; Int 9; Str "2025-03-10"; Str "2024-08-20"; Num (25 # 10);
          Str "TARDIA"];
         [Str "FAZ1"; Str "VAR2"; Str "3ºC"; Str "FORNEC.C"; Str "SOCA";
          Int 2; Int 9; Str "2025-03-10"; Str "2024-05-02"; Num (4 # 1);
          Str ""]].

(** The same table without [JAN_COL]: the four steps run. *)
Definition talhoes_sem_jan_col : DataFrame :=
  frame ["FAZENDA"; "VARIEDADE"; "ESTAGIO"; "TP_PROP"; "DESC_CANA";
         "GRIDCODE"; "IDADE_IMG"; "DATA_IMG"; "DT_ULT_COR"; "AREA_NDVI"]
        [[Str "FAZ1"; Str "VAR1"; Str "12M"; Str "PROPRIA"; Str "PLANTA";
          Int 3; Int 9; Str "2025-03-10"; Str "2024-08-20"; Num (25 # 10)];
         [Str "FAZ1"; Str "VAR2"; Str "3ºC"; Str "FORNEC.C"; Str "SOCA";
          Int 2; Int 9; Str "2025-03-10"; NA; Num (4 # 1)]].

(** ** Totals *)

(** The summed NDVI area of the rows of one image date. *)
Definition area_by_date (df : DataFrame) (d : cell) : Q :=
  agg_sum "AREA_NDVI" (filter (fun r => at_col "DATA_IMG" r = d) (rows df)).


(** Two image dates: the fields of 2025-03-10 sum to 5.5, those of
    2025-03-15 to 4. *)
Definition talhoes_duas_datas : DataFrame :=
  frame ["FAZENDA"; "VARIEDADE"; "ESTAGIO"; "TP_PROP"; "DESC_CANA";
         "GRIDCODE"; "IDADE_IMG"; "DATA_IMG"; "DT_ULT_COR"; "AREA_NDVI"]
        [[Str "FAZ1"; Str "VAR1"; Str "12M"; Str "PROPRIA"; Str "PLANTA";
          Int 3; Int 9; Str "2025-03-10"; Str "2024-08-20"; Num (25 # 10)];
         [Str "FAZ1"; Str "VAR2"; Str "3ºC"; Str "FORNEC.C"; Str "SOCA";
          Int 2; Int 9; Str "2025-03-15"; Str "2024-05-02"; Num (4 # 1)];
         [Str "FAZ2"; Str "VAR2"; Str "2ºC"; Str "FORNEC.C"; Str "SOCA";
          Int 2; Int 9; Str "2025-03-10"; Str "2024-05-02"; Num (3 # 1)]].

(** ** Example tables of the aggregator *)

(** Three classified polygons of one farm, stage, ownership, variety and
    harvest window, with NDVI areas 2.0, 3.0 and 1.5. *)
Definition tres_poligonos : DataFrame :=
  frame ["FAZENDA"; "GRIDCODE"; "ESTAGIO_D"; "TP_PROP"; "VARIEDADE";
         "JAN_COL"; "AREA_NDVI"; "DATA_IMG"]
        [[Str "FAZ1"; Int 10; Str "1ºC"; Str "PRÓPRIAS"; Str "VAR1";
          Str "INÍCIO"; Num (20 # 10); Str "2025-03-10"];
         [Str "FAZ1"; Int 10; Str "1ºC"; Str "PRÓPRIAS"; Str "VAR1";
          Str "INÍCIO"; Num (30 # 10); Str "2025-03-10"];
         [Str "FAZ1"; Int 10; Str "1ºC"; Str "PRÓPRIAS"; Str "VAR1";
          Str "INÍCIO"; Num (15 # 10); Str "2025-03-10"]].



(** No value is missing in the columns [cols] of the row. *)
Definition no_missing (cols : list string) (r : gmap string cell) : Prop :=
  Forall (fun col => at_col col r <> NA) cols.

(** ** The composite key of phase 2 *)




(** The frame of a result, to name the stages of an example. *)
Definition frame_of (r : result DataFrame) : DataFrame :=
  match r with
  | Ok df => df
  | Raise _ => mkFrame [] []
  end.

#[global] Instance no_missing_dec cols r : Decision (no_missing cols r).
Proof. unfold no_missing. apply _. Defined.

(** The three polygons through the aggregator, stage by stage. *)
Definition tres_formatted : DataFrame :=
  Eval vm_compute in
    frame_of (IntersectNdviSummarized.format_columns 2025 "J1" tres_poligonos).
Definition tres_keyed : DataFrame :=
  Eval vm_compute in
    frame_of (IntersectNdviSummarized.create_chave_column tres_formatted).
Definition tres_one : DataFrame :=
  Eval vm_compute in
    frame_of (IntersectNdviSummarized.groupby_intersect_ndvi_data_by_chave
                tres_keyed).
Definition tres_two : DataFrame :=
  Eval vm_compute in
    frame_of (IntersectNdviSummarized.groupby_data_final 7 tres_one).


(** ** An example warehouse *)

(** Client 7 has rows of an earlier run of window J1 of 2025, and rows of
    window J2; client 8 has rows of its own. *)
Definition armazem : Database :=
  {| clientes := frame ["id"; "cliente"]
                       [[Int 7; Str "USINA SETE"]; [Int 8; Str "USINA OITO"]];
     intersect_ndvi :=
       rows (frame ["client_id"; "safra"; "janela"; "area_ndvi"]
                   [[Int 7; Int 2025; Str "J1"; Num (1 # 1)];
                    [Int 7; Int 2025; Str "J2"; Num (2 # 1)];
                    [Int 8; Int 2025; Str "J1"; Num (3 # 1)];
                    [Int 7; Int 2025; Str "J1"; Num (4 # 1)]]) |}.

Definition database_of (r : result Database) : Database :=
  match r with
  | Ok db => db
  | Raise _ => mkDatabase (mkFrame [] []) []
  end.

(** The warehouse after the aggregated rows of the three polygons are
    loaded for client 7, window J1 of 2025. *)
Definition armazem_carregado : Database :=
  Eval vm_compute in
    database_of
      (@InsertIntersectNdviIntoDatabase.insert_ndvi_data_into_database
         iso_parser 7 "J1" tres_two 2025 armazem).

(** ** Statements on reprojection *)

Section GisStatements.
Context {geometry : Type} `{GisLib geometry}.

(** The EPSG code [__reproject_to_utm] computes on a row, if the centroid
    of the row lies south of the equator. *)
Definition southern_code (f : Feature geometry) : option Z :=
  let c := centroid (geom f) in
  match from_latlon c.2 c.1 with
  | Some (_, _, band, _) =>
      if Qlt_le_dec c.2 0 then Some (32700 + band) else None
  | None => None
  end.

Definition southern_codes (gdf : GeoDataFrame geometry) : list Z :=
  omap southern_code (features gdf).

Definition northern (f : Feature geometry) : Prop :=
  (0 <= (centroid (geom f)).2)%Q.

(** The reading of local-UTM reprojection in the specification, row by
    row: a row with a northern centroid is left as it was. *)
Definition northern_rows_untouched (gdf out : GeoDataFrame geometry) : Prop :=
  forall i f, features gdf !! i = Some f -> northern f ->
    features out !! i = Some f.

(** The reading of [Area] on northern input in the specification: nothing
    is transformed, the frame keeps its CRS. *)
Definition no_transform_at_all (gdf out : GeoDataFrame geometry) : Prop :=
  crs out = crs gdf
  /\ geom <$> features out = geom <$> features gdf.

(** The geometry is valid and a [Polygon] or a [MultiPolygon]. *)
Definition valid_polygonal (g : geometry) : Prop :=
  is_valid g = true
  /\ geom_type g ∈ ["Polygon"; "MultiPolygon"].

End GisStatements.

(** ** Example frames with geometry *)

Definition geo_of (r : result (GeoDataFrame sketch)) : GeoDataFrame sketch :=
  match r with
  | Ok gdf => gdf
  | Raise _ => mkGeo None []
  end.

(** Two fields in EPSG:4326 on the meridian 47°W: one at 22°S, one at
    10°N. *)
Definition dois_hemisferios : GeoDataFrame sketch :=
  mkGeo (Some 4326)
        [mkFeature {["TALHAO" := Int 1]} (polygon_at (-47) (-22) 120000);
         mkFeature {["TALHAO" := Int 2]} (polygon_at (-47) 10 50000)].

Definition dois_hemisferios_utm : GeoDataFrame sketch :=
  Eval vm_compute in geo_of (@reproject _ sketch_lib UTM dois_hemisferios).

(** Two fields north of the equator, in EPSG:4674. *)
Definition talhoes_do_norte : GeoDataFrame sketch :=
  mkGeo (Some 4674)
        [mkFeature {["TALHAO" := Int 1]} (polygon_at (-61) 2 120000);
         mkFeature {["TALHAO" := Int 2]} (polygon_at (-60) 3 50000)].

Definition talhoes_do_norte_area : GeoDataFrame sketch :=
  Eval vm_compute in
    geo_of (@calculate_area _ sketch_lib "AREA_CALC" talhoes_do_norte).

(** A frame to repair: an invalid polygon, a collection of a polygon and a
    line, a line, and an empty polygon. *)
Definition para_reparar : GeoDataFrame sketch :=
  mkGeo (Some 4326)
        [mkFeature {["TALHAO" := Int 1]} (Sketch "Polygon" false (-47) (-22) 10 []);
         mkFeature {["TALHAO" := Int 2]}
           (Sketch "GeometryCollection" true (-47) (-21) 7
              [polygon_at (-47) (-21) 7;
               Sketch "LineString" true (-47) (-21) 0 []]);
         mkFeature {["TALHAO" := Int 3]} (Sketch "LineString" true (-47) (-20) 0 []);
         mkFeature {["TALHAO" := Int 4]} (Sketch "" true 0 0 0 [])].

Definition reparado : GeoDataFrame sketch :=
  Eval vm_compute in geo_of (@improve_geometry _ sketch_lib para_reparar).

(** ** Named stages of the examples of the classification pipeline *)

(** A classified table with a stage outside the enumeration. *)
Definition estagio_fora : DataFrame :=
  frame ["ESTAGIO_D"; "GRIDCODE"; "TP_PROP"]
        [[Str "1ºC"; Int 1; Str "ADEF"]; [Str "6ºC"; Int 1; Str "ADEF"]].

(** [talhoes_sem_jan_col] up to the harvest-window steps, and after them. *)
Definition sem_jan_col_estagios : DataFrame :=
  Eval vm_compute in
    frame_of (df ← @IntersectNdvi.format_columns iso_parser 2025 talhoes_sem_jan_col;
              df ← ImproveContratos.format_contratos df;
              ImproveEstagios.format_estagios df).
Definition sem_jan_col_janelas : DataFrame :=
  Eval vm_compute in
    frame_of (@JanelaDeColheita.gerar_jan_col iso_parser sem_jan_col_estagios).

(** What the pipeline returns on the example tables. *)
Definition com_jan_col_classificado : DataFrame :=
  Eval vm_compute in
    frame_of (@IntersectNdvi.ndvi_data iso_parser 2025 talhoes_com_jan_col).
Definition duas_datas_classificado : DataFrame :=
  Eval vm_compute in
    frame_of (@IntersectNdvi.ndvi_data iso_parser 2025 talhoes_duas_datas).


(** ** Statements on the stage rules *)

(** The derived stage of a raw stage: the rules of [format_estagios] in
    the reverse of the order in which the code applies them, since a later
    assignment to [ESTAGIO_D] overrides an earlier one. *)
Definition estagio_d_of (estagio : cell) : cell :=
  if isin ImproveEstagios.rules_5c estagio || first_is ">" estagio
  then Str "5ºC+"
  else if isin ImproveEstagios.rules_4c estagio then Str "4ºC"
  else if isin ImproveEstagios.rules_3c estagio then Str "3ºC"
  else if isin ImproveEstagios.rules_2c estagio then Str "2ºC"
  else if isin ImproveEstagios.rules_1c estagio then Str "1ºC"
  else if last_is 1 "B" estagio || last_is 3 "BIS" estagio
          || isin ImproveEstagios.rules_bis estagio
  then Str "BIS"
  else if eq_str "REF" estagio then Str "REF"
  else if isin ImproveEstagios.rules_plantio estagio then Str "PLANTIO"
  else if isin ImproveEstagios.rules_adef estagio || isna estagio
  then Str "ADEF"
  else Str "".

(** The text holds the character. *)
Fixpoint has_char (c : ascii) (s : string) : bool :=
  match s with
  | EmptyString => false
  | String c' s' => bool_decide (c' = c) || has_char c s'
  end.

(** What [__create_estagio_column] makes of one value of the column it
    reads. *)
Definition seeded (c : cell) : cell :=
  cell_replace " " "" (cell_replace "Â" "" c).

(** Raw stages that meet several rules, one rule, or none. *)
Definition estagios_variados : DataFrame :=
  frame ["ESTAGIO"]
        [[Str "12M"]; [Str ">5B"]; [Str "3B"]; [NA]; [Str "REF"];
         [Str "7ºCORTE"]; [Str "XYZ"]].
Definition estagios_variados_d : DataFrame :=
  Eval vm_compute in
    frame_of (ImproveEstagios.format_estagios estagios_variados).

(** The four spellings of the second cut, after the seed. *)
Definition segundo_corte_seeded : DataFrame :=
  Eval vm_compute in
    frame_of (@IntersectNdvi.create_estagio_column 2025 segundo_corte).

(** ** Statements on the ownership rules *)

(** The ownership class of a raw [TP_PROP]: a text that starts with [P] or
    is listed in [proprias_values] is own land, one that starts with [F]
    or is listed in [fornecedores_values] is a supplier's; any other value
    is left as it is. *)
Definition contrato_of (tp_prop : cell) : cell :=
  if first_is "P" tp_prop || isin ImproveContratos.proprias_values tp_prop
  then Str "PRÓPRIAS"
  else if first_is "F" tp_prop
          || isin ImproveContratos.fornecedores_values tp_prop
  then Str "FORNECEDORES"
  else tp_prop.

(** The value written to the rows whose ownership is empty or missing:
    the only class of the column if there is exactly one, [ADEF]
    otherwise. *)
Definition fill_of (df : DataFrame) : cell :=
  match drop_duplicates
          (filter (fun c => isna c = false)
                  ((fun r => contrato_of (at_col "TP_PROP" r)) <$> rows df)) with
  | [only] => only
  | _ => Str "ADEF"
  end.

Definition filled (fill c : cell) : cell :=
  if eq_str "" c || isna c then fill else c.

(** A column with one class and gaps, and a column with two classes. *)
Definition contratos_uma_classe : DataFrame :=
  frame ["TP_PROP"] [[Str "PROPRIA"]; [NA]; [Str "ARRE"]].
Definition contratos_duas_classes : DataFrame :=
  frame ["TP_PROP"] [[Str "PROPRIA"]; [NA]; [Str ""]; [Str "SPOT"]; [Str "OUTRO"]].
Definition contratos_uma_classe_f : DataFrame :=
  Eval vm_compute in
    frame_of (ImproveContratos.format_contratos contratos_uma_classe).
Definition contratos_duas_classes_f : DataFrame :=
  Eval vm_compute in
    frame_of (ImproveContratos.format_contratos contratos_duas_classes).

(** [talhoes_com_jan_col] through the harvest-window step. *)
Definition com_jan_col_janela : DataFrame :=
  Eval vm_compute in
    frame_of (@JanelaDeColheita.classify_janela_colheita iso_parser
                talhoes_com_jan_col).

(** ** Statements on the harvest window *)

(** The harvest window the four steps of [classify_janela_colheita] give a
    row, from its stage, its cane description, the date [pd.to_datetime]
    reads in [DT_ULT_COR] ([None] for a missing date) and its image age:
    BIS cane first, then the stage, then the month of the last cut, and
    the image age only for a row without date. *)
Definition janela_of (estagio desc_cana : cell) (dt_ult_cor : option date)
    (idade_img : Z) : cell :=
  if eq_str "BIS" desc_cana || eq_str "BISADA" desc_cana then Str "INÍCIO"
  else if eq_str "2VER" estagio || eq_str "18M" estagio then Str "INÍCIO"
  else if eq_str "15M" estagio then Str "MÉDIA"
  else if eq_str "12M" estagio then Str "TARDIA"
  else match dt_ult_cor with
       | Some d =>
           if month_number (mon d) <=? 6 then Str "INÍCIO"
           else if month_number (mon d) <=? 8 then Str "MÉDIA"
           else Str "TARDIA"
       | None =>
           if 10 <? idade_img then Str "INÍCIO"
           else if 8 <=? idade_img then Str "MÉDIA"
           else Str "TARDIA"
       end.

(** The two rows hold the same value in every column outside [cols]. *)
Definition same_but (cols : list string) (r r' : gmap string cell) : Prop :=
  forall col, col ∉ cols -> r' !! col = r !! col.

(** The test on [JAN_COL] of the last two steps, on the value. *)
Definition unset_cell (j : cell) : bool :=
  eq_str "" j || isna j || bool_decide (str_len j = Some 0%nat).

(** The month step of [__classificar_mes_corte] on the values of one row:
    the [MES_CORTE] it writes and the [JAN_COL] it leaves, from the
    [JAN_COL] it finds and the month [m] read in [DT_ULT_COR] (0 for a
    missing date). *)
Definition mes_corte_of (j : cell) (m : Z) : cell :=
  if match str_len j with
     | Some n => (0 <? n)%nat
     | None => false
     end then Int 0 else Int m.

Definition month_step (j : cell) (m : Z) : cell :=
  let mc := mes_corte_of j m in
  let jc := if unset_cell j && isin (Int <$> [1; 2; 3; 4; 5; 6]) mc
            then Str "INÍCIO" else j in
  let jd := if unset_cell jc && isin (Int <$> [7; 8]) mc
            then Str "MÉDIA" else jc in
  if unset_cell jd && isin (Int <$> [9; 10; 11; 12]) mc
  then Str "TARDIA" else jd.

(** The age step of [__classificar_idade_img] on the values of one row. *)
Definition age_step (j mc : cell) (z : Z) : cell :=
  let jb := if unset_cell j && bool_decide (mc = Int 0) && (10 <? z)
            then Str "INÍCIO" else j in
  let jc := if unset_cell jb && bool_decide (mc = Int 0)
               && isin (Int <$> [8; 9; 10]) (Int z)
            then Str "MÉDIA" else jb in
  if unset_cell jc && bool_decide (mc = Int 0) && (z <=? 7)
  then Str "TARDIA" else jc.

(** Fields that reach each rule of the harvest window: BIS cane with a
    late stage, a stage rule, a cut in August, and no date with image
    ages 12, 9 and 5. *)
Definition talhoes_janelas : DataFrame :=
  frame ["ESTAGIO"; "DESC_CANA"; "DT_ULT_COR"; "IDADE_IMG"]
        [[Str "12M"; Str "BIS"; Str "2024-08-20"; Int 9];
         [Str "12M"; Str "PLANTA"; Str "2024-08-20"; Int 9];
         [Str "3ºC"; Str "SOCA"; Str "2024-08-20"; Int 12];
         [Str "3ºC"; Str "SOCA"; NA; Int 12];
         [Str "3ºC"; Str "SOCA"; NA; Int 9];
         [Str "3ºC"; Str "SOCA"; NA; Int 5]].
Definition talhoes_janelas_classificado : DataFrame :=
  Eval vm_compute in
    frame_of (@JanelaDeColheita.gerar_jan_col iso_parser talhoes_janelas).

(** ** Statements on the date columns *)

(** What [__format_date_column] makes of one value: a missing value, the
    empty text and the text [<NA>] are read as 1900-01-01; the value is
    parsed, and written back as [YYYY-MM-DD], or as a missing value when
    the parser cannot read it. *)
Definition formatted_date `{DateParser} (c : cell) : cell :=
  let c' := if isna c || eq_str "" c || eq_str "<NA>" c
            then Str "1900-01-01" else c in
  match to_datetime false c' with
  | Some d => Str (strftime d)
  | None => NA
  end.

(** The column [__create_dt_imagem_column] reads the image date from. *)
Definition data_img_source (df : DataFrame) : option string :=
  if has_column "DATA_IMG" df then Some "DATA_IMG"
  else if has_column "DT_IMAGEM" df then Some "DT_IMAGEM"
  else if has_column "DT_IMG" df then Some "DT_IMG"
  else None.

(** Fields without a date of the last cut, with image ages 5, 9 and 12. *)
Definition talhoes_sem_data : DataFrame :=
  frame ["ESTAGIO"; "DESC_CANA"; "DT_ULT_COR"; "IDADE_IMG"]
        [[Str "3ºC"; Str "SOCA"; NA; Int 5];
         [Str "3ºC"; Str "SOCA"; Str ""; Int 9];
         [Str "12M"; Str "PLANTA"; NA; Int 12]].
Definition talhoes_sem_data_formatado : DataFrame :=
  Eval vm_compute in
    frame_of (@IntersectNdvi.format_date_column iso_parser "DT_ULT_COR"
                talhoes_sem_data).
Definition talhoes_sem_data_classificado : DataFrame :=
  Eval vm_compute in
    frame_of (@JanelaDeColheita.gerar_jan_col iso_parser
                talhoes_sem_data_formatado).

(** A shapefile table without the column [DESC_CANA], whose image date is
    in the column [DT_IMG]. *)
Definition talhoes_sem_desc_cana : DataFrame :=
  frame ["ESTAGIO"; "TP_PROP"; "GRIDCODE"; "IDADE_IMG"; "DT_IMG"; "DT_ULT_COR"]
        [[Str "3ºC"; Str "PROPRIA"; Int 3; Int 9; Str "2025-03-10";
          Str "2024-08-20"]].

(** The column named in the error of [__check_columns] for [DATA_IMG]. *)
Definition data_img_is_missing : error :=
  ValueError ("Coluna " ++ "DATA_IMG" ++ " não está no shapefile!").

(** The [talhoes_sem_jan_col] table after [__format_columns]. *)
Definition sem_jan_col_colunas : DataFrame :=
  Eval vm_compute in
    frame_of (@IntersectNdvi.format_columns iso_parser 2025 talhoes_sem_jan_col).

(** A classified table whose stages are valid, with a grid code and an
    ownership outside the enumerations. *)
Definition gridcode_fora : DataFrame :=
  frame ["ESTAGIO_D"; "GRIDCODE"; "TP_PROP"]
        [[Str "1ºC"; Int 1; Str "ADEF"]; [Str "BIS"; Int 10; Str "OUTRO"];
         [Str "REF"; Int 10; Str "ADEF"]; [Str "REF"; Int 0; Str "ADEF"]].

(** A table without a single image date. *)
Definition talhoes_sem_data_img : DataFrame :=
  frame ["DATA_IMG"; "AREA_NDVI"] [[NA; Num (25 # 10)]; [NA; Num (4 # 1)]].

(** ** [class GetClientIntersectNdviGeodataframe]: the search of the
    shapefile

    The names are those [os.listdir] gives: file names without a path
    separator. *)

(** [name.rfind('.')] *)
Fixpoint rfind_dot (name : string) : option nat :=
  match name with
  | EmptyString => None
  | String c name' =>
      match rfind_dot name' with
      | Some i => Some (S i)
      | None => if Ascii.eqb c "." then Some 0%nat else None
      end
  end.

(** [Path(name).stem]: the name without its last suffix; a leading or a
    trailing dot starts no suffix. *)
Definition path_stem (name : string) : string :=
  match rfind_dot name with
  | Some i =>
      if ((0 <? i) && (i <? String.length name - 1))%nat
      then String.substring 0 i name
      else name
  | None => name
  end.

(** [name.endswith(suffix)] *)
Definition endswith (suffix name : string) : bool :=
  bool_decide (String.length suffix <= String.length name)%nat
  && bool_decide (str_last (String.length suffix) name = suffix).

Module GetClientIntersectNdviGeodataframe.

(** The condition of the list comprehension of
    [__get_client_intersect_ndvi_shapefile]. *)
Definition is_intersect_ndvi_shapefile (janela : string) (safra : Z)
    (shapefile : string) : bool :=
  endswith ".shp" shapefile
  && bool_decide (String.substring 0 14 shapefile = "INTERSECT_NDVI")
  && bool_decide (str_last 7 (path_stem shapefile)
                  = janela ++ "_" ++ str_of_int safra).

(** [__get_client_intersect_ndvi_shapefile], given the listing of the
    folder and [os.path.join] on the folder. *)
Definition get_client_intersect_ndvi_shapefile (join : string -> string)
    (listing : list string) (janela : string) (safra : Z) : string :=
  match filter (fun shapefile =>
                  is_intersect_ndvi_shapefile janela safra shapefile = true)
               listing with
  | shapefile :: _ => join shapefile
  | [] => ""
  end.

End GetClientIntersectNdviGeodataframe.

(** ** [InsertIntersectNdviIntoDatabase.main] *)

(** Where a loop of [main] has got to: the database, and the exception
    that stopped it, if any.  Every statement of the loader commits, so
    what was loaded before an exception stays loaded. *)
Definition outcome : Type := Database * option error.

(** [for a in l: body(a)] *)
Definition for_each {A : Type} (l : list A) (body : A -> Database -> outcome)
    (db : Database) : outcome :=
  foldl (fun acc a => match acc with
                      | (db, None) => body a db
                      | stopped => stopped
                      end) (db, None) l.

Section Main.
Context `{DateParser}.

(** [self.__get_client_intersect_ndvi_summarized(client_id, janela,
    safra)]: the search of the client's shapefile, the classification and
    the aggregation.  It reads the file system and the table of clients
    the constructor loaded, never the table the loader writes. *)
Variable get_client_intersect_ndvi_summarized :
  Z -> string -> Z -> result DataFrame.

(** The body of the innermost loop. *)
Definition main_janela (client_id safra : Z) (janela : string) (db : Database)
    : outcome :=
  match get_client_intersect_ndvi_summarized client_id janela safra with
  | Raise e => (db, Some e)
  | Ok client_ndvi_data =>
      if negb (empty_frame client_ndvi_data)
      then match InsertIntersectNdviIntoDatabase.insert_ndvi_data_into_database
                   client_id janela client_ndvi_data safra db with
           | Ok db' => (db', None)
           | Raise e => (db, Some e)
           end
      else (db, None)
  end.

(** [main]; [clients_to_remove] is [None] by default, and [in None]
    raises [TypeError]. *)
Definition main (clients_id : list Z) (clients_to_remove : option (list Z))
    (safra_list : list Z) (janela_list : list string) (db : Database)
    : outcome :=
  for_each clients_id
    (fun client_id db =>
       match clients_to_remove with
       | None =>
           (db, Some (TypeError "argument of type 'NoneType' is not iterable"))
       | Some removed =>
           if bool_decide (client_id ∉ removed)
           then for_each safra_list
                  (fun safra => for_each janela_list (main_janela client_id safra))
                  db
           else (db, None)
       end) db.

End Main.

(** The folder of client 7 holds the aggregated rows of the three
    polygons for window J1 of 2025, and nothing else. *)
Definition pasta_do_cliente_7 (client_id : Z) (janela : string) (safra : Z)
    : result DataFrame :=
  if bool_decide (client_id = 7 /\ janela = "J1" /\ safra = 2025)
  then Ok tres_two else Ok (mkFrame [] []).

Definition nomes_na_pasta : list string :=
  ["INTERSECT_NDVI_J1_2025.dbf"; "NDVI_J1_2025.shp";
   "INTERSECT_NDVI_J2_2025.shp"; "INTERSECT_NDVI_USINA_J1_2025.shp";
   "INTERSECT_NDVI_J1_2025.shp"].

(** The eight ways [__create_5c_list_values] writes a cut after its
    number. *)
Definition sufixos_5c : list string :=
  ["ºC"; "°C"; "º"; "°"; "ºCORTE"; "°CORTE"; "ºC+"; "°C+"].

(** ** The remaining classes of [gisFunctions.py] *)

(** The frame-level operations of geopandas these classes call, left open
    as the geometry library is. *)
Class GeoPandas (geometry : Type) := {
  (** [gdf.dissolve()], or [gdf.dissolve(by=by_, as_index=False)] *)
  frame_dissolve : option (list string) -> GeoDataFrame geometry ->
                   result (GeoDataFrame geometry);
  (** [gpd.overlay(gdf1, gdf2, how=how)] *)
  overlay : string -> GeoDataFrame geometry -> GeoDataFrame geometry ->
            result (GeoDataFrame geometry);
  (** [gpd.read_file(file)] *)
  read_file : string -> result (GeoDataFrame geometry)
}.

Section GisClasses.
Context {geometry : Type} `{GisLib geometry} `{GeoPandas geometry}.

(** [gdf.empty], on a frame that has its geometry column *)
Definition gdf_empty (gdf : GeoDataFrame geometry) : bool :=
  match features gdf with
  | [] => true
  | _ :: _ => false
  end.

(** *** [class Dissolve] *)

(** [try: gdf.dissolve(...)  except: MakeValidGeometries(gdf)
    .improve_geometry().dissolve(...)] *)
Definition dissolve_or_repair (by_ : option (list string))
    (gdf : GeoDataFrame geometry) : result (GeoDataFrame geometry) :=
  match frame_dissolve by_ gdf with
  | Ok geodataframe_dissolve => Ok geodataframe_dissolve
  | Raise _ =>
      geodataframe_dissolve ← improve_geometry gdf;
      frame_dissolve by_ geodataframe_dissolve
  end.

Definition simple_dissolve (gdf : GeoDataFrame geometry)
    : result (GeoDataFrame geometry) :=
  dissolve_or_repair None gdf.

Definition dissolve_geodataframe (dissolve_atributes : option (list string))
    (calc_area : bool) (column_area : string) (gdf : GeoDataFrame geometry)
    : result (GeoDataFrame geometry) :=
  geodataframe_dissolve ←
    match dissolve_atributes with
    | None => simple_dissolve gdf
    | Some by_ =>
        geodataframe_dissolve ← dissolve_or_repair (Some by_) gdf;
        if gdf_empty geodataframe_dissolve
        then Raise (ValueError "GEOMETRIA DISSOLVIDA ESTA VAZIA!!!")
        else Ok geodataframe_dissolve
    end;
  if calc_area
  then calculate_area column_area geodataframe_dissolve
  else reproject (EPSG 4326) geodataframe_dissolve.

(** *** [class Shapefile] *)

(** [Shapefile(file, dissolve).open()] *)
Definition Shapefile_open (file : string) (dissolve : bool)
    : result (GeoDataFrame geometry) :=
  geodataframe ← read_file file;
  if dissolve
  then dissolve_geodataframe None false "AREA_CALC" geodataframe
  else Ok geodataframe.

(** *** [class Buffer] *)

Definition buffer_area (area_buffer : Q) (gdf : GeoDataFrame geometry)
    : result (GeoDataFrame geometry) :=
  reproject (EPSG 4326)
    {| crs := crs gdf;
       features := map_geom (buffer area_buffer) <$> features gdf |}.

(** *** [class Intersect] *)

(** The constructor repairs both frames, [intersection] overlays them and
    repairs the result. *)
Definition intersection (geodataframe1 geodataframe2 : GeoDataFrame geometry)
    : result (GeoDataFrame geometry) :=
  self_geodataframe1 ← improve_geometry geodataframe1;
  self_geodataframe2 ← improve_geometry geodataframe2;
  intersect ← overlay "intersection" self_geodataframe1 self_geodataframe2;
  improve_geometry intersect.

(** *** [class SymmetricDifference] *)

Definition symmetric_difference (calc_area : bool) (area_column : string)
    (geodataframe1 geodataframe2 : GeoDataFrame geometry)
    : result (GeoDataFrame geometry) :=
  symmetric_difference ←
    overlay "symmetric_difference" geodataframe1 geodataframe2;
  if calc_area
  then calculate_area area_column symmetric_difference
  else Ok symmetric_difference.

End GisClasses.

(** A small interpretation of the frame operations: a dissolve merges the
    geometries of the frame into one row, which keeps the attributes named
    in [by_] of the first row; an overlay keeps the rows of the first
    frame. *)
Definition sketch_frame_dissolve (by_ : option (list string))
    (gdf : GeoDataFrame sketch) : result (GeoDataFrame sketch) :=
  match features gdf, sketch_dissolve (geom <$> features gdf) with
  | f :: _, Some g =>
      Ok (mkGeo (crs gdf)
            [mkFeature (filter (fun kv => kv.1 ∈ default [] by_) (attrs f)) g])
  | _, _ => Ok (mkGeo (crs gdf) [])
  end.

Definition sketch_pandas : GeoPandas sketch := {|
  frame_dissolve := sketch_frame_dissolve;
  overlay := fun _ gdf1 _ => Ok gdf1;
  read_file := fun _ => Raise (ValueError "no file system")
|}.

(** The two fields of [dois_hemisferios] dissolved by [TALHAO]. *)
Definition dois_hemisferios_dissolvido : GeoDataFrame sketch :=
  Eval vm_compute in
    geo_of (@dissolve_geodataframe _ sketch_lib sketch_pandas
              (Some ["TALHAO"]) false "AREA_CALC" dois_hemisferios).

(** A field whose coordinates are metres, not degrees. *)
Definition talhao_em_metros : GeoDataFrame sketch :=
  mkGeo (Some 32723)
        [mkFeature {["TALHAO" := Int 1]} (polygon_at 500000 7500000 120000)].

(** A field in degrees, in a frame without CRS. *)
Definition talhao_sem_crs : GeoDataFrame sketch :=
  mkGeo None [mkFeature {["TALHAO" := Int 1]} (polygon_at (-47) (-22) 120000)].

(** * Properties *)

(** Closed decidable facts, by evaluation. *)
Ltac vm_decide := apply (bool_decide_unpack _); vm_compute; exact I.

(** ** The exception monad *)

Lemma bind_Ok {A B : Type} (m : result A) (f : A -> result B) (b : B) :
  m ≫= f = Ok b -> exists a, m = Ok a /\ f a = Ok b.
Proof. destruct m as [a|e]; simpl; [eauto | discriminate]. Qed.

Lemma bind_Raise {A B : Type} (m : result A) (f : A -> result B) (e : error) :
  m ≫= f = Raise e -> m = Raise e \/ exists a, m = Ok a /\ f a = Raise e.
Proof. destruct m as [a|e']; simpl; [eauto | left; congruence]. Qed.

Lemma mapM_Ok {A B : Type} (f : A -> result B) (l : list A) (l' : list B) :
  mapM f l = Ok l' -> Forall2 (fun a b => f a = Ok b) l l'.
Proof.
  revert l'. induction l as [|a l IH]; intros l' Hm; simpl in Hm.
  - injection Hm as <-. constructor.
  - apply bind_Ok in Hm as (b & Hb & Hm).
    apply bind_Ok in Hm as (bs & Hbs & Hm).
    injection Hm as <-. constructor; auto.
Qed.

Lemma mapM_total {A B : Type} (f : A -> result B) (l : list A) :
  (forall a, a ∈ l -> exists b, f a = Ok b) -> exists l', mapM f l = Ok l'.
Proof.
  induction l as [|a l IH]; intros Hf; simpl.
  - eexists; reflexivity.
  - destruct (Hf a) as [b Hb]; [left|].
    destruct IH as [l' Hl']; [intros; apply Hf; by right|].
    rewrite Hb, Hl'. simpl. eexists; reflexivity.
Qed.

(** ** Cells and rows *)

Lemma at_col_insert (col : string) (v : cell) (r : gmap string cell) :
  at_col col (<[col := v]> r) = v.
Proof. unfold at_col. by rewrite lookup_insert_eq. Qed.

Lemma at_col_insert_ne (col col' : string) (v : cell) (r : gmap string cell) :
  col' <> col -> at_col col (<[col' := v]> r) = at_col col r.
Proof. intros Hne. unfold at_col. by rewrite lookup_insert_ne. Qed.

Lemma has_column_require (col : string) (df : DataFrame) :
  has_column col df = true -> require col df = Ok tt.
Proof. unfold require. by intros ->. Qed.

Lemma require_Ok (col : string) (df : DataFrame) (u : unit) :
  require col df = Ok u -> has_column col df = true.
Proof. unfold require. by destruct (has_column col df). Qed.

Lemma elem_of_drop_duplicates (l : list cell) (c : cell) :
  c ∈ drop_duplicates l <-> c ∈ l.
Proof.
  induction l as [|a l IH]; simpl; [done|].
  rewrite !elem_of_cons, list_elem_of_filter, IH.
  destruct (decide (c = a)); naive_solver.
Qed.

Lemma NoDup_drop_duplicates (l : list cell) : NoDup (drop_duplicates l).
Proof.
  induction l as [|a l IH]; simpl; constructor.
  - rewrite list_elem_of_filter. naive_solver.
  - by apply NoDup_filter.
Qed.

(** ** Validation of [ESTAGIO_D] *)

Section Validation.
Import NdviDataValidation.

Lemma elem_of_not_isin_rows col values df r :
  r ∈ not_isin_rows col values df <-> r ∈ rows df /\ at_col col r ∉ values.
Proof.
  unfold not_isin_rows, isin. rewrite list_elem_of_filter.
  rewrite bool_decide_eq_false. tauto.
Qed.

(** The error of [__estagios_validation] is the only one of the three
    checks built with [InvalidEstagio], and it is raised first. *)
Lemma validation_InvalidEstagio df w l :
  validation df = Raise (InvalidEstagio w l) <->
  estagios_validation df = Raise (InvalidEstagio w l).
Proof.
  unfold validation. split.
  - intros Hv. apply bind_Raise in Hv as [Hv | (u & _ & Hv)]; [done|].
    apply bind_Raise in Hv as [Hv | (u' & _ & Hv)].
    + unfold gridcode_validation, require in Hv.
      destruct (has_column _ _); simpl in Hv; [|discriminate].
      by destruct (not_isin_rows _ _ _).
    + unfold contratos_validation, require in Hv.
      destruct (has_column _ _); simpl in Hv; [|discriminate].
      by destruct (not_isin_rows _ _ _).
  - by intros ->.
Qed.

Lemma validation_Ok_estagios df :
  validation df = Ok tt -> estagios_validation df = Ok tt.
Proof.
  unfold validation. intros Hv. apply bind_Ok in Hv as ([] & Hv & _). done.
Qed.

Lemma estagios_validation_cases df :
  has_column "ESTAGIO_D" df = true ->
  let offending := not_isin_rows "ESTAGIO_D" estagios_values df in
  (offending = [] /\ estagios_validation df = Ok tt) \/
  (offending <> [] /\
   estagios_validation df =
     Raise (InvalidEstagio
              (drop_duplicates (column_values "ESTAGIO_D" offending))
              (drop_duplicates (column_values "ESTAGIO_D" (rows df))))).
Proof.
  intros Hc. unfold estagios_validation. rewrite (has_column_require _ _ Hc).
  simpl. destruct (not_isin_rows _ _ _); [left | right]; done.
Qed.

End Validation.

(** C4.  When the frame has the column [ESTAGIO_D], validation raises the
    error of the [ESTAGIO_D] check exactly when some row holds a value
    outside the nine stages.  The error carries the offending values,
    each once, and nothing else.  Validation filters nothing: it succeeds
    only if every row is inside the enumeration, and the frame
    [ndvi_data] returns is the very frame that passed validation. *)
Theorem estagios_validation_closed_set `{DateParser} (df : DataFrame) :
  has_column "ESTAGIO_D" df = true ->
  ((exists w l, NdviDataValidation.validation df = Raise (InvalidEstagio w l))
   <-> (exists r, r ∈ rows df /\
          at_col "ESTAGIO_D" r ∉ NdviDataValidation.estagios_values))
  /\ (forall w l,
        NdviDataValidation.validation df = Raise (InvalidEstagio w l) ->
        NoDup w /\
        forall c, c ∈ w <->
          (exists r, r ∈ rows df /\ at_col "ESTAGIO_D" r = c) /\
          c ∉ NdviDataValidation.estagios_values)
  /\ (NdviDataValidation.validation df = Ok tt ->
      forall r, r ∈ rows df ->
        at_col "ESTAGIO_D" r ∈ NdviDataValidation.estagios_values)
  /\ (forall safra raw out,
        IntersectNdvi.ndvi_data safra raw = Ok out ->
        NdviDataValidation.validation out = Ok tt).
Proof.
  intros Hc.
  pose proof (estagios_validation_cases df Hc) as Hcases. simpl in Hcases.
  split; [|split; [|split]].
  - split.
    + intros (w & l & Hv). apply validation_InvalidEstagio in Hv.
      destruct Hcases as [[_ Hok] | [Hne _]]; [congruence|].
      destruct (NdviDataValidation.not_isin_rows _ _ _) as [|r rs] eqn:Hr; [done|].
      exists r. apply elem_of_not_isin_rows. rewrite Hr. left.
    + intros (r & Hr & Hout).
      destruct Hcases as [[Hnil _] | [_ Hraise]].
      * assert (r ∈ NdviDataValidation.not_isin_rows "ESTAGIO_D"
                      NdviDataValidation.estagios_values df) as Hin
          by (by apply elem_of_not_isin_rows).
        rewrite Hnil in Hin. by apply elem_of_nil in Hin.
      * do 2 eexists. apply validation_InvalidEstagio. exact Hraise.
  - intros w l Hv. apply validation_InvalidEstagio in Hv.
    destruct Hcases as [[_ Hok] | [_ Hraise]]; [congruence|].
    rewrite Hraise in Hv. injection Hv as <- <-.
    split; [apply NoDup_drop_duplicates|].
    intros c. rewrite elem_of_drop_duplicates.
    unfold NdviDataValidation.column_values. rewrite list_elem_of_fmap.
    split.
    + intros (r & -> & Hr). apply elem_of_not_isin_rows in Hr as [Hr Hout].
      split; [by exists r | done].
    + intros [(r & Hr & <-) Hout]. exists r. split; [done|].
      by apply elem_of_not_isin_rows.
  - intros Hv r Hr. apply validation_Ok_estagios in Hv.
    destruct Hcases as [[Hnil _] | [_ Hraise]]; [|congruence].
    destruct (decide (at_col "ESTAGIO_D" r ∈ NdviDataValidation.estagios_values))
      as [|Hout]; [done|].
    assert (r ∈ NdviDataValidation.not_isin_rows "ESTAGIO_D"
                  NdviDataValidation.estagios_values df) as Hin
      by (by apply elem_of_not_isin_rows).
    rewrite Hnil in Hin. by apply elem_of_nil in Hin.
  - intros safra raw out Hn. unfold IntersectNdvi.ndvi_data in Hn.
    apply bind_Ok in Hn as (formatted & _ & Hn).
    apply bind_Ok in Hn as (contracts & _ & Hn).
    apply bind_Ok in Hn as (estagios & _ & Hn).
    apply bind_Ok in Hn as (classified & _ & Hn).
    apply bind_Ok in Hn as (dated & _ & Hn).
    apply bind_Ok in Hn as ([] & Hvalid & Hn). by injection Hn as <-.
Qed.

Lemma estagios_validation_closed_set_witness :
  has_column "ESTAGIO_D" estagio_fora = true
  /\ NdviDataValidation.validation estagio_fora
     = Raise (InvalidEstagio [Str "6ºC"] [Str "1ºC"; Str "6ºC"])
  /\ exists w l,
       NdviDataValidation.validation estagio_fora = Raise (InvalidEstagio w l).
Proof.
  split; [reflexivity|]. split; [vm_compute; reflexivity|].
  apply (@estagios_validation_closed_set iso_parser estagio_fora eq_refl).
  exists (list_to_map (zip ["ESTAGIO_D"; "GRIDCODE"; "TP_PROP"]
                           [Str "6ºC"; Int 1; Str "ADEF"])).
  split; [right; left|]. vm_decide.
Defined.

(** ** The spellings of the second cut *)

(** C5.  The seed removes the space of [2º CORTE] and [2° CORTE] before the
    rules run, and [rules_2c] lists these two spellings with their space
    only: the two rows keep the empty [ESTAGIO_D] they started with, while
    [2°C] and [2ºC] become [2ºC].  On a complete table the pipeline then
    stops in validation, with the empty stage as the offending value. *)
Theorem segundo_corte_with_space_is_not_classified :
  (exists df,
     seed_and_classify 2025 segundo_corte = Ok df /\
     NdviDataValidation.column_values "ESTAGIO" (rows df)
       = [Str "2°C"; Str "2ºC"; Str "2ºCORTE"; Str "2°CORTE"] /\
     NdviDataValidation.column_values "ESTAGIO_D" (rows df)
       = [Str "2ºC"; Str "2ºC"; Str ""; Str ""])
  /\ @IntersectNdvi.ndvi_data iso_parser 2025 talhao_segundo_corte
     = Raise (InvalidEstagio [Str ""] [Str ""]).
Proof.
  split.
  - eexists. split; [vm_compute; reflexivity|]. split; vm_compute; reflexivity.
  - vm_compute. reflexivity.
Qed.

(** ** Row-wise steps *)

Lemma rows_assign (col : string) (f : gmap string cell -> cell) (df : DataFrame) :
  rows (assign col f df) = (fun r => <[col := f r]> r) <$> rows df.
Proof. reflexivity. Qed.

Lemma Forall_assign (P Q : gmap string cell -> Prop)
    (col : string) (f : gmap string cell -> cell) (df : DataFrame) :
  Forall P (rows df) ->
  (forall r, P r -> Q (<[col := f r]> r)) ->
  Forall Q (rows (assign col f df)).
Proof.
  intros HP HPQ. rewrite rows_assign. apply Forall_fmap.
  eapply Forall_impl; [exact HP|]. exact HPQ.
Qed.

Lemma Forall_loc_set (P Q : gmap string cell -> Prop)
    (mask : gmap string cell -> bool) (col : string) (v : cell) (df : DataFrame) :
  Forall P (rows df) ->
  (forall r, P r -> Q (<[col := if mask r then v else at_col col r]> r)) ->
  Forall Q (rows (loc_set mask col v df)).
Proof. apply Forall_assign. Qed.

Lemma Forall_mapM (P Q : gmap string cell -> Prop)
    (f : gmap string cell -> result (gmap string cell)) rs rs' :
  mapM f rs = Ok rs' ->
  Forall P rs ->
  (forall r r', P r -> f r = Ok r' -> Q r') ->
  Forall Q rs'.
Proof.
  intros Hm HP HPQ. apply mapM_Ok in Hm.
  induction Hm; inversion HP; subst; constructor; eauto.
Qed.

Ltac at_col_simpl :=
  repeat first [ rewrite at_col_insert
               | rewrite at_col_insert_ne by discriminate ].

Section Janela.
Context `{DateParser}.
Import JanelaDeColheita.

Lemma loc_set_janela (mask : gmap string cell -> bool) (v : cell) (df : DataFrame) :
  v ∈ janelas ->
  Forall empty_or_janela (rows df) ->
  Forall empty_or_janela (rows (loc_set mask "JAN_COL" v df)).
Proof.
  intros Hv Hdf. eapply Forall_loc_set; [exact Hdf|].
  intros r Hr. unfold empty_or_janela. rewrite at_col_insert.
  destruct (mask r); [by right | exact Hr].
Qed.

Lemma janela_inicio : Str "INÍCIO" ∈ janelas.
Proof. unfold janelas. set_solver. Qed.
Lemma janela_media : Str "MÉDIA" ∈ janelas.
Proof. unfold janelas. set_solver. Qed.
Lemma janela_tardia : Str "TARDIA" ∈ janelas.
Proof. unfold janelas. set_solver. Qed.

Lemma classificar_estagio_rows (df out : DataFrame) :
  classificar_estagio df = Ok out -> Forall empty_or_janela (rows out).
Proof.
  unfold classificar_estagio. intros Hc.
  apply bind_Ok in Hc as (_ & _ & Hc). injection Hc as <-.
  repeat (apply loc_set_janela;
          [first [apply janela_inicio | apply janela_media | apply janela_tardia]|]).
  rewrite rows_assign. apply Forall_fmap, Forall_true.
  intros r. left. simpl. apply at_col_insert.
Qed.

Lemma classificar_cana_bis_rows (df out : DataFrame) :
  Forall empty_or_janela (rows df) ->
  classificar_cana_bis df = Ok out -> Forall empty_or_janela (rows out).
Proof.
  unfold classificar_cana_bis. intros Hdf Hc.
  apply bind_Ok in Hc as (_ & _ & Hc). injection Hc as <-.
  by apply loc_set_janela; [apply janela_inicio|].
Qed.

Lemma loc_set_jan_col (P P' : cell -> cell -> cell -> Prop)
    (mask : gmap string cell -> bool) (v : cell) (df : DataFrame) :
  (forall r, jan_col_is P r ->
     P' (if mask r then v else at_col "JAN_COL" r)
        (at_col "MES_CORTE" r) (at_col "IDADE_IMG" r)) ->
  Forall (jan_col_is P) (rows df) ->
  Forall (jan_col_is P') (rows (loc_set mask "JAN_COL" v df)).
Proof.
  intros Hstep Hdf. eapply Forall_loc_set; [exact Hdf|].
  intros r Hr. unfold jan_col_is. at_col_simpl. by apply Hstep.
Qed.

Lemma jan_col_unset_empty (r : gmap string cell) :
  at_col "JAN_COL" r = Str "" -> jan_col_unset r = true.
Proof. unfold jan_col_unset. by intros ->. Qed.

Lemma jan_col_unset_janela (r : gmap string cell) :
  at_col "JAN_COL" r ∈ janelas -> jan_col_unset r = false.
Proof.
  unfold jan_col_unset, janelas. intros Hj. set_unfold in Hj.
  destruct Hj as [Hj | [Hj | [Hj | []]]]; rewrite Hj; reflexivity.
Qed.

Lemma mes_corte_step (months : list Z) (v : cell) (S S' : Z -> Prop)
    (df : DataFrame) :
  v ∈ janelas ->
  (forall n, S n -> n ∈ months \/ S' n) ->
  Forall (jan_col_is (month_left S)) (rows df) ->
  Forall (jan_col_is (month_left S'))
    (rows (loc_set (fun r => jan_col_unset r &&
                             isin (Int <$> months) (at_col "MES_CORTE" r))
                   "JAN_COL" v df)).
Proof.
  intros Hv HS. apply loc_set_jan_col. intros r [Hj | (Hj & n & Hm & Hn)].
  - left. rewrite (jan_col_unset_janela r Hj). exact Hj.
  - rewrite (jan_col_unset_empty r Hj), Hm. simpl.
    destruct (HS n Hn) as [Hin | HS'].
    + left. unfold isin. rewrite bool_decide_eq_true_2; [done|].
      apply list_elem_of_fmap. eauto.
    + destruct (isin _ _); [by left|]. right. eauto.
Qed.

Lemma create_mes_corte_column_rows (df out : DataFrame) :
  Forall empty_or_janela (rows df) ->
  create_mes_corte_column df = Ok out ->
  Forall (fun r => (at_col "JAN_COL" r ∈ janelas /\ at_col "MES_CORTE" r = Int 0)
                   \/ (at_col "JAN_COL" r = Str "" /\
                       exists m, at_col "MES_CORTE" r = Int m /\ 0 <= m <= 12))
         (rows out).
Proof.
  unfold create_mes_corte_column. intros Hdf Hc.
  apply bind_Ok in Hc as (_ & _ & Hc).
  apply bind_Ok in Hc as (rs & Hrs & Hc). injection Hc as <-.
  eapply Forall_loc_set.
  - simpl. eapply (Forall_mapM empty_or_janela
             (fun r => empty_or_janela r /\
                       exists m, at_col "MES_CORTE" r = Int m /\ 0 <= m <= 12));
      [exact Hrs | exact Hdf |].
    intros r r' Hr Hf. apply bind_Ok in Hf as (d & _ & Hf). injection Hf as <-.
    split.
    + unfold empty_or_janela. by rewrite at_col_insert_ne.
    + rewrite at_col_insert. eexists; split; [reflexivity|].
      destruct d as [[y m d]|]; [destruct m|]; simpl; lia.
  - intros r [[Hj | Hj] (m & Hm & Hrange)]; at_col_simpl.
    + right. rewrite Hj. simpl. split; [done|]. rewrite Hm. eauto.
    + left. split; [done|].
      unfold janelas in Hj. set_unfold in Hj.
      destruct Hj as [Hj | [Hj | [Hj | []]]]; rewrite Hj; reflexivity.
Qed.

Lemma classificar_mes_corte_rows (df out : DataFrame) :
  Forall empty_or_janela (rows df) ->
  classificar_mes_corte df = Ok out ->
  Forall (jan_col_is (month_left (fun n => n = 0))) (rows out).
Proof.
  unfold classificar_mes_corte. intros Hdf Hc.
  apply bind_Ok in Hc as (df1 & Hdf1 & Hc). injection Hc as <-.
  apply (create_mes_corte_column_rows _ _ Hdf) in Hdf1.
  apply (mes_corte_step [9; 10; 11; 12] _ (fun n => n = 0 \/ 9 <= n <= 12));
    [apply janela_tardia | set_unfold; lia |].
  apply (mes_corte_step [7; 8] _ (fun n => n = 0 \/ 7 <= n <= 12));
    [apply janela_media | set_unfold; lia |].
  apply (mes_corte_step [1; 2; 3; 4; 5; 6] _ (fun n => 0 <= n <= 12));
    [apply janela_inicio | set_unfold; lia |].
  eapply Forall_impl; [exact Hdf1|]. intros r [[Hj _] | Hr]; [by left | by right].
Qed.

Lemma idade_img_step (test : cell -> bool) (v : cell) (S S' : Z -> Prop)
    (df : DataFrame) :
  v ∈ janelas ->
  (forall z, S z -> test (Int z) = true \/ S' z) ->
  Forall (jan_col_is (age_left S)) (rows df) ->
  Forall (jan_col_is (age_left S'))
    (rows (loc_set (fun r => jan_col_unset r
                             && bool_decide (at_col "MES_CORTE" r = Int 0)
                             && test (at_col "IDADE_IMG" r))
                   "JAN_COL" v df)).
Proof.
  intros Hv HS. apply loc_set_jan_col. intros r [Hj | (Hj & Hm & z & Hi & Hz)].
  - left. rewrite (jan_col_unset_janela r Hj). exact Hj.
  - rewrite (jan_col_unset_empty r Hj), Hm, Hi. simpl.
    destruct (HS z Hz) as [-> | HS']; [by left|].
    destruct (test _); [by left|]. right. eauto 6.
Qed.

Lemma classificar_idade_img_rows (df out : DataFrame) :
  Forall (jan_col_is (month_left (fun n => n = 0))) (rows df) ->
  classificar_idade_img df = Ok out ->
  Forall (fun r => at_col "JAN_COL" r ∈ janelas) (rows out).
Proof.
  unfold classificar_idade_img. intros Hdf Hc.
  apply bind_Ok in Hc as (df1 & Hdf1 & Hc). injection Hc as <-.
  assert (Forall (jan_col_is (age_left (fun _ => True))) (rows df1)) as Hdf1'.
  { unfold astype_int_column in Hdf1.
    apply bind_Ok in Hdf1 as (_ & _ & Hdf1).
    apply bind_Ok in Hdf1 as (rs & Hrs & Hdf1). injection Hdf1 as <-. simpl.
    eapply Forall_mapM; [exact Hrs | exact Hdf |].
    intros r r' Hr Hf. simpl in Hf.
    destruct (astype_int (at_col "IDADE_IMG" r)) as [z|]; [|discriminate].
    injection Hf as <-. unfold jan_col_is. at_col_simpl.
    destruct Hr as [Hj | (Hj & n & Hm & ->)]; [by left|].
    right. eauto 6. }
  cut (Forall (jan_col_is (age_left (fun _ => False)))
         (rows (loc_set (fun r => jan_col_unset r
                           && bool_decide (at_col "MES_CORTE" r = Int 0)
                           && int_le 7 (at_col "IDADE_IMG" r))
                  "JAN_COL" (Str "TARDIA")
          (loc_set (fun r => jan_col_unset r
                           && bool_decide (at_col "MES_CORTE" r = Int 0)
                           && isin (Int <$> [8; 9; 10]) (at_col "IDADE_IMG" r))
                  "JAN_COL" (Str "MÉDIA")
          (loc_set (fun r => jan_col_unset r
                           && bool_decide (at_col "MES_CORTE" r = Int 0)
                           && int_gt 10 (at_col "IDADE_IMG" r))
                  "JAN_COL" (Str "INÍCIO") df1))))).
  { intros Hall. eapply Forall_impl; [exact Hall|].
    intros r [Hj | (_ & _ & z & _ & [])]. exact Hj. }
  apply (idade_img_step (int_le 7) _ (fun z => z <= 7));
    [apply janela_tardia | intros z Hz; left; simpl; lia |].
  apply (idade_img_step (isin (Int <$> [8; 9; 10])) _ (fun z => z <= 10));
    [apply janela_media | |].
  { intros z Hz. destruct (decide (z <= 7)); [by right|]. left.
    unfold isin. apply bool_decide_eq_true_2, list_elem_of_fmap.
    exists z. split; [done|]. set_unfold. lia. }
  apply (idade_img_step (int_gt 10) _ (fun _ => True));
    [apply janela_inicio | | exact Hdf1'].
  intros z _. simpl. destruct (10 <? z) eqn:Hz; [by left | right; lia].
Qed.

Lemma gerar_jan_col_rows (df out : DataFrame) :
  gerar_jan_col df = Ok out ->
  Forall (fun r => at_col "JAN_COL" r ∈ janelas) (rows out).
Proof.
  unfold gerar_jan_col. intros Hg.
  apply bind_Ok in Hg as (df1 & H1 & Hg).
  apply bind_Ok in Hg as (df2 & H2 & Hg).
  apply bind_Ok in Hg as (df3 & H3 & Hg).
  apply classificar_estagio_rows in H1.
  apply (classificar_cana_bis_rows _ _ H1) in H2.
  apply (classificar_mes_corte_rows _ _ H2) in H3.
  by apply (classificar_idade_img_rows _ _ H3).
Qed.
End Janela.

(** ** Validation and the harvest window *)

Lemma has_column_assign_ne (col col' : string) (f : gmap string cell -> cell)
    (df : DataFrame) :
  col <> col' -> has_column col (assign col' f df) = has_column col df.
Proof.
  intros Hne. unfold has_column, assign, add_column. simpl.
  destruct (bool_decide (col' ∈ columns df)); [done|].
  apply bool_decide_ext. set_solver.
Qed.

Lemma require_assign_ne (col col' : string) (f : gmap string cell -> cell)
    (df : DataFrame) :
  col <> col' -> require col (assign col' f df) = require col df.
Proof. intros Hne. unfold require. by rewrite has_column_assign_ne. Qed.

Lemma not_isin_rows_assign_ne (col col' : string) (values : list cell)
    (f : gmap string cell -> cell) (df : DataFrame) :
  col <> col' ->
  NdviDataValidation.not_isin_rows col values (assign col' f df)
  = (fun r => <[col' := f r]> r) <$> NdviDataValidation.not_isin_rows col values df.
Proof.
  intros Hne. unfold NdviDataValidation.not_isin_rows. rewrite rows_assign.
  induction (rows df) as [|r rs IH]; [done|].
  rewrite fmap_cons, !filter_cons, at_col_insert_ne by done.
  destruct (decide _); by rewrite IH.
Qed.

Lemma column_values_assign_ne (col col' : string)
    (f : gmap string cell -> cell) (rs : list (gmap string cell)) :
  col <> col' ->
  NdviDataValidation.column_values col ((fun r => <[col' := f r]> r) <$> rs)
  = NdviDataValidation.column_values col rs.
Proof.
  intros Hne. unfold NdviDataValidation.column_values.
  rewrite <- list_fmap_compose. apply list_fmap_ext.
  intros ? r _. simpl. by rewrite at_col_insert_ne.
Qed.

(** Validation reads [ESTAGIO_D], [GRIDCODE] and [TP_PROP] only. *)
Lemma validation_ignores_jan_col (f : gmap string cell -> cell) (df : DataFrame) :
  NdviDataValidation.validation (assign "JAN_COL" f df)
  = NdviDataValidation.validation df.
Proof.
  unfold NdviDataValidation.validation, NdviDataValidation.estagios_validation,
    NdviDataValidation.gridcode_validation,
    NdviDataValidation.contratos_validation.
  rewrite !require_assign_ne, !not_isin_rows_assign_ne by discriminate.
  rewrite rows_assign, !column_values_assign_ne by discriminate.
  destruct (require "ESTAGIO_D" df); [|done]. simpl.
  destruct (NdviDataValidation.not_isin_rows "ESTAGIO_D" _ df); [|done]. simpl.
  destruct (require "GRIDCODE" df); [|done]. simpl.
  destruct (NdviDataValidation.not_isin_rows "GRIDCODE" _ df); [|done]. simpl.
  destruct (require "TP_PROP" df); [|done]. simpl.
  by destruct (NdviDataValidation.not_isin_rows "TP_PROP" _ df).
Qed.

(** C9, as the code has it.  When the four harvest-window steps run and
    return, no row is left with an empty [JAN_COL]: each holds INÍCIO,
    MÉDIA or TARDIA.  Validation does not read [JAN_COL]: whatever values
    the column is given, the outcome of validation is the same. *)
Theorem jan_col_set_by_steps_and_ignored_by_validation `{DateParser}
    (df out : DataFrame) (f : gmap string cell -> cell) :
  JanelaDeColheita.gerar_jan_col df = Ok out ->
  (forall r, r ∈ rows out -> at_col "JAN_COL" r ∈ janelas)
  /\ NdviDataValidation.validation (assign "JAN_COL" f out)
     = NdviDataValidation.validation out.
Proof.
  intros Hg. split.
  - apply Forall_forall. by apply gerar_jan_col_rows in Hg.
  - apply validation_ignores_jan_col.
Qed.

Lemma jan_col_set_by_steps_and_ignored_by_validation_witness :
  @JanelaDeColheita.gerar_jan_col iso_parser sem_jan_col_estagios
  = Ok sem_jan_col_janelas
  /\ NdviDataValidation.column_values "JAN_COL" (rows sem_jan_col_janelas)
     = [Str "TARDIA"; Str "INÍCIO"]
  /\ (forall r, r ∈ rows sem_jan_col_janelas -> at_col "JAN_COL" r ∈ janelas)
  /\ NdviDataValidation.validation
       (assign "JAN_COL" (fun _ => Str "") sem_jan_col_janelas)
     = NdviDataValidation.validation sem_jan_col_janelas.
Proof.
  assert (@JanelaDeColheita.gerar_jan_col iso_parser sem_jan_col_estagios
          = Ok sem_jan_col_janelas) as Hg by (vm_compute; reflexivity).
  split; [exact Hg|]. split; [vm_compute; reflexivity|].
  exact (@jan_col_set_by_steps_and_ignored_by_validation iso_parser
           sem_jan_col_estagios sem_jan_col_janelas (fun _ => Str "") Hg).
Defined.

(** The pipeline completes on a table whose own [JAN_COL] is empty on a
    row: the row reaches the end of [ndvi_data] unclassified, and
    validation has passed. *)
Lemma empty_jan_col_passes_validation :
  @IntersectNdvi.ndvi_data iso_parser 2025 talhoes_com_jan_col
  = Ok com_jan_col_classificado
  /\ NdviDataValidation.column_values "JAN_COL" (rows com_jan_col_classificado)
     = [Str "TARDIA"; Str ""]
  /\ NdviDataValidation.validation com_jan_col_classificado = Ok tt
  /\ ~ jan_col_caught_by_validation com_jan_col_classificado.
Proof.
  repeat (split; [vm_compute; reflexivity|]).
  intros Hcaught. destruct Hcaught as [e He].
  - exists (list_to_map
              (zip (columns com_jan_col_classificado)
                   [Str "FAZ1"; Str "VAR2"; Str "3ºC"; Str "FORNECEDORES";
                    Str "SOCA"; Int 2; Int 9; Str "2025-03-10";
                    Str "2024-05-02"; Num (4 # 1); Str ""; Str "3ºC"])).
    split; [right; left|]; vm_compute; reflexivity.
  - vm_compute in He. discriminate.
Qed.

(** ** [idxmax] and [groupby] *)

Lemma idxmax_from_spec {K : Type} (l : list (K * Q)) (best : K) (m : Q) :
  exists q, ((idxmax_from best m l, q) = (best, m) \/ (idxmax_from best m l, q) ∈ l)
            /\ (m <= q)%Q /\ forall k' q', (k', q') ∈ l -> (q' <= q)%Q.
Proof.
  revert best m. induction l as [|[k q] l IH]; intros best m; simpl.
  - exists m. split; [by left|]. split; [apply Qle_refl|].
    intros k' q' Hin. by apply elem_of_nil in Hin.
  - destruct (Qle_bool q m) eqn:Hle.
    + apply Qle_bool_iff in Hle.
      destruct (IH best m) as (q0 & Hq0 & Hm & Hall). exists q0.
      split; [destruct Hq0; [by left | right; by right]|].
      split; [done|]. intros k' q' Hin. apply elem_of_cons in Hin as [Heq | Hin].
      * injection Heq as -> ->. by eapply Qle_trans.
      * by eapply Hall.
    + assert (m < q)%Q as Hlt.
      { apply Qnot_le_lt. intros Hc. apply Qle_bool_iff in Hc. congruence. }
      destruct (IH k q) as (q0 & Hq0 & Hm & Hall). exists q0.
      split; [right; destruct Hq0 as [-> | ?]; [left | by right]|].
      split; [eapply Qle_trans; [apply Qlt_le_weak, Hlt | exact Hm]|].
      intros k' q' Hin. apply elem_of_cons in Hin as [Heq | Hin].
      * by injection Heq as -> ->.
      * by eapply Hall.
Qed.

Lemma idxmax_spec {K : Type} (l : list (K * Q)) (k : K) :
  idxmax l = Some k ->
  exists q, (k, q) ∈ l /\ forall k' q', (k', q') ∈ l -> (q' <= q)%Q.
Proof.
  destruct l as [|[k0 q0] l]; simpl; [discriminate|]. intros [= <-].
  destruct (idxmax_from_spec l k0 q0) as (q & Hq & Hm & Hall). exists q.
  split; [destruct Hq as [-> | ?]; [left | by right]|].
  intros k' q' Hin. apply elem_of_cons in Hin as [Heq | Hin].
  - by injection Heq as -> ->.
  - by eapply Hall.
Qed.

Lemma elem_of_group_keys (by_ : list string) (rs : list (gmap string cell))
    (k : list cell) :
  k ∈ group_keys by_ rs <-> exists r, r ∈ rs /\ group_key by_ r = Some k.
Proof.
  unfold group_keys. rewrite merge_sort_Permutation, elem_of_remove_dups.
  rewrite list_elem_of_omap. naive_solver.
Qed.

Lemma NoDup_group_keys (by_ : list string) (rs : list (gmap string cell)) :
  NoDup (group_keys by_ rs).
Proof.
  unfold group_keys. rewrite merge_sort_Permutation. apply NoDup_remove_dups.
Qed.

Lemma group_key_single (col : string) (r : gmap string cell) (k : list cell) :
  group_key [col] r = Some k <-> k = [at_col col r] /\ at_col col r <> NA.
Proof.
  unfold group_key. simpl. destruct (at_col col r); simpl; naive_solver.
Qed.

Section DateImage.
Context `{DateParser}.
Import IntersectNdvi.

Lemma classify_date_image_spec (df out : DataFrame) :
  classify_date_image df = Ok out ->
  exists d,
    d <> NA /\ (exists r, r ∈ rows df /\ at_col "DATA_IMG" r = d)
    /\ out = assign "DATA_IMG" (fun _ => d) df
    /\ forall r, r ∈ rows df -> at_col "DATA_IMG" r <> NA ->
         (area_by_date df (at_col "DATA_IMG" r) <= area_by_date df d)%Q.
Proof.
  unfold classify_date_image. intros Hc.
  apply bind_Ok in Hc as (_ & _ & Hc). apply bind_Ok in Hc as (_ & _ & Hc).
  destruct (idxmax _) as [k|] eqn:Hk; [|discriminate]. injection Hc as <-.
  apply idxmax_spec in Hk as (q & Hkq & Hmax).
  unfold groupby in Hkq, Hmax. rewrite <- list_fmap_compose in Hkq, Hmax.
  assert (forall k' q', (k', q') ∈ (fun k => (k, agg_sum "AREA_NDVI"
             (group_rows ["DATA_IMG"] k (rows df)))) <$> group_keys ["DATA_IMG"] (rows df)
          <-> q' = agg_sum "AREA_NDVI" (group_rows ["DATA_IMG"] k' (rows df))
              /\ exists r, r ∈ rows df /\ group_key ["DATA_IMG"] r = Some k') as Hin.
  { intros k' q'. rewrite list_elem_of_fmap. setoid_rewrite elem_of_group_keys.
    naive_solver. }
  assert (forall d, d <> NA ->
            group_rows ["DATA_IMG"] [d] (rows df)
            = filter (fun r => at_col "DATA_IMG" r = d) (rows df)) as Hrows.
  { intros d Hd. unfold group_rows. apply list_filter_iff.
    intros r. rewrite group_key_single. naive_solver. }
  apply Hin in Hkq as (-> & r & Hr & Hkey).
  apply group_key_single in Hkey as [-> Hna].
  exists (at_col "DATA_IMG" r). simpl.
  split; [done|]. split; [eauto|]. split; [done|].
  intros r' Hr' Hna'. unfold area_by_date. rewrite <- !Hrows by done.
  apply (Hmax [at_col "DATA_IMG" r']). apply Hin. split; [done|].
  exists r'. split; [done|]. by apply group_key_single.
Qed.
End DateImage.



(** ** Sums over groups *)





(** ** Groups *)




Lemma groupby_agg_Ok (by_ : list string) (spec : list (string * aggfunc))
    (df out : DataFrame) :
  groupby_agg by_ spec df = Ok out ->
  columns out = (by_ ++ spec.*1)%list
  /\ rows out = agg_row by_ spec <$> groupby by_ df.
Proof.
  unfold groupby_agg. intros Hg.
  apply bind_Ok in Hg as (_ & _ & Hg). apply bind_Ok in Hg as (_ & _ & Hg).
  by injection Hg as <-.
Qed.



Section Summarized.
Import IntersectNdviSummarized.

(** [create_chave_column] writes a text into [chave] and nothing else. *)
Lemma create_chave_column_rows (df keyed : DataFrame) :
  create_chave_column df = Ok keyed ->
  Forall2 (fun r r' => exists s, r' = <["chave" := Str s]> r)
          (rows df) (rows keyed).
Proof.
  unfold create_chave_column. intros Hc.
  apply bind_Ok in Hc as (_ & _ & Hc).
  apply bind_Ok in Hc as (rs & Hrs & Hc). injection Hc as <-. simpl.
  apply mapM_Ok in Hrs. eapply Forall2_impl; [exact Hrs|].
  intros r r' Hr. simpl in Hr.
  repeat (apply bind_Ok in Hr as (? & _ & Hr)). injection Hr as <-. eauto.
Qed.











End Summarized.

(** ** The two rollups *)








(** ** The loader *)

Section Loader.
Context `{DateParser}.
Import InsertIntersectNdviIntoDatabase.



Lemma filter_none {A : Type} (P : A -> Prop) `{forall a, Decision (P a)}
    (l : list A) :
  Forall (fun a => ~ P a) l -> filter P l = [].
Proof.
  induction 1 as [|a l Ha _ IH]; [done|].
  by rewrite filter_cons, decide_False.
Qed.



End Loader.


(** ** Reprojection *)

Section GisFacts.
Context {geometry : Type} `{GisLib geometry}.

(** [to_crs_or_set] passes every row of the frame through one map of
    geometries, and labels the frame with the code. *)
Lemma to_crs_or_set_features (epsg : Z) (gdf : GeoDataFrame geometry) :
  crs (to_crs_or_set epsg gdf) = Some epsg
  /\ exists t, features (to_crs_or_set epsg gdf) = map_geom t <$> features gdf
          /\ (t = id \/ exists src, crs gdf = Some src /\ transformer src epsg = Some t).
Proof.
  unfold to_crs_or_set, to_crs.
  destruct (crs gdf) as [src|] eqn:Hsrc; simpl.
  - destruct (transformer src epsg) as [t|] eqn:Ht; simpl.
    + split; [done|]. exists t. split; [done|]. right. eauto.
    + split; [done|]. exists id. split; [|by left].
      rewrite <- (list_fmap_id (features gdf)) at 1.
      apply list_fmap_ext. by intros i [a g] _.
  - split; [done|]. exists id. split; [|by left].
    rewrite <- (list_fmap_id (features gdf)) at 1.
    apply list_fmap_ext. by intros i [a g] _.
Qed.

Lemma reproject_to_utm_step_Raise (e : error) (l : list (Feature geometry)) :
  foldl reproject_to_utm_step (Raise e) l = Raise e.
Proof. induction l as [|f l IH]; [done|]. simpl. exact IH. Qed.

(** The loop re-projects the whole frame, once per row with a southern
    centroid. *)
Lemma reproject_to_utm_fold (l : list (Feature geometry))
    (gdf out : GeoDataFrame geometry) :
  foldl reproject_to_utm_step (Ok gdf) l = Ok out ->
  out = foldl (fun acc epsg => to_crs_or_set epsg acc) gdf (omap southern_code l)
  /\ Forall (fun f => is_Some (from_latlon (centroid (geom f)).2
                                          (centroid (geom f)).1)) l.
Proof.
  revert gdf. induction l as [|f l IH]; intros gdf Hfold; simpl in *.
  - injection Hfold as <-. by split.
  - unfold southern_code. 
    destruct (from_latlon _ _) as [[[[utm_x utm_y] band] zone]|] eqn:Hll.
    + destruct (Qlt_le_dec _ _); simpl.
      * apply IH in Hfold as [-> Hall]. split; [done|]. constructor; eauto.
      * apply IH in Hfold as [-> Hall]. split; [done|]. constructor; eauto.
    + by rewrite reproject_to_utm_step_Raise in Hfold.
Qed.

Lemma southern_code_northern (f : Feature geometry) :
  northern f -> southern_code f = None.
Proof.
  unfold northern, southern_code. intros Hn.
  destruct (from_latlon _ _) as [[[[? ?] ?] ?]|]; [|done].
  destruct (Qlt_le_dec _ _) as [Hlt|]; [|done].
  exfalso. by eapply Qlt_not_le.
Qed.

Lemma fold_to_crs_or_set (codes : list Z) (gdf : GeoDataFrame geometry) :
  let out := foldl (fun acc epsg => to_crs_or_set epsg acc) gdf codes in
  crs out = match last codes with Some epsg => Some epsg | None => crs gdf end
  /\ exists t, features out = map_geom t <$> features gdf.
Proof.
  revert gdf. induction codes as [|epsg codes IH]; intros gdf; simpl.
  - split; [done|]. exists id.
    rewrite <- (list_fmap_id (features gdf)) at 1.
    apply list_fmap_ext. by intros i [a g] _.
  - destruct (IH (to_crs_or_set epsg gdf)) as [Hcrs (t & Ht)].
    destruct (to_crs_or_set_features epsg gdf) as [Hcrs1 (t1 & Ht1 & _)].
    split.
    + rewrite Hcrs, Hcrs1. destruct codes as [|epsg' codes]; [done|].
      change (last (epsg :: epsg' :: codes)) with (last (epsg' :: codes)).
      destruct (last (epsg' :: codes)) eqn:Hlast; [done|].
      by apply last_None in Hlast.
    + exists (t ∘ t1). rewrite Ht, Ht1, <- list_fmap_compose.
      apply list_fmap_ext. by intros i [a g] _.
Qed.

Lemma reproject_utm_northern (gdf out : GeoDataFrame geometry) :
  Forall northern (features gdf) ->
  reproject UTM gdf = Ok out -> out = gdf.
Proof.
  intros Hn Hr. simpl in Hr. unfold reproject_to_utm in Hr.
  apply reproject_to_utm_fold in Hr as [-> _].
  replace (omap southern_code (features gdf)) with (@nil Z); [done|].
  symmetry. induction Hn as [|f l Hf _ IH]; [done|].
  simpl. by rewrite (southern_code_northern f Hf).
Qed.

(** X27.  When local-UTM reprojection returns, it has
    re-projected the whole frame once for each row whose centroid lies
    south of the equator, in row order, each time to EPSG 32700 plus the
    UTM zone number of that centroid.  The frame it returns has one CRS,
    the code of the last such row (its own CRS if there is none), and all
    its rows, whatever their hemisphere, went through the same map of
    geometries.  A frame without a southern centroid is returned as it
    was. *)
Theorem local_utm_reprojects_the_whole_frame (gdf out : GeoDataFrame geometry) :
  reproject UTM gdf = Ok out ->
  out = foldl (fun acc epsg => to_crs_or_set epsg acc) gdf (southern_codes gdf)
  /\ (forall epsg, epsg ∈ southern_codes gdf ->
        exists f utm_x utm_y band zone,
          f ∈ features gdf /\ ~ northern f
          /\ from_latlon (centroid (geom f)).2 (centroid (geom f)).1
             = Some (utm_x, utm_y, band, zone)
          /\ epsg = 32700 + band)
  /\ crs out = match last (southern_codes gdf) with
               | Some epsg => Some epsg
               | None => crs gdf
               end
  /\ (exists t, features out = map_geom t <$> features gdf)
  /\ (Forall northern (features gdf) -> out = gdf).
Proof.
  intros Hr. pose proof Hr as Hfold. simpl in Hfold.
  unfold reproject_to_utm in Hfold.
  apply reproject_to_utm_fold in Hfold as [Hout _].
  split; [exact Hout|]. split; [|split; [|split]].
  - intros epsg Hin. unfold southern_codes in Hin.
    apply list_elem_of_omap in Hin as (f & Hf & Hcode).
    unfold southern_code in Hcode.
    destruct (from_latlon _ _) as [[[[utm_x utm_y] band] zone]|] eqn:Hll;
      [|discriminate].
    destruct (Qlt_le_dec _ _) as [Hlt|]; [|discriminate].
    injection Hcode as <-. exists f, utm_x, utm_y, band, zone.
    split; [done|]. split; [|done]. unfold northern. by apply Qlt_not_le.
  - rewrite Hout. apply fold_to_crs_or_set.
  - rewrite Hout. apply fold_to_crs_or_set.
  - intros Hn. by apply reproject_utm_northern.
Qed.

(** ** Repair *)

Lemma improve_geometry_collection_attrs (gdf out : GeoDataFrame geometry) :
  improve_geometry_collection gdf = Ok out ->
  crs out = crs gdf
  /\ Forall2 (fun f f' => attrs f' = attrs f) (features gdf) (features out).
Proof.
  unfold improve_geometry_collection. intros Hi.
  apply bind_Ok in Hi as (fs & Hfs & Hi). injection Hi as <-. simpl.
  split; [done|]. apply mapM_Ok in Hfs.
  eapply Forall2_impl; [exact Hfs|]. intros f f' Hf. simpl in Hf.
  destruct (decide _); [|by injection Hf as <-].
  apply bind_Ok in Hf as (g & _ & Hf).
  destruct (setitem_raises g); [discriminate|]. by injection Hf as <-.
Qed.

Lemma attrs_repair_row (f : Feature geometry) : attrs (repair_row f) = attrs f.
Proof.
  unfold repair_row. destruct (is_valid _); [done|].
  by destruct (setitem_raises _).
Qed.

(** What [__make_valid] returns: every geometry went through the
    zero-width buffer and then through one map [t], the transform to
    EPSG:4326 or, when that raised, the identity. *)
Lemma make_valid_frame_features (gdf : GeoDataFrame geometry) :
  crs (make_valid_frame gdf) = Some 4326
  /\ exists t,
       features (make_valid_frame gdf)
       = (fun f => set_geom (t (buffer 0 (geom (repair_row f)))) f)
           <$> features gdf
       /\ (t = id \/ exists src, transformer src 4326 = Some t).
Proof.
  unfold make_valid_frame, reproject_epsg.
  match goal with
  | |- context [to_crs_or_set 4326 ?g] =>
      destruct (to_crs_or_set_features 4326 g) as [Hcrs (t & Ht & Hkind)]
  end.
  split; [exact Hcrs|]. exists t. split.
  - rewrite Ht. simpl. rewrite <- !list_fmap_compose.
    apply list_fmap_ext. intros i f _. simpl.
    unfold map_geom, set_geom. simpl. by rewrite attrs_repair_row.
  - destruct Hkind as [-> | (src & _ & Ht')]; [by left | right; eauto].
Qed.

Lemma improve_geometry_attrs (gdf out : GeoDataFrame geometry) :
  improve_geometry gdf = Ok out ->
  crs out = Some 4326
  /\ forall f', f' ∈ features out ->
       exists f, f ∈ features gdf /\ attrs f' = attrs f.
Proof.
  unfold improve_geometry. intros Hi.
  apply bind_Ok in Hi as (mid & Hmid & Hi). injection Hi as <-.
  apply improve_geometry_collection_attrs in Hmid as [_ Hattrs].
  destruct (make_valid_frame_features mid) as [Hcrs (t & Ht & _)].
  split; [exact Hcrs|]. intros f' Hf'. rewrite Ht in Hf'.
  apply list_elem_of_fmap in Hf' as (fm & -> & Hfm). simpl.
  apply list_elem_of_lookup in Hfm as [i Hi].
  destruct (Forall2_lookup_r _ _ _ _ _ Hattrs Hi) as (f & Hf & ->).
  exists f. split; [|done].
  apply list_elem_of_lookup_2 in Hf. unfold init_MakeValidGeometries in Hf.
  simpl in Hf. by apply list_elem_of_filter in Hf as [_ ?].
Qed.

Section Contract.
(** What the code relies on from shapely and pyproj: a zero-width buffer
    returns a valid polygon or multipolygon, and a change of CRS keeps the
    type and the validity of a geometry. *)
Hypothesis buffer_polygonal :
  forall g, geom_type (buffer 0 g) ∈ ["Polygon"; "MultiPolygon"].
Hypothesis buffer_valid : forall g, is_valid (buffer 0 g) = true.
Hypothesis transformer_type :
  forall src dst t g, transformer src dst = Some t ->
    geom_type (t g) = geom_type g.
Hypothesis transformer_valid :
  forall src dst t g, transformer src dst = Some t ->
    is_valid g = true -> is_valid (t g) = true.

(** X26.  Given that a zero-width buffer returns a valid polygon or
    multipolygon and that a change of CRS keeps the type and the validity
    of a geometry, every feature that [improve_geometry] returns has a
    valid geometry of type Polygon or MultiPolygon; none is a
    GeometryCollection or a LineString. *)
Theorem improve_geometry_valid_polygonal (gdf out : GeoDataFrame geometry) :
  improve_geometry gdf = Ok out ->
  forall f, f ∈ features out ->
    valid_polygonal (geom f)
    /\ geom_type (geom f) <> "GeometryCollection"
    /\ geom_type (geom f) <> "LineString".
Proof.
  unfold improve_geometry. intros Hi f Hf.
  apply bind_Ok in Hi as (mid & _ & Hi). injection Hi as <-.
  destruct (make_valid_frame_features mid) as [_ (t & Ht & Hkind)].
  rewrite Ht in Hf. apply list_elem_of_fmap in Hf as (fm & -> & _). simpl.
  assert (valid_polygonal (t (buffer 0 (geom (repair_row fm))))) as Hvp.
  { unfold valid_polygonal. destruct Hkind as [-> | (src & Ht')]; simpl.
    - split; [apply buffer_valid | apply buffer_polygonal].
    - split; [eapply transformer_valid; [exact Ht' | apply buffer_valid]|].
      rewrite (transformer_type _ _ _ _ Ht'). apply buffer_polygonal. }
  split; [exact Hvp|]. destruct Hvp as [_ Htype].
  split; intros Heq; rewrite Heq in Htype; set_unfold in Htype;
    naive_solver.
Qed.
End Contract.

(** ** Area *)

(** X28.  If every centroid lies on or north of the
    equator and [calculate_area] returns, the local-UTM step of [Area]
    returned the frame as it was, with its CRS and its coordinates; the
    area column of every returned feature holds the area of a geometry of
    the input, in the units of the input CRS, divided by 10000 and rounded
    to 7 decimals; and the frame returned, after repair, is labelled
    EPSG:4326. *)
Theorem area_of_northern_frames_is_in_input_units (column_name : string)
    (gdf out : GeoDataFrame geometry) :
  Forall northern (features gdf) ->
  calculate_area column_name gdf = Ok out ->
  reproject UTM gdf = Ok gdf
  /\ improve_geometry (set_area_column column_name gdf) = Ok out
  /\ (forall f', f' ∈ features out ->
        exists f, f ∈ features gdf
          /\ attrs f' = <[column_name :=
                            Num (round7 (area (geom f) / inject_Z 10000))]>
                          (attrs f)
          /\ at_col column_name (attrs f')
             = Num (round7 (area (geom f) / inject_Z 10000)))
  /\ crs out = Some 4326.
Proof.
  intros Hn Hc. unfold calculate_area in Hc.
  apply bind_Ok in Hc as (gdf' & Hutm & Hc).
  pose proof (reproject_utm_northern _ _ Hn Hutm) as ->.
  split; [exact Hutm|]. split; [exact Hc|].
  apply improve_geometry_attrs in Hc as [Hcrs Hattrs]. split; [|exact Hcrs].
  intros f' Hf'. destruct (Hattrs f' Hf') as (fa & Hfa & ->).
  unfold set_area_column in Hfa. simpl in Hfa.
  apply list_elem_of_fmap in Hfa as (f & -> & Hf). simpl.
  exists f. split; [done|]. split; [done|]. apply at_col_insert.
Qed.
End GisFacts.

(** ** The examples with geometry *)

Lemma sketch_buffer_polygonal (g : sketch) :
  sketch_kind (sketch_buffer 0 g) ∈ ["Polygon"; "MultiPolygon"].
Proof.
  destruct g as [kind valid x y surface members]. simpl.
  case_bool_decide as Hkind; [rewrite Hkind|]; set_solver.
Qed.

Lemma sketch_buffer_valid (g : sketch) : sketch_valid (sketch_buffer 0 g) = true.
Proof. by destruct g. Qed.

Lemma sketch_move_kind (east : Z) (g : sketch) :
  sketch_kind (sketch_move east g) = sketch_kind g.
Proof. by destruct g. Qed.

Lemma sketch_move_valid (east : Z) (g : sketch) :
  sketch_valid (sketch_move east g) = sketch_valid g.
Proof. by destruct g. Qed.

Lemma improve_geometry_valid_polygonal_witness :
  @improve_geometry _ sketch_lib para_reparar = Ok reparado
  /\ length (features reparado) = 2%nat
  /\ forall f, f ∈ features reparado ->
       @valid_polygonal _ sketch_lib (geom f)
       /\ sketch_kind (geom f) <> "GeometryCollection"
       /\ sketch_kind (geom f) <> "LineString".
Proof.
  assert (@improve_geometry _ sketch_lib para_reparar = Ok reparado) as Hr
    by (vm_compute; reflexivity).
  split; [exact Hr|]. split; [reflexivity|].
  apply (@improve_geometry_valid_polygonal _ sketch_lib) with (gdf := para_reparar).
  - exact sketch_buffer_polygonal.
  - exact sketch_buffer_valid.
  - intros src dst t g [= <-]. apply sketch_move_kind.
  - intros src dst t g [= <-]. simpl. by rewrite sketch_move_valid.
  - exact Hr.
Defined.

Lemma local_utm_reprojects_the_whole_frame_witness :
  @reproject _ sketch_lib UTM dois_hemisferios = Ok dois_hemisferios_utm
  /\ @southern_codes _ sketch_lib dois_hemisferios = [32723]
  /\ crs dois_hemisferios_utm = Some 32723
  /\ exists t, features dois_hemisferios_utm
               = @map_geom sketch t <$> features dois_hemisferios.
Proof.
  assert (@reproject _ sketch_lib UTM dois_hemisferios = Ok dois_hemisferios_utm)
    as Hr by (vm_compute; reflexivity).
  destruct (@local_utm_reprojects_the_whole_frame _ sketch_lib
              dois_hemisferios dois_hemisferios_utm Hr)
    as (_ & _ & Hcrs & Ht & _).
  split; [exact Hr|]. split; [vm_compute; reflexivity|].
  split; [|exact Ht]. rewrite Hcrs. vm_compute. reflexivity.
Defined.

(** On a frame of both hemispheres the field at 10°N does not stay as it
    was: the frame is re-projected as a whole to EPSG:32723, the zone of
    the field at 22°S. *)
Lemma local_utm_moves_the_northern_rows :
  @reproject _ sketch_lib UTM dois_hemisferios = Ok dois_hemisferios_utm
  /\ crs dois_hemisferios_utm = Some 32723
  /\ geom <$> features dois_hemisferios
     = [polygon_at (-47) (-22) 120000; polygon_at (-47) 10 50000]
  /\ geom <$> features dois_hemisferios_utm
     = [polygon_at 28350 (-22) 120000; polygon_at 28350 10 50000]
  /\ ~ @northern_rows_untouched _ sketch_lib dois_hemisferios dois_hemisferios_utm.
Proof.
  repeat (split; [vm_compute; reflexivity|]).
  intros Hclaim.
  specialize (Hclaim 1%nat
                (mkFeature {["TALHAO" := Int 2]} (polygon_at (-47) 10 50000))
                eq_refl).
  assert (features dois_hemisferios_utm !! 1%nat
          = Some (mkFeature {["TALHAO" := Int 2]} (polygon_at (-47) 10 50000)))
    as Hsame.
  { apply Hclaim. unfold northern. simpl. vm_compute. discriminate. }
  vm_compute in Hsame. discriminate.
Qed.

Lemma area_of_northern_frames_is_in_input_units_witness :
  @calculate_area _ sketch_lib "AREA_CALC" talhoes_do_norte
  = Ok talhoes_do_norte_area
  /\ @reproject _ sketch_lib UTM talhoes_do_norte = Ok talhoes_do_norte
  /\ (fun f => at_col "AREA_CALC" (attrs f)) <$> features talhoes_do_norte_area
     = [Num (120000000 # 10000000); Num (50000000 # 10000000)]
  /\ crs talhoes_do_norte_area = Some 4326.
Proof.
  assert (@calculate_area _ sketch_lib "AREA_CALC" talhoes_do_norte
          = Ok talhoes_do_norte_area) as Hc by (vm_compute; reflexivity).
  assert (Forall (@northern _ sketch_lib) (features talhoes_do_norte)) as Hn
    by (repeat constructor; unfold northern; vm_compute; discriminate).
  destruct (@area_of_northern_frames_is_in_input_units _ sketch_lib "AREA_CALC"
              talhoes_do_norte talhoes_do_norte_area Hn Hc)
    as (Hutm & _ & _ & Hcrs).
  split; [exact Hc|]. split; [exact Hutm|].
  split; [vm_compute; reflexivity | exact Hcrs].
Defined.

(** The frame [calculate_area] returns for the northern fields is not the
    frame it was given with one more column: it is labelled EPSG:4326, not
    EPSG:4674, and its coordinates went through the change of CRS. *)
Lemma area_of_northern_frames_is_reprojected_to_4326 :
  @calculate_area _ sketch_lib "AREA_CALC" talhoes_do_norte
  = Ok talhoes_do_norte_area
  /\ Forall (@northern _ sketch_lib) (features talhoes_do_norte)
  /\ crs talhoes_do_norte = Some 4674
  /\ crs talhoes_do_norte_area = Some 4326
  /\ ~ no_transform_at_all talhoes_do_norte talhoes_do_norte_area.
Proof.
  split; [vm_compute; reflexivity|].
  split; [repeat constructor; unfold northern; vm_compute; discriminate|].
  split; [reflexivity|]. split; [reflexivity|].
  intros [Hcrs _]. vm_compute in Hcrs. discriminate.
Qed.

Lemma estagio_d_step (mask : cell -> bool) (v d : cell) (r : gmap string cell) :
  <["ESTAGIO_D" := if mask (at_col "ESTAGIO" (<["ESTAGIO_D" := d]> r))
                   then v
                   else at_col "ESTAGIO_D" (<["ESTAGIO_D" := d]> r)]>
    (<["ESTAGIO_D" := d]> r)
  = <["ESTAGIO_D" := if mask (at_col "ESTAGIO" r) then v else d]> r.
Proof. at_col_simpl. by rewrite insert_insert_eq. Qed.

Lemma add_column_twice (col : string) (cols : list string) :
  add_column col (add_column col cols) = add_column col cols.
Proof.
  unfold add_column. destruct (decide (col ∈ cols)) as [Hin | Hout].
  - rewrite (bool_decide_eq_true_2 _ Hin). by rewrite (bool_decide_eq_true_2 _ Hin).
  - rewrite (bool_decide_eq_false_2 _ Hout).
    rewrite bool_decide_eq_true_2; [done|]. set_solver.
Qed.

Lemma columns_loc_set (mask : gmap string cell -> bool) (col : string) (v : cell)
    (df : DataFrame) :
  columns (loc_set mask col v df) = add_column col (columns df).
Proof. reflexivity. Qed.

Lemma rows_loc_set (mask : gmap string cell -> bool) (col : string) (v : cell)
    (df : DataFrame) :
  rows (loc_set mask col v df)
  = (fun r => <[col := if mask r then v else at_col col r]> r) <$> rows df.
Proof. reflexivity. Qed.

(** A frame whose [ESTAGIO_D] was computed row by row stays so under a
    rule that does not read [ESTAGIO_D]. *)
Lemma estagio_d_rule (mask : gmap string cell -> bool) (v : cell)
    (g : gmap string cell -> cell)
    (rs0 : list (gmap string cell)) (df : DataFrame) :
  (forall r d, mask (<["ESTAGIO_D" := d]> r) = mask r) ->
  rows df = (fun r => <["ESTAGIO_D" := g r]> r) <$> rs0 ->
  rows (loc_set mask "ESTAGIO_D" v df)
  = (fun r => <["ESTAGIO_D" := if mask r then v else g r]> r) <$> rs0.
Proof.
  intros Hmask Hdf. rewrite rows_loc_set, Hdf, <- list_fmap_compose.
  apply list_fmap_ext. intros i r _. cbn [compose].
  by rewrite Hmask, at_col_insert, insert_insert_eq.
Qed.

Lemma format_estagios_rows (df out : DataFrame) :
  ImproveEstagios.format_estagios df = Ok out ->
  columns out = add_column "ESTAGIO_D" (columns df)
  /\ rows out
     = (fun r => <["ESTAGIO_D" := estagio_d_of (at_col "ESTAGIO" r)]> r)
         <$> rows df.
Proof.
  unfold ImproveEstagios.format_estagios. intros Hf.
  apply bind_Ok in Hf as (_ & _ & Hf). injection Hf as <-.
  unfold ImproveEstagios.classify_cortes, ImproveEstagios.classify_bis,
    ImproveEstagios.classify_adef_ref_plantio.
  split.
  - rewrite !columns_loc_set. cbn [columns assign].
    by rewrite !add_column_twice.
  - eapply eq_trans.
    { do 9 (eapply estagio_d_rule;
            [by intros; rewrite ?at_col_insert_ne by discriminate|]).
      apply rows_assign. }
    apply list_fmap_ext. intros i r _. f_equal.
    unfold estagio_d_of.
    by destruct (isin ImproveEstagios.rules_adef _), (isna _).
Qed.


(** ** Classification and validation of the stage *)

Lemma drop_duplicates_constant (c : cell) (l : list cell) :
  l <> [] -> Forall (fun c' => c' = c) l -> drop_duplicates l = [c].
Proof.
  destruct l as [|a l]; [done|]. intros _ Hall.
  apply Forall_cons in Hall as [-> Hall]. simpl. f_equal.
  apply filter_none, Forall_forall. intros c' Hin Hne. apply Hne.
  apply (proj1 (elem_of_drop_duplicates _ _)) in Hin.
  rewrite Forall_forall in Hall. by apply Hall.
Qed.

Lemma estagio_d_of_closed (e : cell) :
  estagio_d_of e ∈ Str "" :: NdviDataValidation.estagios_values.
Proof.
  unfold estagio_d_of, NdviDataValidation.estagios_values.
  repeat (match goal with |- context [if ?b then _ else _] => destruct b end;
          [set_solver|]).
  set_solver.
Qed.

Lemma empty_not_an_estagio : Str "" ∉ NdviDataValidation.estagios_values.
Proof. vm_decide. Qed.

(** X2.  After [format_estagios], every [ESTAGIO_D] is one of the nine
    validated stages or the empty text.  The stage check of validation
    then passes exactly when every raw stage matched a rule, and when it
    raises, the offending values it reports are the empty text alone. *)
Theorem unmatched_stage_is_the_only_estagio_failure (df out : DataFrame) :
  ImproveEstagios.format_estagios df = Ok out ->
  Forall (fun r => at_col "ESTAGIO_D" r
                   ∈ Str "" :: NdviDataValidation.estagios_values) (rows out)
  /\ (NdviDataValidation.estagios_validation out = Ok tt
      <-> Forall (fun r => estagio_d_of (at_col "ESTAGIO" r) <> Str "")
                 (rows df))
  /\ (forall w l,
        NdviDataValidation.estagios_validation out
        = Raise (InvalidEstagio w l) -> w = [Str ""]).
Proof.
  intros Hf. destruct (format_estagios_rows df out Hf) as [Hc Hr].
  assert (Forall (fun r => at_col "ESTAGIO_D" r
                   ∈ Str "" :: NdviDataValidation.estagios_values) (rows out))
    as Hclosed.
  { rewrite Hr. apply Forall_fmap, Forall_true. intros r. simpl.
    rewrite at_col_insert. apply estagio_d_of_closed. }
  assert (has_column "ESTAGIO_D" out = true) as Hcol.
  { unfold has_column. rewrite Hc. apply bool_decide_eq_true_2.
    unfold add_column. case_bool_decide; set_solver. }
  pose proof (estagios_validation_cases out Hcol) as Hcases. simpl in Hcases.
  assert (forall r, r ∈ NdviDataValidation.not_isin_rows "ESTAGIO_D"
                          NdviDataValidation.estagios_values out ->
                    at_col "ESTAGIO_D" r = Str "") as Hoff.
  { intros r Hin. apply elem_of_not_isin_rows in Hin as [Hin Hout].
    rewrite Forall_forall in Hclosed. specialize (Hclosed r Hin).
    apply elem_of_cons in Hclosed as [? | ?]; done. }
  split; [exact Hclosed|]. split.
  - split.
    + intros Hok. destruct Hcases as [[Hnone _] | [_ Hraise]];
        [|by rewrite Hraise in Hok].
      apply Forall_forall. intros r Hin Hempty.
      assert (<["ESTAGIO_D" := estagio_d_of (at_col "ESTAGIO" r)]> r
              ∈ NdviDataValidation.not_isin_rows "ESTAGIO_D"
                  NdviDataValidation.estagios_values out) as Hbad.
      { apply elem_of_not_isin_rows. split.
        - rewrite Hr. apply list_elem_of_fmap. eauto.
        - rewrite at_col_insert, Hempty. apply empty_not_an_estagio. }
      rewrite Hnone in Hbad. by apply elem_of_nil in Hbad.
    + intros Hall. destruct Hcases as [[_ Hok] | [Hsome _]]; [exact Hok|].
      exfalso.
      destruct (NdviDataValidation.not_isin_rows _ _ _) as [|r rs] eqn:Hrows;
        [done|].
      assert (at_col "ESTAGIO_D" r = Str "") as Hempty by (apply Hoff; left).
      assert (r ∈ NdviDataValidation.not_isin_rows "ESTAGIO_D"
                    NdviDataValidation.estagios_values out) as Hin
        by (rewrite Hrows; left).
      apply elem_of_not_isin_rows in Hin as [Hin _].
      rewrite Hr in Hin. apply list_elem_of_fmap in Hin as (r0 & -> & Hin0).
      rewrite at_col_insert in Hempty.
      rewrite Forall_forall in Hall. by apply (Hall r0 Hin0).
  - intros w l Hraise. destruct Hcases as [[_ Hok] | [Hsome Hraise']];
      [by rewrite Hok in Hraise|].
    rewrite Hraise' in Hraise. injection Hraise as <- _.
    apply drop_duplicates_constant.
    + unfold NdviDataValidation.column_values.
      destruct (NdviDataValidation.not_isin_rows _ _ _); done.
    + unfold NdviDataValidation.column_values. apply Forall_fmap.
      apply Forall_forall. intros r Hin. by apply Hoff.
Qed.

Lemma unmatched_stage_is_the_only_estagio_failure_witness :
  ImproveEstagios.format_estagios estagios_variados = Ok estagios_variados_d
  /\ NdviDataValidation.column_values "ESTAGIO_D" (rows estagios_variados_d)
     = [Str "1ºC"; Str "5ºC+"; Str "BIS"; Str "ADEF"; Str "REF"; Str "5ºC+";
        Str ""]
  /\ Forall (fun r => at_col "ESTAGIO_D" r
                      ∈ Str "" :: NdviDataValidation.estagios_values)
            (rows estagios_variados_d)
  /\ (forall w l,
        NdviDataValidation.estagios_validation estagios_variados_d
        = Raise (InvalidEstagio w l) -> w = [Str ""]).
Proof.
  assert (ImproveEstagios.format_estagios estagios_variados
          = Ok estagios_variados_d) as Hf by (vm_compute; reflexivity).
  destruct (unmatched_stage_is_the_only_estagio_failure
              estagios_variados estagios_variados_d Hf) as (Hclosed & _ & Hw).
  split; [exact Hf|]. split; [vm_compute; reflexivity|].
  split; [exact Hclosed | exact Hw].
Defined.

(** ** The seed of the stage column *)

Lemma has_char_append (c : ascii) (s1 s2 : string) :
  has_char c (s1 ++ s2) = has_char c s1 || has_char c s2.
Proof.
  induction s1 as [|a s1 IH]; [done|]. simpl. by rewrite IH, orb_assoc.
Qed.

(** Replacing a one-character text by the empty text leaves no occurrence
    of the character. *)
Lemma replace_from_no_char (c : ascii) (s : string) :
  has_char c (replace_from (String c EmptyString) "" 0 s) = false.
Proof.
  induction s as [|a s IH]; [done|]. simpl.
  destruct (ascii_dec c a) as [<- | Hne].
  - destruct s; simpl; exact IH.
  - simpl. rewrite IH, orb_false_r. by apply bool_decide_eq_false_2.
Qed.

Lemma seeded_no_space (c : cell) :
  seeded c = NA \/ exists s, seeded c = Str s /\ has_char " " s = false.
Proof.
  unfold seeded. destruct c as [|s|z|q|d]; simpl; try by left.
  right. eexists. split; [reflexivity|]. apply replace_from_no_char.
Qed.

Lemma create_estagio_column_rows (safra : Z) (df : DataFrame) :
  let alias := "ESTAGIO_" ++ str_last 2 (str_of_int safra) in
  IntersectNdvi.create_estagio_column safra df
  = if has_column alias df
    then Ok {| columns := add_column "ESTAGIO" (columns df);
               rows := (fun r => <["ESTAGIO" := seeded (at_col alias r)]> r)
                         <$> rows df |}
    else if has_column "ESTAGIO" df
    then Ok {| columns := columns df;
               rows := (fun r => <["ESTAGIO" := seeded (at_col "ESTAGIO" r)]> r)
                         <$> rows df |}
    else Raise (ValueError "INTERSECT_NDVI não possui coluna de ESTAGIO").
Proof.
  intros alias. unfold IntersectNdvi.create_estagio_column. fold alias.
  destruct (has_column alias df) eqn:Halias.
  - assert (has_column "ESTAGIO" (assign "ESTAGIO" (at_col alias) df) = true)
      as ->.
    { unfold has_column. apply bool_decide_eq_true_2. simpl.
      unfold add_column. case_bool_decide; set_solver. }
    cbn [negb]. f_equal. unfold assign. cbn [columns rows]. f_equal.
    + by rewrite !add_column_twice.
    + rewrite <- !list_fmap_compose. apply list_fmap_ext. intros i r _.
      cbn [compose]. rewrite !at_col_insert, !insert_insert_eq. done.
  - destruct (has_column "ESTAGIO" df) eqn:Hcol; cbn [negb]; [|done].
    f_equal. unfold assign. cbn [columns rows]. f_equal.
    + unfold has_column in Hcol. apply bool_decide_eq_true_1 in Hcol.
      unfold add_column. by rewrite !(bool_decide_eq_true_2 _ Hcol).
    + rewrite <- !list_fmap_compose. apply list_fmap_ext. intros i r _.
      cbn [compose]. rewrite !at_col_insert, !insert_insert_eq. done.
Qed.


(** X4.  After [__create_estagio_column] no stage holds a space: every
    [ESTAGIO] is missing or a text without spaces.  So the entries of
    [rules_2c], [rules_3c] and [rules_4c] that are written with a space
    match no row that comes from the seed. *)
Theorem seeded_stage_holds_no_space (safra : Z) (df out : DataFrame) :
  IntersectNdvi.create_estagio_column safra df = Ok out ->
  forall r, r ∈ rows out ->
    (at_col "ESTAGIO" r = NA
     \/ exists s, at_col "ESTAGIO" r = Str s /\ has_char " " s = false)
    /\ at_col "ESTAGIO" r
       ∉ Str <$> ["2º CORTE"; "2° CORTE"; "3º CORTE"; "3° CORTE";
                  "4º CORTE"; "4° CORTE"].
Proof.
  intros Hc r Hr.
  assert (exists c, at_col "ESTAGIO" r = seeded c) as [c Hseed].
  { rewrite create_estagio_column_rows in Hc.
    destruct (has_column _ df); [|destruct (has_column _ df); [|done]];
      injection Hc as <-; simpl in Hr;
      apply list_elem_of_fmap in Hr as (r0 & -> & _);
      rewrite at_col_insert; eauto. }
  rewrite Hseed. pose proof (seeded_no_space c) as Hspace.
  split; [exact Hspace|]. intros Hin.
  destruct Hspace as [Hna | (s & Hs & Hnone)]; rewrite ?Hna, ?Hs in Hin.
  - set_unfold in Hin. naive_solver.
  - apply list_elem_of_fmap in Hin as (s' & [= ->] & Hin).
    set_unfold in Hin.
    destruct Hin as [-> | [-> | [-> | [-> | [-> | [-> | []]]]]]];
      vm_compute in Hnone; discriminate.
Qed.

Lemma seeded_stage_holds_no_space_witness :
  @IntersectNdvi.create_estagio_column 2025 segundo_corte
  = Ok segundo_corte_seeded
  /\ NdviDataValidation.column_values "ESTAGIO" (rows segundo_corte_seeded)
     = [Str "2°C"; Str "2ºC"; Str "2ºCORTE"; Str "2°CORTE"]
  /\ forall r, r ∈ rows segundo_corte_seeded ->
       (at_col "ESTAGIO" r = NA
        \/ exists s, at_col "ESTAGIO" r = Str s /\ has_char " " s = false)
       /\ at_col "ESTAGIO" r
          ∉ Str <$> ["2º CORTE"; "2° CORTE"; "3º CORTE"; "3° CORTE";
                     "4º CORTE"; "4° CORTE"].
Proof.
  assert (@IntersectNdvi.create_estagio_column 2025 segundo_corte
          = Ok segundo_corte_seeded) as Hc by (vm_compute; reflexivity).
  split; [exact Hc|]. split; [vm_compute; reflexivity|].
  exact (seeded_stage_holds_no_space 2025 segundo_corte segundo_corte_seeded Hc).
Defined.

(** ** The ownership rules *)

(** A rule of [format_contratos] reads and writes [TP_PROP]: it acts on
    the value the earlier rules left. *)
Lemma tp_prop_rule (mask : cell -> bool) (v : cell)
    (g : gmap string cell -> cell)
    (rs0 : list (gmap string cell)) (df : DataFrame) :
  rows df = (fun r => <["TP_PROP" := g r]> r) <$> rs0 ->
  rows (loc_set (fun r => mask (at_col "TP_PROP" r)) "TP_PROP" v df)
  = (fun r => <["TP_PROP" := if mask (g r) then v else g r]> r) <$> rs0.
Proof.
  intros Hdf. rewrite rows_loc_set, Hdf, <- list_fmap_compose.
  apply list_fmap_ext. intros i r _. cbn [compose].
  by rewrite at_col_insert, insert_insert_eq.
Qed.

Lemma frame_eq (a b : DataFrame) :
  columns a = columns b -> rows a = rows b -> a = b.
Proof. destruct a, b. simpl. by intros -> ->. Qed.

Lemma contrato_of_rules (c : cell) :
  (let c1 := if first_is "P" c then Str "PRÓPRIAS" else c in
   let c2 := if isin ImproveContratos.proprias_values c1
             then Str "PRÓPRIAS" else c1 in
   let c3 := if first_is "F" c2 then Str "FORNECEDORES" else c2 in
   if isin ImproveContratos.fornecedores_values c3
   then Str "FORNECEDORES" else c3)
  = contrato_of c.
Proof.
  assert (isin ImproveContratos.fornecedores_values (Str "PRÓPRIAS") = false)
    as Hp by (vm_compute; reflexivity).
  assert (first_is "F" (Str "PRÓPRIAS") = false) as Hf
    by (vm_compute; reflexivity).
  unfold contrato_of. cbv zeta.
  destruct (first_is "P" c) eqn:HP; cbn [orb].
  - destruct (isin ImproveContratos.proprias_values (Str "PRÓPRIAS"));
      by rewrite Hf, Hp.
  - destruct (isin ImproveContratos.proprias_values c) eqn:Hprop.
    + by rewrite Hf, Hp.
    + destruct (first_is "F" c) eqn:HF; cbn [orb].
      * by destruct (isin ImproveContratos.fornecedores_values _).
      * done.
Qed.

Lemma format_contratos_rows (df : DataFrame) :
  ImproveContratos.format_contratos df
  = if has_column "TP_PROP" df
    then Ok {| columns := columns df;
               rows := (fun r => <["TP_PROP" :=
                          filled (fill_of df) (contrato_of (at_col "TP_PROP" r))]> r)
                         <$> rows df |}
    else Raise (KeyError "TP_PROP").
Proof.
  unfold ImproveContratos.format_contratos, require.
  destruct (has_column "TP_PROP" df) eqn:Hcol; [|done].
  cbn [mbind result_bind]. f_equal.
  set (df4 := loc_set _ "TP_PROP" (Str "FORNECEDORES") _).
  assert (rows df4
          = (fun r => <["TP_PROP" := contrato_of (at_col "TP_PROP" r)]> r)
              <$> rows df) as Hrows4.
  { subst df4. eapply eq_trans.
    { apply (tp_prop_rule (isin ImproveContratos.fornecedores_values)).
      apply (tp_prop_rule (first_is "F")).
      apply (tp_prop_rule (isin ImproveContratos.proprias_values)).
      apply rows_loc_set. }
    apply list_fmap_ext. intros i r _. f_equal.
    apply (contrato_of_rules (at_col "TP_PROP" r)). }
  assert (ImproveContratos.get_empty_rows_value df4 = fill_of df) as ->.
  { unfold ImproveContratos.get_empty_rows_value, fill_of.
    rewrite Hrows4, <- list_fmap_compose.
    erewrite (list_fmap_ext _ (fun r => contrato_of (at_col "TP_PROP" r)));
      [reflexivity|].
    intros i r _. cbn [compose]. apply at_col_insert. }
  apply frame_eq.
  - subst df4. rewrite !columns_loc_set, !add_column_twice.
    unfold add_column. unfold has_column in Hcol. by rewrite Hcol.
  - rewrite (tp_prop_rule (fun c => eq_str "" c || isna c || isna c) _ _ _ _ Hrows4).
    apply list_fmap_ext. intros i r _. f_equal. unfold filled.
    by destruct (eq_str "" _), (isna _).
Qed.


Lemma fill_of_cases (df : DataFrame) :
  fill_of df = Str "ADEF"
  \/ (drop_duplicates
        (filter (fun c => isna c = false)
                ((fun r => contrato_of (at_col "TP_PROP" r)) <$> rows df))
      = [fill_of df]).
Proof.
  unfold fill_of.
  destruct (drop_duplicates _) as [|only [|? ?]]; [by left | by right | by left].
Qed.

(** X6.  After [format_contratos] no row has a missing [TP_PROP], and a
    row has the empty text only if every row has it (the column held
    nothing but empty and missing values). *)
Theorem format_contratos_leaves_no_gap (df out : DataFrame) :
  ImproveContratos.format_contratos df = Ok out ->
  forall r, r ∈ rows out ->
    at_col "TP_PROP" r <> NA
    /\ (at_col "TP_PROP" r = Str "" ->
        Forall (fun r' => at_col "TP_PROP" r' = Str "") (rows out)).
Proof.
  rewrite format_contratos_rows.
  destruct (has_column "TP_PROP" df); [|done]. intros [= <-] r Hr.
  cbn [rows] in *. apply list_elem_of_fmap in Hr as (r0 & -> & Hr0).
  rewrite at_col_insert.
  assert (fill_of df <> NA) as Hfill.
  { destruct (fill_of_cases df) as [-> | Hone]; [done|].
    intros Hna. rewrite Hna in Hone.
    assert (NA ∈ filter (fun c => isna c = false)
                   ((fun r => contrato_of (at_col "TP_PROP" r)) <$> rows df))
      as Hin by (apply elem_of_drop_duplicates; rewrite Hone; left).
    by apply list_elem_of_filter in Hin as [? _]. }
  split.
  - unfold filled. destruct (eq_str "" _) eqn:Hempty; [done|]. simpl.
    destruct (isna _) eqn:Hna; [done|]. by destruct (contrato_of _).
  - intros Hempty.
    assert (fill_of df = Str "") as Hfill_empty.
    { unfold filled in Hempty. destruct (eq_str "" _) eqn:He; [done|].
      simpl in Hempty. destruct (isna _) eqn:Hna; [done|].
      rewrite Hempty in He. done. }
    destruct (fill_of_cases df) as [Hadef | Hone];
      [by rewrite Hadef in Hfill_empty|].
    rewrite Hfill_empty in Hone.
    apply Forall_fmap, Forall_forall. intros r1 Hr1. simpl.
    rewrite at_col_insert, Hfill_empty. unfold filled.
    destruct (eq_str "" _) eqn:He; [done|]. simpl.
    destruct (isna _) eqn:Hna; [done|]. exfalso.
    assert (contrato_of (at_col "TP_PROP" r1) ∈ [Str ""]) as Hin.
    { rewrite <- Hone. apply elem_of_drop_duplicates, list_elem_of_filter.
      split; [done|]. apply list_elem_of_fmap. eauto. }
    apply list_elem_of_singleton in Hin. rewrite Hin in He. done.
Qed.

Lemma format_contratos_leaves_no_gap_witness :
  ImproveContratos.format_contratos contratos_uma_classe
  = Ok contratos_uma_classe_f
  /\ NdviDataValidation.column_values "TP_PROP" (rows contratos_uma_classe_f)
     = [Str "PRÓPRIAS"; Str "PRÓPRIAS"; Str "PRÓPRIAS"]
  /\ NdviDataValidation.column_values "TP_PROP" (rows contratos_duas_classes_f)
     = [Str "PRÓPRIAS"; Str "ADEF"; Str "ADEF"; Str "FORNECEDORES"; Str "OUTRO"]
  /\ forall r, r ∈ rows contratos_uma_classe_f ->
       at_col "TP_PROP" r <> NA
       /\ (at_col "TP_PROP" r = Str "" ->
           Forall (fun r' => at_col "TP_PROP" r' = Str "")
                  (rows contratos_uma_classe_f)).
Proof.
  assert (ImproveContratos.format_contratos contratos_uma_classe
          = Ok contratos_uma_classe_f) as Hf by (vm_compute; reflexivity).
  split; [exact Hf|]. split; [vm_compute; reflexivity|].
  split; [vm_compute; reflexivity|].
  exact (format_contratos_leaves_no_gap _ _ Hf).
Defined.

(** ** The grid code *)

(** [int(str(n)) == n] *)
Lemma int_of_str_of_int (z : Z) : int_of_str (str_of_int z) = Some z.
Proof.
  unfold int_of_str, str_of_int. rewrite NilZero.isi.
  - simpl. f_equal. apply DecimalZ.of_to.
  - destruct z as [|p|p]; [done| |done]. simpl. intros [= Hnil].
    by apply DecimalPos.Unsigned.to_uint_nonnil in Hnil.
  - destruct z as [|p|p]; [done|done|]. simpl. intros [= Hnil].
    by apply DecimalPos.Unsigned.to_uint_nonnil in Hnil.
Qed.

Lemma Forall2_mapM {A B : Type} (f : A -> result B) (l : list A) (l' : list B) :
  Forall2 (fun a b => f a = Ok b) l l' -> mapM f l = Ok l'.
Proof.
  induction 1 as [|a b l l' Hab _ IH]; [done|]. simpl. by rewrite Hab, IH.
Qed.

Lemma astype_int_column_Ok (col : string) (df out : DataFrame) :
  astype_int_column col df = Ok out ->
  has_column col df = true
  /\ columns out = columns df
  /\ Forall2 (fun r r' => exists z, astype_int (at_col col r) = Some z
                                    /\ r' = <[col := Int z]> r)
             (rows df) (rows out).
Proof.
  unfold astype_int_column. intros Ha.
  apply bind_Ok in Ha as ([] & Hreq & Ha).
  apply bind_Ok in Ha as (rs & Hrs & Ha). injection Ha as <-.
  split; [by apply require_Ok in Hreq|]. split; [done|]. simpl.
  apply mapM_Ok in Hrs. eapply Forall2_impl; [exact Hrs|].
  intros r r' Hr. simpl in Hr.
  destruct (astype_int (at_col col r)) as [z|]; [|done].
  injection Hr as <-. eauto.
Qed.

(** A column of integers goes through [astype(str)] and [astype(int)]
    unchanged. *)
Lemma astype_str_int_round_trip (col : string) (df : DataFrame) :
  has_column col df = true ->
  Forall (fun r => exists z, r !! col = Some (Int z)) (rows df) ->
  astype_str_column col df ≫= astype_int_column col = Ok df.
Proof.
  intros Hcol Hint. unfold astype_str_column.
  rewrite (has_column_require _ _ Hcol). cbn [mbind result_bind].
  rewrite (Forall2_mapM _ _
             ((fun r => <[col := Str (default "" (astype_str (at_col col r)))]> r)
                <$> rows df)).
  2:{ apply Forall2_fmap_r, Forall_Forall2_diag.
      eapply Forall_impl; [exact Hint|]. intros r [z Hz]. simpl.
      unfold at_col. by rewrite Hz. }
  cbn [mbind result_bind]. unfold astype_int_column.
  rewrite (has_column_require col); [|exact Hcol]. cbn [mbind result_bind rows].
  rewrite (Forall2_mapM _ _ (rows df)); [by destruct df|].
  apply Forall2_fmap_l, Forall_Forall2_diag.
  eapply Forall_impl; [exact Hint|]. intros r [z Hz]. simpl.
  rewrite at_col_insert. unfold at_col at 1. rewrite Hz. simpl.
  rewrite int_of_str_of_int. f_equal.
  rewrite insert_insert_eq. by apply insert_id.
Qed.

Lemma format_gridcode_astype_int (df : DataFrame) :
  JanelaDeColheita.format_gridcode df = astype_int_column "GRIDCODE" df.
Proof.
  unfold JanelaDeColheita.format_gridcode.
  destruct (astype_int_column "GRIDCODE" df) as [df1|e] eqn:Hint; [|done].
  cbn [mbind result_bind].
  apply astype_int_column_Ok in Hint as (Hcol & Hcols & Hrows).
  apply (astype_str_int_round_trip "GRIDCODE" df1).
  - unfold has_column in *. by rewrite Hcols.
  - apply Forall_forall. intros r1 Hr1.
    apply list_elem_of_lookup in Hr1 as [i Hi].
    destruct (Forall2_lookup_r _ _ _ _ _ Hrows Hi) as (r & _ & z & _ & ->).
    exists z. apply lookup_insert_eq.
Qed.

(** X7.  The three conversions of [__format_gridcode] (to [int], to
    [str], to [int64]) are its first conversion alone: the text of an
    integer reads back as the same integer.  So the method raises exactly
    when the first conversion does, and returns the frame that conversion
    returns. *)
Theorem format_gridcode_is_its_first_conversion (df : DataFrame) :
  JanelaDeColheita.format_gridcode df = astype_int_column "GRIDCODE" df.
Proof. apply format_gridcode_astype_int. Qed.

(** ** A harvest window that comes with the shapefile *)

(** X8.  When the frame already has a column [JAN_COL],
    [classify_janela_colheita] runs none of the four classification
    steps: it rewrites [GRIDCODE] as an integer and nothing else, so every
    [JAN_COL] is returned as it came, whatever it holds. *)
Theorem existing_jan_col_is_kept `{DateParser} (df out : DataFrame) :
  has_column "JAN_COL" df = true ->
  JanelaDeColheita.classify_janela_colheita df = Ok out ->
  columns out = columns df
  /\ Forall2 (fun r r' => exists z,
                astype_int (at_col "GRIDCODE" r) = Some z
                /\ r' = <["GRIDCODE" := Int z]> r)
             (rows df) (rows out)
  /\ NdviDataValidation.column_values "JAN_COL" (rows out)
     = NdviDataValidation.column_values "JAN_COL" (rows df).
Proof.
  intros Hcol Hc. unfold JanelaDeColheita.classify_janela_colheita in Hc.
  rewrite Hcol in Hc. cbn [mbind result_bind] in Hc.
  rewrite format_gridcode_astype_int in Hc.
  apply astype_int_column_Ok in Hc as (_ & Hcols & Hrows).
  split; [exact Hcols|]. split; [exact Hrows|].
  unfold NdviDataValidation.column_values.
  induction Hrows as [|r r' rs rs' (z & _ & ->) _ IH]; [done|].
  rewrite !fmap_cons, IH. f_equal. by rewrite at_col_insert_ne.
Qed.

Lemma existing_jan_col_is_kept_witness :
  @JanelaDeColheita.classify_janela_colheita iso_parser talhoes_com_jan_col
  = Ok com_jan_col_janela
  /\ NdviDataValidation.column_values "JAN_COL" (rows com_jan_col_janela)
     = [Str "TARDIA"; Str ""]
  /\ NdviDataValidation.column_values "JAN_COL" (rows com_jan_col_janela)
     = NdviDataValidation.column_values "JAN_COL" (rows talhoes_com_jan_col).
Proof.
  assert (@JanelaDeColheita.classify_janela_colheita iso_parser
            talhoes_com_jan_col = Ok com_jan_col_janela) as Hc
    by (vm_compute; reflexivity).
  assert (has_column "JAN_COL" talhoes_com_jan_col = true) as Hcol
    by (vm_compute; reflexivity).
  destruct (@existing_jan_col_is_kept iso_parser talhoes_com_jan_col
              com_jan_col_janela Hcol Hc) as (_ & _ & Hsame).
  split; [exact Hc|]. split; [vm_compute; reflexivity | exact Hsame].
Defined.

(** ** The harvest window as a decision table *)

(** A frame whose column [col] was computed row by row stays so under a
    rule that writes [col] and does not read it. *)
Lemma column_rule (col : string) (mask : gmap string cell -> bool) (v : cell)
    (g : gmap string cell -> cell)
    (rs0 : list (gmap string cell)) (df : DataFrame) :
  (forall r d, mask (<[col := d]> r) = mask r) ->
  rows df = (fun r => <[col := g r]> r) <$> rs0 ->
  rows (loc_set mask col v df)
  = (fun r => <[col := if mask r then v else g r]> r) <$> rs0.
Proof.
  intros Hmask Hdf. rewrite rows_loc_set, Hdf, <- list_fmap_compose.
  apply list_fmap_ext. intros i r _. cbn [compose].
  by rewrite Hmask, at_col_insert, insert_insert_eq.
Qed.

Section JanelaTable.
Context `{DateParser}.
Import JanelaDeColheita.

(** The window after the stage step and the BIS step. *)
Lemma estagio_and_bis_rows (df df1 df2 : DataFrame) :
  classificar_estagio df = Ok df1 ->
  classificar_cana_bis df1 = Ok df2 ->
  rows df2
  = (fun r => <["JAN_COL" :=
        if eq_str "BIS" (at_col "DESC_CANA" r)
           || eq_str "BISADA" (at_col "DESC_CANA" r) then Str "INÍCIO"
        else if eq_str "2VER" (at_col "ESTAGIO" r) then Str "INÍCIO"
        else if eq_str "18M" (at_col "ESTAGIO" r) then Str "INÍCIO"
        else if eq_str "15M" (at_col "ESTAGIO" r) then Str "MÉDIA"
        else if eq_str "12M" (at_col "ESTAGIO" r) then Str "TARDIA"
        else Str ""]> r) <$> rows df.
Proof.
  unfold classificar_estagio, classificar_cana_bis. intros H1 H2.
  apply bind_Ok in H1 as (_ & _ & H1). injection H1 as <-.
  apply bind_Ok in H2 as (_ & _ & H2). injection H2 as <-.
  do 5 (eapply column_rule;
        [by intros; rewrite ?at_col_insert_ne by discriminate|]).
  apply rows_assign.
Qed.

Lemma jan_col_unset_cell (r : gmap string cell) :
  jan_col_unset r = unset_cell (at_col "JAN_COL" r).
Proof. reflexivity. Qed.

(** The month step on one row: [m] is the month read in [DT_ULT_COR], 0
    for a missing date. *)
Lemma mes_corte_row (m : Z) (r ra rb rc rd re : gmap string cell) :
  ra = <["MES_CORTE" := Int m]> r ->
  rb = <["MES_CORTE" := if match str_len (at_col "JAN_COL" ra) with
                           | Some n => (0 <? n)%nat
                           | None => false
                           end
                        then Int 0 else at_col "MES_CORTE" ra]> ra ->
  rc = <["JAN_COL" := if jan_col_unset rb
                         && isin (Int <$> [1; 2; 3; 4; 5; 6]) (at_col "MES_CORTE" rb)
                      then Str "INÍCIO" else at_col "JAN_COL" rb]> rb ->
  rd = <["JAN_COL" := if jan_col_unset rc
                         && isin (Int <$> [7; 8]) (at_col "MES_CORTE" rc)
                      then Str "MÉDIA" else at_col "JAN_COL" rc]> rc ->
  re = <["JAN_COL" := if jan_col_unset rd
                         && isin (Int <$> [9; 10; 11; 12]) (at_col "MES_CORTE" rd)
                      then Str "TARDIA" else at_col "JAN_COL" rd]> rd ->
  re = <["JAN_COL" := month_step (at_col "JAN_COL" r) m]>
         (<["MES_CORTE" := mes_corte_of (at_col "JAN_COL" r) m]> r).
Proof.
  intros Ha Hb Hc Hd He.
  assert (rb = <["MES_CORTE" := mes_corte_of (at_col "JAN_COL" r) m]> r) as Hb'.
  { rewrite Hb, Ha. at_col_simpl. by rewrite insert_insert_eq. }
  clear Ha Hb. subst rb.
  rewrite jan_col_unset_cell in Hc. revert Hc. at_col_simpl. intros Hc.
  subst rc.
  rewrite jan_col_unset_cell in Hd. revert Hd. at_col_simpl.
  rewrite insert_insert_eq. intros Hd. subst rd.
  rewrite He, jan_col_unset_cell. at_col_simpl. by rewrite insert_insert_eq.
Qed.

Lemma classificar_mes_corte_Ok (df out : DataFrame) :
  classificar_mes_corte df = Ok out ->
  Forall2 (fun r re => exists d,
             pd_to_datetime false false (at_col "DT_ULT_COR" r) = Ok d
             /\ let m := match d with
                         | Some d => month_number (mon d)
                         | None => 0
                         end in
                re = <["JAN_COL" := month_step (at_col "JAN_COL" r) m]>
                       (<["MES_CORTE" := mes_corte_of (at_col "JAN_COL" r) m]> r))
          (rows df) (rows out).
Proof.
  unfold classificar_mes_corte, create_mes_corte_column. intros Hc.
  apply bind_Ok in Hc as (df1 & Hdf1 & Hc). injection Hc as <-.
  apply bind_Ok in Hdf1 as (_ & _ & Hdf1).
  apply bind_Ok in Hdf1 as (rs & Hrs & Hdf1). injection Hdf1 as <-.
  rewrite !rows_loc_set. cbn [rows].
  apply mapM_Ok in Hrs.
  do 4 apply Forall2_fmap_r.
  eapply Forall2_impl; [exact Hrs|]. intros r ra Hra. cbn [compose].
  apply bind_Ok in Hra as (d & Hd & Hra). injection Hra as Hra.
  exists d. split; [exact Hd|].
  eapply mes_corte_row; [symmetry; exact Hra | reflexivity..].
Qed.

(** The age step on one row: [z] is the image age as an integer. *)
Lemma idade_img_row (z : Z) (r ra rb rc rd : gmap string cell) :
  ra = <["IDADE_IMG" := Int z]> r ->
  rb = <["JAN_COL" := if jan_col_unset ra
                         && bool_decide (at_col "MES_CORTE" ra = Int 0)
                         && int_gt 10 (at_col "IDADE_IMG" ra)
                      then Str "INÍCIO" else at_col "JAN_COL" ra]> ra ->
  rc = <["JAN_COL" := if jan_col_unset rb
                         && bool_decide (at_col "MES_CORTE" rb = Int 0)
                         && isin (Int <$> [8; 9; 10]) (at_col "IDADE_IMG" rb)
                      then Str "MÉDIA" else at_col "JAN_COL" rb]> rb ->
  rd = <["JAN_COL" := if jan_col_unset rc
                         && bool_decide (at_col "MES_CORTE" rc = Int 0)
                         && int_le 7 (at_col "IDADE_IMG" rc)
                      then Str "TARDIA" else at_col "JAN_COL" rc]> rc ->
  rd = <["JAN_COL" := age_step (at_col "JAN_COL" r) (at_col "MES_CORTE" r) z]>
         (<["IDADE_IMG" := Int z]> r).
Proof.
  intros Ha Hb Hc Hd. subst ra.
  rewrite jan_col_unset_cell in Hb. revert Hb. at_col_simpl. intros Hb.
  subst rb.
  rewrite jan_col_unset_cell in Hc. revert Hc. at_col_simpl.
  rewrite insert_insert_eq. intros Hc. subst rc.
  rewrite Hd, jan_col_unset_cell. at_col_simpl. by rewrite insert_insert_eq.
Qed.

Lemma classificar_idade_img_Ok (df out : DataFrame) :
  classificar_idade_img df = Ok out ->
  Forall2 (fun r rd => exists z,
             astype_int (at_col "IDADE_IMG" r) = Some z
             /\ rd = <["JAN_COL" :=
                         age_step (at_col "JAN_COL" r) (at_col "MES_CORTE" r) z]>
                       (<["IDADE_IMG" := Int z]> r))
          (rows df) (rows out).
Proof.
  unfold classificar_idade_img. intros Hc.
  apply bind_Ok in Hc as (df1 & Hdf1 & Hc). injection Hc as <-.
  apply astype_int_column_Ok in Hdf1 as (_ & _ & Hrows).
  rewrite !rows_loc_set. do 3 apply Forall2_fmap_r.
  eapply Forall2_impl; [exact Hrows|]. intros r ra (z & Hz & Hra).
  cbn [compose]. exists z. split; [exact Hz|].
  eapply idade_img_row; [exact Hra | reflexivity..].
Qed.

Lemma isin_8_9_10 (z : Z) :
  isin (Int <$> [8; 9; 10]) (Int z) = (8 <=? z) && (z <=? 10).
Proof.
  unfold isin. destruct ((8 <=? z) && (z <=? 10)) eqn:Hz.
  - apply bool_decide_eq_true_2, list_elem_of_fmap. exists z.
    split; [done|]. set_unfold. lia.
  - apply bool_decide_eq_false_2. intros Hin.
    apply list_elem_of_fmap in Hin as (z' & [= <-] & Hin). set_unfold. lia.
Qed.

(** The window of a row that no stage rule and no BIS rule set. *)
Lemma janela_by_month_or_age (d : option date) (z : Z) :
  let m := match d with Some d => month_number (mon d) | None => 0 end in
  age_step (month_step (Str "") m) (mes_corte_of (Str "") m) z
  = match d with
    | Some d =>
        if month_number (mon d) <=? 6 then Str "INÍCIO"
        else if month_number (mon d) <=? 8 then Str "MÉDIA"
        else Str "TARDIA"
    | None =>
        if 10 <? z then Str "INÍCIO"
        else if 8 <=? z then Str "MÉDIA"
        else Str "TARDIA"
    end.
Proof.
  destruct d as [[y mo dd]|].
  - destruct mo; vm_compute; reflexivity.
  - cbv zeta.
    assert (month_step (Str "") 0 = Str "") as -> by (vm_compute; reflexivity).
    assert (mes_corte_of (Str "") 0 = Int 0) as -> by (vm_compute; reflexivity).
    unfold age_step. rewrite isin_8_9_10.
    assert (unset_cell (Str "") = true) as Hunset by (vm_compute; reflexivity).
    assert (unset_cell (Str "INÍCIO") = false) as Hinicio
      by (vm_compute; reflexivity).
    assert (unset_cell (Str "MÉDIA") = false) as Hmedia
      by (vm_compute; reflexivity).
    rewrite bool_decide_eq_true_2 by done. rewrite Hunset. cbn [andb].
    destruct (10 <? z) eqn:H10.
    + by rewrite Hinicio.
    + rewrite Hunset. cbn [andb]. destruct (8 <=? z) eqn:H8; cbn [andb].
      * assert ((z <=? 10) = true) as -> by lia. by rewrite Hmedia.
      * rewrite Hunset. cbn [andb].
        assert ((z <=? 7) = true) as -> by lia. reflexivity.
Qed.

(** The window of a row that the stage step or the BIS step set. *)
Lemma janela_already_set (j : cell) (m z : Z) :
  j ∈ janelas ->
  age_step (month_step j m) (mes_corte_of j m) z = j.
Proof.
  intros Hj. unfold janelas in Hj. set_unfold in Hj.
  destruct Hj as [-> | [-> | [-> | []]]]; vm_compute; reflexivity.
Qed.

Lemma gerar_jan_col_table (df out : DataFrame) :
  gerar_jan_col df = Ok out ->
  Forall2 (fun r r' => exists d z,
             pd_to_datetime false false (at_col "DT_ULT_COR" r) = Ok d
             /\ astype_int (at_col "IDADE_IMG" r) = Some z
             /\ at_col "JAN_COL" r'
                = janela_of (at_col "ESTAGIO" r) (at_col "DESC_CANA" r) d z
             /\ at_col "IDADE_IMG" r' = Int z
             /\ same_but ["JAN_COL"; "MES_CORTE"; "IDADE_IMG"] r r')
          (rows df) (rows out).
Proof.
  unfold gerar_jan_col. intros Hg.
  apply bind_Ok in Hg as (df1 & H1 & Hg).
  apply bind_Ok in Hg as (df2 & H2 & Hg).
  apply bind_Ok in Hg as (df3 & H3 & Hg).
  pose proof (estagio_and_bis_rows _ _ _ H1 H2) as Hrows2.
  apply classificar_mes_corte_Ok in H3. apply classificar_idade_img_Ok in Hg.
  rewrite Hrows2 in H3. apply Forall2_fmap_l in H3.
  eapply Forall2_trans; [|exact H3|exact Hg].
  intros r r3 r4 (d & Hd & Hr3) (z & Hz & Hr4). cbn [compose] in Hd, Hr3.
  cbv zeta in Hr3.
  rewrite at_col_insert_ne in Hd by discriminate.
  rewrite at_col_insert in Hr3.
  set (m := match d with Some d => month_number (mon d) | None => 0 end) in *.
  set (j2 := if eq_str "BIS" (at_col "DESC_CANA" r)
                || eq_str "BISADA" (at_col "DESC_CANA" r) then Str "INÍCIO"
             else if eq_str "2VER" (at_col "ESTAGIO" r) then Str "INÍCIO"
             else if eq_str "18M" (at_col "ESTAGIO" r) then Str "INÍCIO"
             else if eq_str "15M" (at_col "ESTAGIO" r) then Str "MÉDIA"
             else if eq_str "12M" (at_col "ESTAGIO" r) then Str "TARDIA"
             else Str "") in *.
  assert (at_col "IDADE_IMG" r3 = at_col "IDADE_IMG" r) as Hi3
    by (rewrite Hr3; by at_col_simpl).
  assert (at_col "JAN_COL" r3 = month_step j2 m) as Hj3
    by (rewrite Hr3; by at_col_simpl).
  assert (at_col "MES_CORTE" r3 = mes_corte_of j2 m) as Hm3
    by (rewrite Hr3; by at_col_simpl).
  rewrite Hi3 in Hz. rewrite Hj3, Hm3 in Hr4.
  exists d, z. split; [exact Hd|]. split; [exact Hz|].
  split; [|split].
  - rewrite Hr4, at_col_insert. unfold janela_of. subst j2.
    destruct (eq_str "BIS" (at_col "DESC_CANA" r)
              || eq_str "BISADA" (at_col "DESC_CANA" r)).
    { apply janela_already_set, janela_inicio. }
    destruct (eq_str "2VER" (at_col "ESTAGIO" r)); cbn [orb].
    { apply janela_already_set, janela_inicio. }
    destruct (eq_str "18M" (at_col "ESTAGIO" r)).
    { apply janela_already_set, janela_inicio. }
    destruct (eq_str "15M" (at_col "ESTAGIO" r)).
    { apply janela_already_set, janela_media. }
    destruct (eq_str "12M" (at_col "ESTAGIO" r)).
    { apply janela_already_set, janela_tardia. }
    apply (janela_by_month_or_age d z).
  - rewrite Hr4. by at_col_simpl.
  - intros col Hcol. rewrite Hr4, Hr3.
    rewrite !lookup_insert_ne; [done|set_solver..].
Qed.

End JanelaTable.

(** X9.  When the four harvest-window steps return, they have given each
    row, in place, the window of this table: INÍCIO for BIS or BISADA
    cane; otherwise INÍCIO for stage 2VER or 18M, MÉDIA for 15M, TARDIA
    for 12M; otherwise the month of the last cut decides (January to June
    INÍCIO, July and August MÉDIA, September to December TARDIA); and
    only a row without a date is classified by its image age (over 10
    INÍCIO, 8 to 10 MÉDIA, 7 or less TARDIA).  [IDADE_IMG] becomes an
    integer, [MES_CORTE] is written, and no other column changes. *)
Theorem harvest_window_is_decided_by_bis_stage_month_age `{DateParser}
    (df out : DataFrame) :
  JanelaDeColheita.gerar_jan_col df = Ok out ->
  Forall2 (fun r r' => exists d z,
             pd_to_datetime false false (at_col "DT_ULT_COR" r) = Ok d
             /\ astype_int (at_col "IDADE_IMG" r) = Some z
             /\ at_col "JAN_COL" r'
                = janela_of (at_col "ESTAGIO" r) (at_col "DESC_CANA" r) d z
             /\ at_col "IDADE_IMG" r' = Int z
             /\ same_but ["JAN_COL"; "MES_CORTE"; "IDADE_IMG"] r r')
          (rows df) (rows out).
Proof. apply gerar_jan_col_table. Qed.

Lemma harvest_window_is_decided_by_bis_stage_month_age_witness :
  @JanelaDeColheita.gerar_jan_col iso_parser talhoes_janelas
  = Ok talhoes_janelas_classificado
  /\ NdviDataValidation.column_values "JAN_COL"
       (rows talhoes_janelas_classificado)
     = [Str "INÍCIO"; Str "TARDIA"; Str "MÉDIA";
        Str "INÍCIO"; Str "MÉDIA"; Str "TARDIA"]
  /\ Forall2 (fun r r' => exists d z,
                @pd_to_datetime iso_parser false false (at_col "DT_ULT_COR" r)
                = Ok d
                /\ astype_int (at_col "IDADE_IMG" r) = Some z
                /\ at_col "JAN_COL" r'
                   = janela_of (at_col "ESTAGIO" r) (at_col "DESC_CANA" r) d z
                /\ at_col "IDADE_IMG" r' = Int z
                /\ same_but ["JAN_COL"; "MES_CORTE"; "IDADE_IMG"] r r')
             (rows talhoes_janelas) (rows talhoes_janelas_classificado).
Proof.
  assert (@JanelaDeColheita.gerar_jan_col iso_parser talhoes_janelas
          = Ok talhoes_janelas_classificado) as Hg by (vm_compute; reflexivity).
  split; [exact Hg|]. split; [vm_compute; reflexivity|].
  exact (@harvest_window_is_decided_by_bis_stage_month_age iso_parser _ _ Hg).
Defined.

(** ** The date columns *)

Section Dates.
Context `{DateParser}.
Import IntersectNdvi.

Lemma add_column_present (col : string) (df : DataFrame) :
  has_column col df = true -> add_column col (columns df) = columns df.
Proof. unfold has_column, add_column. by intros ->. Qed.

Lemma has_column_add_column (col col' : string) (cols : list string) :
  col ∈ cols -> col ∈ add_column col' cols.
Proof. unfold add_column. case_bool_decide; set_solver. Qed.

Lemma formatted_date_steps (c : cell) :
  let c1 := if isna c then Str "1900-01-01" else c in
  let c2 := if eq_str "" c1 || isna c1 || isna c1 || eq_str "<NA>" c1
            then Str "1900-01-01" else c1 in
  (d ← pd_to_datetime true false c2;
   Ok (match d with Some d => Str (strftime d) | None => NA end))
  = Ok (formatted_date c).
Proof.
  unfold formatted_date. destruct c as [|s|z|q|d]; cbn [isna orb].
  - cbv zeta. cbn [isna orb eq_str]. 
    assert (eq_str "" (Str "1900-01-01") = false) as -> by (vm_compute; reflexivity).
    assert (eq_str "<NA>" (Str "1900-01-01") = false) as ->
      by (vm_compute; reflexivity).
    cbn [orb pd_to_datetime]. by destruct (to_datetime _ _).
  - cbv zeta. rewrite !orb_false_r.
    destruct (eq_str "" (Str s) || eq_str "<NA>" (Str s));
      cbn [pd_to_datetime]; by destruct (to_datetime _ _).
  - cbv zeta. change (eq_str "" (Int z)) with false.
    change (eq_str "<NA>" (Int z)) with false. cbn [orb pd_to_datetime].
    by destruct (to_datetime _ _).
  - cbv zeta. change (eq_str "" (Num q)) with false.
    change (eq_str "<NA>" (Num q)) with false. cbn [orb pd_to_datetime].
    by destruct (to_datetime _ _).
  - cbv zeta. change (eq_str "" (Date d)) with false.
    change (eq_str "<NA>" (Date d)) with false. cbn [orb pd_to_datetime].
    by destruct (to_datetime _ _).
Qed.

Lemma format_date_column_rows (date_column : string) (df : DataFrame) :
  format_date_column date_column df
  = if has_column date_column df
    then Ok {| columns := columns df;
               rows := (fun r => <[date_column :=
                                     formatted_date (at_col date_column r)]> r)
                         <$> rows df |}
    else Raise (KeyError date_column).
Proof.
  unfold format_date_column, require.
  destruct (has_column date_column df) eqn:Hcol; [|done].
  cbn [mbind result_bind].
  rewrite rows_loc_set, rows_assign, <- list_fmap_compose.
  rewrite (Forall2_mapM _ _
             ((fun r => <[date_column := formatted_date (at_col date_column r)]> r)
                <$> rows df)).
  - cbn [mbind result_bind]. f_equal. apply frame_eq; [|done].
    cbn [columns loc_set assign]. rewrite add_column_twice.
    by apply add_column_present.
  - apply Forall2_fmap, Forall_Forall2_diag, Forall_true. intros r.
    cbn [compose]. rewrite !at_col_insert, !insert_insert_eq.
    pose proof (formatted_date_steps (at_col date_column r)) as Hsteps.
    cbv zeta in Hsteps.
    destruct (pd_to_datetime true false _) as [d|e]; [|done].
    cbn [mbind result_bind] in Hsteps |- *. injection Hsteps as ->.
    by rewrite insert_insert_eq.
Qed.

Lemma create_dt_imagem_column_rows (df : DataFrame) :
  create_dt_imagem_column df
  = match data_img_source df with
    | Some source =>
        Ok {| columns := add_column "DATA_IMG" (columns df);
              rows := (fun r => <["DATA_IMG" :=
                                    formatted_date (at_col source r)]> r)
                        <$> rows df |}
    | None => Raise (ValueError "INTERSECT_NDVI não possui coluna de DATA_IMG")
    end.
Proof.
  unfold create_dt_imagem_column, data_img_source.
  destruct (has_column "DATA_IMG" df) eqn:Hcol.
  - cbn [mbind result_bind]. rewrite format_date_column_rows, Hcol.
    by rewrite (add_column_present _ _ Hcol).
  - assert (forall source,
              format_date_column "DATA_IMG" (assign "DATA_IMG" (at_col source) df)
              = Ok {| columns := add_column "DATA_IMG" (columns df);
                      rows := (fun r => <["DATA_IMG" :=
                                            formatted_date (at_col source r)]> r)
                                <$> rows df |}) as Hassign.
    { intros source. rewrite format_date_column_rows.
      assert (has_column "DATA_IMG" (assign "DATA_IMG" (at_col source) df) = true)
        as ->.
      { unfold has_column. apply bool_decide_eq_true_2. simpl.
        unfold add_column. case_bool_decide; set_solver. }
      f_equal. apply frame_eq; [done|]. cbn [rows assign].
      rewrite <- list_fmap_compose. apply list_fmap_ext. intros i r _.
      cbn [compose]. by rewrite at_col_insert, insert_insert_eq. }
    unfold first_present. rewrite !filter_cons, filter_nil.
    unfold has_column.
    destruct (decide ("DT_IMAGEM" ∈ columns df)) as [Hin1 | Hout1].
    + rewrite (bool_decide_eq_true_2 _ Hin1). cbn [head mbind result_bind].
      apply Hassign.
    + rewrite (bool_decide_eq_false_2 _ Hout1).
      destruct (decide ("DT_IMG" ∈ columns df)) as [Hin2 | Hout2].
      * rewrite (bool_decide_eq_true_2 _ Hin2). cbn [head mbind result_bind].
        apply Hassign.
      * by rewrite (bool_decide_eq_false_2 _ Hout2).
Qed.

End Dates.

(** X10.  [__create_dt_imagem_column] takes the image date from the column
    [DATA_IMG] if the frame has it, else from [DT_IMAGEM], else from
    [DT_IMG], and raises [ValueError] when the frame has none of the three.
    It never raises on a value: every [DATA_IMG] it returns is the source
    value formatted, where a missing value, the empty text and [<NA>] are
    read as 1900-01-01 and a text the parser cannot read becomes a missing
    value. *)
Theorem create_dt_imagem_column_prefers_data_img `{DateParser} (df : DataFrame) :
  IntersectNdvi.create_dt_imagem_column df
  = match data_img_source df with
    | Some source =>
        Ok {| columns := add_column "DATA_IMG" (columns df);
              rows := (fun r => <["DATA_IMG" :=
                                    formatted_date (at_col source r)]> r)
                        <$> rows df |}
    | None => Raise (ValueError "INTERSECT_NDVI não possui coluna de DATA_IMG")
    end.
Proof. apply create_dt_imagem_column_rows. Qed.

(** X11.  With a parser that reads 1900-01-01 as the first of January
    1900: a row whose [DT_ULT_COR] is missing, empty or [<NA>] leaves
    [__format_date_column] with the text 1900-01-01, and the harvest-window
    steps then read January in it.  Such a row is never classified by its
    image age: it is TARDIA for stage 12M and MÉDIA for stage 15M (unless
    the cane is BIS or BISADA), and INÍCIO in every other case. *)
Theorem missing_last_cut_date_counts_as_january `{DateParser}
    (df df1 out : DataFrame) :
  to_datetime false (Str "1900-01-01") = Some (mkDate 1900 Jan 1) ->
  IntersectNdvi.format_date_column "DT_ULT_COR" df = Ok df1 ->
  JanelaDeColheita.gerar_jan_col df1 = Ok out ->
  Forall2 (fun r r' =>
             isna (at_col "DT_ULT_COR" r) || eq_str "" (at_col "DT_ULT_COR" r)
             || eq_str "<NA>" (at_col "DT_ULT_COR" r) = true ->
             at_col "DT_ULT_COR" r' = Str "1900-01-01"
             /\ at_col "JAN_COL" r'
                = if eq_str "BIS" (at_col "DESC_CANA" r)
                     || eq_str "BISADA" (at_col "DESC_CANA" r)
                  then Str "INÍCIO"
                  else if eq_str "2VER" (at_col "ESTAGIO" r)
                          || eq_str "18M" (at_col "ESTAGIO" r)
                  then Str "INÍCIO"
                  else if eq_str "15M" (at_col "ESTAGIO" r) then Str "MÉDIA"
                  else if eq_str "12M" (at_col "ESTAGIO" r) then Str "TARDIA"
                  else Str "INÍCIO")
          (rows df) (rows out).
Proof.
  intros Hsentinel Hformat Hgerar.
  rewrite format_date_column_rows in Hformat.
  destruct (has_column "DT_ULT_COR" df); [|done]. injection Hformat as <-.
  apply gerar_jan_col_table in Hgerar. cbn [rows] in Hgerar.
  apply Forall2_fmap_l in Hgerar.
  eapply Forall2_impl; [exact Hgerar|].
  intros r r' (d & z & Hd & _ & Hjan & _ & Hsame) Hmissing.
  cbn [compose] in Hd, Hjan, Hsame.
  rewrite at_col_insert in Hd.
  rewrite !at_col_insert_ne in Hjan by discriminate.
  assert (formatted_date (at_col "DT_ULT_COR" r) = Str "1900-01-01") as Hfmt.
  { unfold formatted_date. rewrite Hmissing, Hsentinel.
    vm_compute. reflexivity. }
  rewrite Hfmt in Hd. cbn [pd_to_datetime] in Hd. rewrite Hsentinel in Hd.
  injection Hd as <-. split.
  - unfold at_col. rewrite Hsame by set_solver.
    rewrite lookup_insert_eq. by rewrite Hfmt.
  - rewrite Hjan. unfold janela_of. reflexivity.
Qed.

Lemma missing_last_cut_date_counts_as_january_witness :
  @IntersectNdvi.format_date_column iso_parser "DT_ULT_COR" talhoes_sem_data
  = Ok talhoes_sem_data_formatado
  /\ @JanelaDeColheita.gerar_jan_col iso_parser talhoes_sem_data_formatado
     = Ok talhoes_sem_data_classificado
  /\ NdviDataValidation.column_values "IDADE_IMG"
       (rows talhoes_sem_data_classificado) = [Int 5; Int 9; Int 12]
  /\ NdviDataValidation.column_values "JAN_COL"
       (rows talhoes_sem_data_classificado)
     = [Str "INÍCIO"; Str "INÍCIO"; Str "TARDIA"]
  /\ length (rows talhoes_sem_data_classificado) = 3%nat.
Proof.
  assert (@to_datetime iso_parser false (Str "1900-01-01")
          = Some (mkDate 1900 Jan 1)) as Hsentinel by (vm_compute; reflexivity).
  assert (@IntersectNdvi.format_date_column iso_parser "DT_ULT_COR"
            talhoes_sem_data = Ok talhoes_sem_data_formatado) as Hformat
    by (vm_compute; reflexivity).
  assert (@JanelaDeColheita.gerar_jan_col iso_parser talhoes_sem_data_formatado
          = Ok talhoes_sem_data_classificado) as Hgerar
    by (vm_compute; reflexivity).
  pose proof (@missing_last_cut_date_counts_as_january iso_parser _ _ _
                Hsentinel Hformat Hgerar) as Hrows.
  split; [exact Hformat|]. split; [exact Hgerar|].
  split; [vm_compute; reflexivity|]. split; [vm_compute; reflexivity|].
  apply Forall2_length in Hrows. rewrite <- Hrows. reflexivity.
Defined.

(** ** The columns after [__format_columns] *)

Section FormatColumns.
Context `{DateParser}.
Import IntersectNdvi.

Lemma create_estagio_column_columns (safra : Z) (df out : DataFrame) :
  create_estagio_column safra df = Ok out ->
  "ESTAGIO" ∈ columns out /\ columns df ⊆ columns out.
Proof.
  rewrite create_estagio_column_rows. cbv zeta.
  destruct (has_column _ df) eqn:Halias.
  - intros [= <-]. cbn [columns]. unfold add_column.
    case_bool_decide; set_solver.
  - destruct (has_column "ESTAGIO" df) eqn:Hcol; [|done].
    intros [= <-]. cbn [columns]. split; [|done].
    by apply bool_decide_eq_true_1 in Hcol.
Qed.

Lemma create_dt_imagem_column_columns (df out : DataFrame) :
  create_dt_imagem_column df = Ok out ->
  columns out = add_column "DATA_IMG" (columns df).
Proof.
  rewrite create_dt_imagem_column_rows.
  destruct (data_img_source df); [|done]. by intros [= <-].
Qed.

Lemma create_dt_ult_corte_column_Ok (safra : Z) (df out : DataFrame) :
  create_dt_ult_corte_column safra df = Ok out ->
  columns out = add_column "DT_ULT_COR" (columns df).
Proof.
  unfold create_dt_ult_corte_column. intros Hc.
  apply bind_Ok in Hc as (df1 & Hdf1 & Hc).
  rewrite format_date_column_rows in Hc.
  destruct (has_column "DT_ULT_COR" df1) eqn:Hcol1; [|done].
  injection Hc as <-. cbn [columns].
  destruct (has_column "DT_ULT_COR" df) eqn:Hcol.
  - injection Hdf1 as <-. by rewrite (add_column_present _ _ Hcol).
  - destruct (int_of_str _); [|done].
    destruct (first_present _ df); [|done]. by injection Hdf1 as <-.
Qed.

Lemma create_dt_ult_corte_column_Raise (safra : Z) (df : DataFrame) :
  create_dt_ult_corte_column safra df <> Raise data_img_is_missing.
Proof.
  unfold create_dt_ult_corte_column. intros Hc.
  apply bind_Raise in Hc as [Hc | (df1 & _ & Hc)].
  - destruct (has_column "DT_ULT_COR" df); [done|].
    destruct (int_of_str _); [|discriminate].
    destruct (first_present _ df); discriminate.
  - rewrite format_date_column_rows in Hc.
    destruct (has_column "DT_ULT_COR" df1); discriminate.
Qed.

Lemma check_columns_Ok (df : DataFrame) :
  check_columns df = Ok tt <->
  Forall (fun col => col ∈ columns df)
         ["DESC_CANA"; "GRIDCODE"; "IDADE_IMG"; "DATA_IMG"].
Proof.
  unfold check_columns, has_column. cbn [foldr].
  rewrite !Forall_cons, Forall_nil.
  repeat case_bool_decide; naive_solver.
Qed.

Lemma check_columns_data_img (df : DataFrame) :
  "DATA_IMG" ∈ columns df -> check_columns df <> Raise data_img_is_missing.
Proof.
  intros Hin. unfold check_columns, has_column. cbn [foldr].
  rewrite (bool_decide_eq_true_2 _ Hin).
  repeat case_bool_decide; discriminate.
Qed.

(** X12.  A frame that [__format_columns] returns has the six columns the
    classification reads: [ESTAGIO], [DATA_IMG], [DT_ULT_COR],
    [DESC_CANA], [GRIDCODE] and [IDADE_IMG].  The check of [DATA_IMG] in
    [__check_columns] never fails there: by the time it runs the column
    has been created, or the method has already raised. *)
Theorem format_columns_leaves_the_columns_read (safra : Z) (df : DataFrame) :
  (forall out, format_columns safra df = Ok out ->
     Forall (fun col => col ∈ columns out)
            ["ESTAGIO"; "DATA_IMG"; "DT_ULT_COR";
             "DESC_CANA"; "GRIDCODE"; "IDADE_IMG"])
  /\ format_columns safra df <> Raise data_img_is_missing.
Proof.
  unfold format_columns. split.
  - intros out Hf.
    apply bind_Ok in Hf as (df1 & H1 & Hf).
    apply bind_Ok in Hf as (df2 & H2 & Hf).
    apply bind_Ok in Hf as (df3 & H3 & Hf).
    apply bind_Ok in Hf as ([] & H4 & Hf). injection Hf as <-.
    apply create_estagio_column_columns in H1 as [He _].
    apply create_dt_imagem_column_columns in H2.
    apply create_dt_ult_corte_column_Ok in H3.
    apply check_columns_Ok in H4.
    rewrite !Forall_cons, Forall_nil in H4. destruct H4 as (? & ? & ? & ? & _).
    repeat (apply Forall_cons; split); try done.
    + rewrite H3, H2. by do 2 apply has_column_add_column.
    + rewrite H3. unfold add_column. case_bool_decide; set_solver.
  - intros Hf.
    apply bind_Raise in Hf as [Hf | (df1 & H1 & Hf)].
    { rewrite create_estagio_column_rows in Hf. cbv zeta in Hf.
      destruct (has_column _ _); [done|].
      destruct (has_column _ _); discriminate. }
    apply bind_Raise in Hf as [Hf | (df2 & H2 & Hf)].
    { rewrite create_dt_imagem_column_rows in Hf.
      destruct (data_img_source _); discriminate. }
    apply bind_Raise in Hf as [Hf | (df3 & H3 & Hf)].
    { by apply create_dt_ult_corte_column_Raise in Hf. }
    apply bind_Raise in Hf as [Hf | ([] & _ & Hf)]; [|discriminate].
    apply check_columns_data_img in Hf; [done|].
    apply create_dt_imagem_column_columns in H2.
    apply create_dt_ult_corte_column_Ok in H3.
    rewrite H3, H2. apply has_column_add_column.
    unfold add_column. case_bool_decide; set_solver.
Qed.

End FormatColumns.

Lemma format_columns_leaves_the_columns_read_witness :
  @IntersectNdvi.format_columns iso_parser 2025 talhoes_sem_jan_col
  = Ok sem_jan_col_colunas
  /\ Forall (fun col => col ∈ columns sem_jan_col_colunas)
            ["ESTAGIO"; "DATA_IMG"; "DT_ULT_COR";
             "DESC_CANA"; "GRIDCODE"; "IDADE_IMG"]
  /\ @IntersectNdvi.format_columns iso_parser 2025 talhoes_sem_desc_cana
     = Raise (ValueError "Coluna DESC_CANA não está no shapefile!").
Proof.
  assert (@IntersectNdvi.format_columns iso_parser 2025 talhoes_sem_jan_col
          = Ok sem_jan_col_colunas) as Hf by (vm_compute; reflexivity).
  split; [exact Hf|]. split; [|vm_compute; reflexivity].
  exact (proj1 (@format_columns_leaves_the_columns_read iso_parser 2025
                  talhoes_sem_jan_col) _ Hf).
Defined.

(** ** Validation as a whole *)

Section ValidationChecks.
Import NdviDataValidation.

Lemma not_isin_rows_nil (col : string) (values : list cell) (df : DataFrame) :
  (not_isin_rows col values df = []) <->
  Forall (fun r => at_col col r ∈ values) (rows df).
Proof.
  rewrite Forall_forall. split.
  - intros Hnil r Hr. destruct (decide (at_col col r ∈ values)) as [|Hout];
      [done|].
    assert (r ∈ not_isin_rows col values df) as Hin
      by (by apply elem_of_not_isin_rows).
    rewrite Hnil in Hin. by apply elem_of_nil in Hin.
  - intros Hall. destruct (not_isin_rows col values df) as [|r rs] eqn:Hrows;
      [done|]. exfalso.
    assert (r ∈ not_isin_rows col values df) as Hin by (rewrite Hrows; left).
    apply elem_of_not_isin_rows in Hin as [Hin Hout]. by apply Hout, Hall.
Qed.

(** The distinct values of the offending rows. *)
Lemma wrong_values_spec (col : string) (values : list cell) (df : DataFrame)
    (c : cell) :
  (c ∈ drop_duplicates (column_values col (not_isin_rows col values df))) <->
  (c ∉ values) /\ exists r, r ∈ rows df /\ at_col col r = c.
Proof.
  rewrite elem_of_drop_duplicates. unfold column_values.
  rewrite list_elem_of_fmap. split.
  - intros (r & -> & Hin). apply elem_of_not_isin_rows in Hin as [Hin Hout].
    eauto.
  - intros (Hout & r & Hin & <-). exists r. split; [done|].
    by apply elem_of_not_isin_rows.
Qed.

Lemma estagios_validation_Ok (df : DataFrame) :
  estagios_validation df = Ok tt <->
  "ESTAGIO_D" ∈ columns df
  /\ Forall (fun r => at_col "ESTAGIO_D" r ∈ estagios_values) (rows df).
Proof.
  unfold estagios_validation, require, has_column.
  rewrite <- not_isin_rows_nil. case_bool_decide; cbn [mbind result_bind].
  - destruct (not_isin_rows _ _ _); naive_solver.
  - naive_solver.
Qed.

Lemma gridcode_validation_Ok (df : DataFrame) :
  gridcode_validation df = Ok tt <->
  "GRIDCODE" ∈ columns df
  /\ Forall (fun r => at_col "GRIDCODE" r ∈ gridcode_values) (rows df).
Proof.
  unfold gridcode_validation, require, has_column.
  rewrite <- not_isin_rows_nil. case_bool_decide; cbn [mbind result_bind].
  - destruct (not_isin_rows _ _ _); naive_solver.
  - naive_solver.
Qed.

Lemma contratos_validation_Ok (df : DataFrame) :
  contratos_validation df = Ok tt <->
  "TP_PROP" ∈ columns df
  /\ Forall (fun r => at_col "TP_PROP" r ∈ contratos_values) (rows df).
Proof.
  unfold contratos_validation, require, has_column.
  rewrite <- not_isin_rows_nil. case_bool_decide; cbn [mbind result_bind].
  - destruct (not_isin_rows _ _ _); naive_solver.
  - naive_solver.
Qed.

Lemma validation_Ok (df : DataFrame) :
  validation df = Ok tt <->
  Forall (fun col => col ∈ columns df) ["ESTAGIO_D"; "GRIDCODE"; "TP_PROP"]
  /\ Forall (fun r => at_col "ESTAGIO_D" r ∈ estagios_values
                      /\ at_col "GRIDCODE" r ∈ gridcode_values
                      /\ at_col "TP_PROP" r ∈ contratos_values) (rows df).
Proof.
  unfold validation. split.
  - intros Hv. apply bind_Ok in Hv as ([] & He & Hv).
    apply bind_Ok in Hv as ([] & Hg & Hv).
    apply estagios_validation_Ok in He as [He Hre].
    apply gridcode_validation_Ok in Hg as [Hg Hrg].
    apply contratos_validation_Ok in Hv as [Hc Hrc].
    split; [by repeat constructor|].
    apply Forall_and. split; [done|]. by apply Forall_and.
  - intros [Hcols Hrows].
    apply Forall_cons in Hcols as [He Hcols].
    apply Forall_cons in Hcols as [Hg Hcols].
    apply Forall_cons in Hcols as [Hc _].
    apply Forall_and in Hrows as [Hre Hrows].
    apply Forall_and in Hrows as [Hrg Hrc].
    rewrite (proj2 (estagios_validation_Ok df)) by done.
    cbn [mbind result_bind].
    rewrite (proj2 (gridcode_validation_Ok df)) by done.
    cbn [mbind result_bind]. by apply contratos_validation_Ok.
Qed.

Lemma estagios_validation_Raise (df : DataFrame) (e : error) :
  estagios_validation df = Raise e ->
  e = KeyError "ESTAGIO_D" \/ exists w l, e = InvalidEstagio w l.
Proof.
  unfold estagios_validation, require. destruct (has_column _ _);
    cbn [mbind result_bind]; [|intros [= <-]; by left].
  destruct (not_isin_rows _ _ _); [done|]. intros [= <-]. right. eauto.
Qed.

Lemma gridcode_validation_Raise (df : DataFrame) (e : error) :
  gridcode_validation df = Raise e ->
  e = KeyError "GRIDCODE"
  \/ (not_isin_rows "GRIDCODE" gridcode_values df <> []
      /\ e = InvalidGridcode
               (drop_duplicates
                  (column_values "GRIDCODE"
                     (not_isin_rows "GRIDCODE" gridcode_values df)))).
Proof.
  unfold gridcode_validation, require. destruct (has_column _ _);
    cbn [mbind result_bind]; [|intros [= <-]; by left].
  destruct (not_isin_rows _ _ _) eqn:Hrows; [done|]. intros [= <-]. by right.
Qed.

Lemma contratos_validation_Raise (df : DataFrame) (e : error) :
  contratos_validation df = Raise e ->
  e = KeyError "TP_PROP"
  \/ (not_isin_rows "TP_PROP" contratos_values df <> []
      /\ e = InvalidContrato
               (drop_duplicates
                  (column_values "TP_PROP"
                     (not_isin_rows "TP_PROP" contratos_values df)))).
Proof.
  unfold contratos_validation, require. destruct (has_column _ _);
    cbn [mbind result_bind]; [|intros [= <-]; by left].
  destruct (not_isin_rows _ _ _) eqn:Hrows; [done|]. intros [= <-]. by right.
Qed.

Lemma wrong_values_nonempty (col : string) (rs : list (gmap string cell)) :
  rs <> [] -> drop_duplicates (column_values col rs) <> [].
Proof. by destruct rs. Qed.

(** X14.  Validation reports the first failing check only, in the order
    stage, grid code, ownership.  When it raises the grid-code error,
    every stage is valid and the error lists, each once, exactly the grid
    codes of the frame outside 1 to 6; when it raises the ownership error,
    every stage and every grid code is valid and the error lists, each
    once, exactly the ownerships outside the three classes. *)
Theorem validation_reports_the_first_failing_check (df : DataFrame) :
  (forall w, validation df = Raise (InvalidGridcode w) ->
     Forall (fun r => at_col "ESTAGIO_D" r ∈ estagios_values) (rows df)
     /\ w <> [] /\ NoDup w
     /\ forall c, (c ∈ w) <->
          (c ∉ gridcode_values) /\ exists r, r ∈ rows df /\ at_col "GRIDCODE" r = c)
  /\ (forall w, validation df = Raise (InvalidContrato w) ->
        Forall (fun r => at_col "ESTAGIO_D" r ∈ estagios_values
                         /\ at_col "GRIDCODE" r ∈ gridcode_values) (rows df)
        /\ w <> [] /\ NoDup w
        /\ forall c, (c ∈ w) <->
             (c ∉ contratos_values)
             /\ exists r, r ∈ rows df /\ at_col "TP_PROP" r = c).
Proof.
  unfold validation. split; intros w Hv.
  - apply bind_Raise in Hv as [Hv | ([] & He & Hv)].
    { apply estagios_validation_Raise in Hv as [? | (? & ? & ?)]; done. }
    apply estagios_validation_Ok in He as [_ He]. split; [exact He|].
    apply bind_Raise in Hv as [Hv | ([] & _ & Hv)].
    + apply gridcode_validation_Raise in Hv as [? | [Hne [= ->]]]; [done|].
      split; [by apply wrong_values_nonempty|].
      split; [apply NoDup_drop_duplicates|]. apply wrong_values_spec.
    + apply contratos_validation_Raise in Hv as [? | [_ ?]]; done.
  - apply bind_Raise in Hv as [Hv | ([] & He & Hv)].
    { apply estagios_validation_Raise in Hv as [? | (? & ? & ?)]; done. }
    apply estagios_validation_Ok in He as [_ He].
    apply bind_Raise in Hv as [Hv | ([] & Hg & Hv)].
    { apply gridcode_validation_Raise in Hv as [? | [_ ?]]; done. }
    apply gridcode_validation_Ok in Hg as [_ Hg].
    split; [by apply Forall_and|].
    apply contratos_validation_Raise in Hv as [? | [Hne [= ->]]]; [done|].
    split; [by apply wrong_values_nonempty|].
    split; [apply NoDup_drop_duplicates|]. apply wrong_values_spec.
Qed.

End ValidationChecks.

(** X13.  Validation passes exactly when the frame has the columns
    [ESTAGIO_D], [GRIDCODE] and [TP_PROP] and every row holds one of the
    nine stages, a grid code from 1 to 6 and one of the three ownership
    classes. *)
Theorem validation_passes_iff_every_row_is_in_range (df : DataFrame) :
  NdviDataValidation.validation df = Ok tt <->
  Forall (fun col => col ∈ columns df) ["ESTAGIO_D"; "GRIDCODE"; "TP_PROP"]
  /\ Forall (fun r => at_col "ESTAGIO_D" r ∈ NdviDataValidation.estagios_values
                      /\ at_col "GRIDCODE" r ∈ NdviDataValidation.gridcode_values
                      /\ at_col "TP_PROP" r ∈ NdviDataValidation.contratos_values)
            (rows df).
Proof. apply validation_Ok. Qed.

Lemma validation_reports_the_first_failing_check_witness :
  NdviDataValidation.validation gridcode_fora
  = Raise (InvalidGridcode [Int 10; Int 0])
  /\ Forall (fun r => at_col "ESTAGIO_D" r ∈ NdviDataValidation.estagios_values)
            (rows gridcode_fora)
  /\ NdviDataValidation.column_values "TP_PROP" (rows gridcode_fora)
     = [Str "ADEF"; Str "OUTRO"; Str "ADEF"; Str "ADEF"].
Proof.
  assert (NdviDataValidation.validation gridcode_fora
          = Raise (InvalidGridcode [Int 10; Int 0])) as Hv
    by (vm_compute; reflexivity).
  split; [exact Hv|]. split; [|vm_compute; reflexivity].
  exact (proj1 (proj1 (validation_reports_the_first_failing_check gridcode_fora)
                  _ Hv)).
Defined.

(** ** The image date of a frame without dates *)

Lemma group_keys_nil (by_ : list string) (rs : list (gmap string cell)) :
  Forall (fun r => group_key by_ r = None) rs -> group_keys by_ rs = [].
Proof.
  intros Hall. apply elem_of_nil_inv. intros k Hk.
  apply elem_of_group_keys in Hk as (r & Hr & Hkey).
  rewrite Forall_forall in Hall. by rewrite (Hall r Hr) in Hkey.
Qed.

(** X15.  On a frame with the columns [DATA_IMG] and a numeric
    [AREA_NDVI], [__classify_date_image] raises the [ValueError] of
    [idxmax] on an empty sequence when no row has an image date (in
    particular when the frame has no row), and returns a frame as soon as
    one row has a date. *)
Theorem classify_date_image_needs_a_dated_row (df : DataFrame) :
  "DATA_IMG" ∈ columns df ->
  require_numeric "AREA_NDVI" df = Ok tt ->
  (Forall (fun r => at_col "DATA_IMG" r = NA) (rows df) ->
   IntersectNdvi.classify_date_image df
   = Raise (ValueError "attempt to get argmax of an empty sequence"))
  /\ (Exists (fun r => at_col "DATA_IMG" r <> NA) (rows df) ->
      exists out, IntersectNdvi.classify_date_image df = Ok out).
Proof.
  intros Hcol Hnum. unfold IntersectNdvi.classify_date_image, require, has_column.
  rewrite (bool_decide_eq_true_2 _ Hcol). cbn [mbind result_bind].
  rewrite Hnum. cbn [mbind result_bind]. split.
  - intros Hall. unfold groupby. rewrite group_keys_nil; [done|].
    eapply Forall_impl; [exact Hall|]. intros r Hr. simpl in Hr.
    unfold group_key. simpl. by rewrite Hr.
  - intros Hex. apply Exists_exists in Hex as (r & Hr & Hdate).
    assert ([at_col "DATA_IMG" r] ∈ group_keys ["DATA_IMG"] (rows df)) as Hk.
    { apply elem_of_group_keys. exists r. split; [done|].
      by apply group_key_single. }
    unfold groupby. destruct (group_keys ["DATA_IMG"] (rows df)) as [|k ks];
      [by apply elem_of_nil in Hk|].
    rewrite !fmap_cons. cbn [idxmax fst snd]. eauto.
Qed.

Lemma classify_date_image_needs_a_dated_row_witness :
  IntersectNdvi.classify_date_image talhoes_sem_data_img
  = Raise (ValueError "attempt to get argmax of an empty sequence")
  /\ exists out, IntersectNdvi.classify_date_image sem_jan_col_janelas
                 = Ok out.
Proof.
  split.
  - apply (classify_date_image_needs_a_dated_row talhoes_sem_data_img).
    + vm_decide.
    + vm_compute; reflexivity.
    + vm_decide.
  - apply (classify_date_image_needs_a_dated_row sem_jan_col_janelas).
    + vm_decide.
    + vm_compute; reflexivity.
    + vm_decide.
Defined.

(** ** The rows of phase 1 *)

Section PhaseOne.
Import IntersectNdviSummarized.

Lemma at_col_agg_row_key (col : string) (spec : list (string * aggfunc))
    (c : cell) (rs : list (gmap string cell)) :
  at_col col (agg_row [col] spec ([c], rs)) = c.
Proof. unfold agg_row. simpl. apply at_col_insert. Qed.

Lemma group_keys_single (col : string) (rs : list (gmap string cell)) :
  exists cs, group_keys [col] rs = (fun c => [c]) <$> cs
             /\ NoDup cs
             /\ forall c, c ∈ cs <->
                  (c <> NA) /\ exists r, r ∈ rs /\ at_col col r = c.
Proof.
  exists ((fun k => default NA (head k)) <$> group_keys [col] rs).
  assert (forall k, k ∈ group_keys [col] rs -> exists c, k = [c]) as Hsingle.
  { intros k Hk. apply elem_of_group_keys in Hk as (r & _ & Hk).
    apply group_key_single in Hk as [-> _]. eauto. }
  split; [|split].
  - rewrite <- list_fmap_compose.
    rewrite <- (list_fmap_id (group_keys [col] rs)) at 1.
    apply list_fmap_ext. intros i k Hk. simpl.
    apply list_elem_of_lookup_2 in Hk. by destruct (Hsingle k Hk) as [c ->].
  - apply NoDup_fmap_2_strong; [|apply NoDup_group_keys].
    intros k1 k2 Hk1 Hk2 Heq.
    destruct (Hsingle k1 Hk1) as [c1 ->]. destruct (Hsingle k2 Hk2) as [c2 ->].
    simpl in Heq. by rewrite Heq.
  - intros c. rewrite list_elem_of_fmap. split.
    + intros (k & -> & Hk). apply elem_of_group_keys in Hk as (r & Hr & Hk).
      apply group_key_single in Hk as [-> Hna]. simpl. eauto.
    + intros (Hna & r & Hr & <-). exists [at_col col r]. split; [done|].
      apply elem_of_group_keys. exists r. split; [done|].
      by apply group_key_single.
Qed.

(** X16.  Phase 1 returns one row for each distinct [chave] of its input:
    no [chave] is repeated in its result and none is lost; so it never
    returns more rows than it was given. *)
Theorem phase_1_returns_one_row_per_chave (df keyed out : DataFrame) :
  create_chave_column df = Ok keyed ->
  groupby_intersect_ndvi_data_by_chave keyed = Ok out ->
  NoDup (NdviDataValidation.column_values "chave" (rows out))
  /\ (forall c, c ∈ NdviDataValidation.column_values "chave" (rows out)
                <-> c ∈ NdviDataValidation.column_values "chave" (rows keyed))
  /\ (length (rows out) <= length (rows df))%nat.
Proof.
  intros Hkeyed Hout. apply create_chave_column_rows in Hkeyed.
  unfold groupby_intersect_ndvi_data_by_chave in Hout.
  apply groupby_agg_Ok in Hout as [_ Hrows].
  destruct (group_keys_single "chave" (rows keyed)) as (cs & Hkeys & Hnodup & Hcs).
  assert (NdviDataValidation.column_values "chave" (rows out) = cs) as Hvalues.
  { unfold NdviDataValidation.column_values. rewrite Hrows. unfold groupby.
    rewrite Hkeys, <- !list_fmap_compose.
    rewrite <- (list_fmap_id cs) at 2. apply list_fmap_ext.
    intros i c _. cbn [compose]. apply at_col_agg_row_key. }
  assert (forall c, c ∈ NdviDataValidation.column_values "chave" (rows keyed)
                    -> c <> NA) as Hstr.
  { intros c Hc. unfold NdviDataValidation.column_values in Hc.
    apply list_elem_of_fmap in Hc as (r' & -> & Hr').
    apply list_elem_of_lookup in Hr' as [i Hi].
    destruct (Forall2_lookup_r _ _ _ _ _ Hkeyed Hi) as (r & _ & s & ->).
    by rewrite at_col_insert. }
  split; [by rewrite Hvalues|]. split.
  - intros c. rewrite Hvalues, Hcs. unfold NdviDataValidation.column_values.
    rewrite list_elem_of_fmap. split.
    + intros (_ & r & Hr & <-). eauto.
    + intros (r & -> & Hr). split; [|eauto].
      apply Hstr. unfold NdviDataValidation.column_values.
      apply list_elem_of_fmap. eauto.
  - rewrite (Forall2_length _ _ _ Hkeyed).
    rewrite <- (length_fmap (fun r => at_col "chave" r) (rows out)).
    rewrite <- (length_fmap (fun r => at_col "chave" r) (rows keyed)).
    fold (NdviDataValidation.column_values "chave" (rows out)).
    fold (NdviDataValidation.column_values "chave" (rows keyed)).
    rewrite Hvalues. apply submseteq_length, NoDup_submseteq; [done|].
    intros c Hc. apply Hcs in Hc as (_ & r & Hr & <-).
    unfold NdviDataValidation.column_values. apply list_elem_of_fmap. eauto.
Qed.

End PhaseOne.

Lemma phase_1_returns_one_row_per_chave_witness :
  IntersectNdviSummarized.create_chave_column tres_formatted = Ok tres_keyed
  /\ IntersectNdviSummarized.groupby_intersect_ndvi_data_by_chave tres_keyed
     = Ok tres_one
  /\ NdviDataValidation.column_values "chave" (rows tres_one)
     = [Str "FAZ1_10_1ºC_PRÓPRIAS_VAR1_INÍCIO_2025_J1"]
  /\ NoDup (NdviDataValidation.column_values "chave" (rows tres_one))
  /\ (length (rows tres_one) <= length (rows tres_formatted))%nat.
Proof.
  assert (IntersectNdviSummarized.create_chave_column tres_formatted
          = Ok tres_keyed) as Hk by (vm_compute; reflexivity).
  assert (IntersectNdviSummarized.groupby_intersect_ndvi_data_by_chave tres_keyed
          = Ok tres_one) as Ho by (vm_compute; reflexivity).
  destruct (phase_1_returns_one_row_per_chave _ _ _ Hk Ho) as (Hnodup & _ & Hlen).
  split; [exact Hk|]. split; [exact Ho|]. split; [vm_compute; reflexivity|].
  split; [exact Hnodup | exact Hlen].
Defined.

(** ** The loader and the rows of other units *)

Section LoaderRows.
Context `{DateParser}.
Import InsertIntersectNdviIntoDatabase.

Lemma insert_ndvi_data_into_database_rows (client_id safra : Z)
    (janela : string) (client_ndvi_data : DataFrame) (db db1 : Database) :
  insert_ndvi_data_into_database client_id janela client_ndvi_data safra db
  = Ok db1 ->
  clientes db1 = clientes db
  /\ exists stamped,
       intersect_ndvi db1
       = (filter (fun r => where_unit client_id safra janela r = false)
                 (intersect_ndvi db) ++ stamped)%list
       /\ Forall2 (fun r r' =>
                     at_col "client_id" r' = Int client_id
                     /\ at_col "client_name" r'
                        = get_client_data_interest "cliente" client_id db
                     /\ same_but ["client_id"; "client_name"; "data_img"] r r')
                  (rows client_ndvi_data) stamped.
Proof.
  unfold insert_ndvi_data_into_database. intros Hi.
  apply bind_Ok in Hi as (_ & _ & Hi).
  apply bind_Ok in Hi as (rs & Hrs & Hi). cbn [rows] in Hi.
  destruct rs as [|r0 rs0] eqn:Hrs0; [discriminate|]. rewrite <- Hrs0 in *.
  injection Hi as <-. split; [done|]. exists rs. split; [done|].
  apply mapM_Ok in Hrs. cbn [rows assign] in Hrs.
  apply (proj1 (Forall2_fmap_l _ _ _ _)) in Hrs.
  apply (proj1 (Forall2_fmap_l _ _ _ _)) in Hrs.
  eapply Forall2_impl; [exact Hrs|]. intros r r' Hr. cbn [compose] in Hr.
  apply bind_Ok in Hr as (d & _ & Hr). injection Hr as <-.
  split; [by at_col_simpl|]. split; [by at_col_simpl|].
  intros col Hcol. rewrite !lookup_insert_ne; [done|set_solver..].
Qed.

End LoaderRows.

(** X17.  When the loader returns for a client, season and window, the
    table of clients is as it was, and [intersect_ndvi] holds the rows it
    had for every other client, season or window, in their order, followed
    by the rows of the frame.  Each of these carries the client id and the
    name of the client in [public.clientes] (a missing value for an id
    that is not there), and its columns other than [client_id],
    [client_name] and [data_img] are those of the frame. *)
Theorem loader_replaces_the_rows_of_its_unit_only `{DateParser}
    (client_id safra : Z) (janela : string) (client_ndvi_data : DataFrame)
    (db db1 : Database) :
  InsertIntersectNdviIntoDatabase.insert_ndvi_data_into_database
    client_id janela client_ndvi_data safra db = Ok db1 ->
  clientes db1 = clientes db
  /\ exists stamped,
       intersect_ndvi db1
       = (filter (fun r => InsertIntersectNdviIntoDatabase.where_unit
                             client_id safra janela r = false)
                 (intersect_ndvi db) ++ stamped)%list
       /\ Forall2 (fun r r' =>
                     at_col "client_id" r' = Int client_id
                     /\ at_col "client_name" r'
                        = InsertIntersectNdviIntoDatabase.get_client_data_interest
                            "cliente" client_id db
                     /\ same_but ["client_id"; "client_name"; "data_img"] r r')
                  (rows client_ndvi_data) stamped.
Proof. apply insert_ndvi_data_into_database_rows. Qed.

Lemma loader_replaces_the_rows_of_its_unit_only_witness :
  @InsertIntersectNdviIntoDatabase.insert_ndvi_data_into_database
    iso_parser 7 "J1" tres_two 2025 armazem = Ok armazem_carregado
  /\ length (intersect_ndvi armazem) = 4%nat
  /\ length (intersect_ndvi armazem_carregado) = 3%nat
  /\ (fun r => at_col "client_name" r) <$> intersect_ndvi armazem_carregado
     = [NA; NA; Str "USINA SETE"]
  /\ clientes armazem_carregado = clientes armazem.
Proof.
  assert (@InsertIntersectNdviIntoDatabase.insert_ndvi_data_into_database
            iso_parser 7 "J1" tres_two 2025 armazem = Ok armazem_carregado)
    as Hi by (vm_compute; reflexivity).
  destruct (@loader_replaces_the_rows_of_its_unit_only iso_parser _ _ _ _ _ _ Hi)
    as [Hclientes _].
  split; [exact Hi|]. split; [reflexivity|]. split; [reflexivity|].
  split; [vm_compute; reflexivity | exact Hclientes].
Defined.

(** ** The loop of [main] *)

Section MainLoop.
Context `{DateParser}.
Variable get_client_intersect_ndvi_summarized :
  Z -> string -> Z -> result DataFrame.

Lemma for_each_stopped {A : Type} (l : list A)
    (body : A -> Database -> outcome) (db : Database) (e : error) :
  foldl (fun acc a => match acc with
                      | (db, None) => body a db
                      | stopped => stopped
                      end) (db, Some e) l = (db, Some e).
Proof. induction l as [|a l IH]; [done|]. simpl. exact IH. Qed.

(** A property of the database that every turn of a loop keeps is kept by
    the loop, whether it runs to its end or is stopped. *)
Lemma for_each_keeps {A : Type} (I : Database -> Prop) (l : list A)
    (body : A -> Database -> outcome) (db : Database) :
  (forall a db, a ∈ l -> I db -> I (body a db).1) ->
  I db -> I (for_each l body db).1.
Proof.
  unfold for_each. revert db. induction l as [|a l IH]; intros db Hbody Hdb;
    [done|]. simpl.
  destruct (body a db) as [db1 [e|]] eqn:Hturn.
  - rewrite for_each_stopped. simpl.
    specialize (Hbody a db). rewrite Hturn in Hbody. apply Hbody; [left|done].
  - apply IH.
    + intros a' db' Ha'. apply Hbody. by right.
    + specialize (Hbody a db). rewrite Hturn in Hbody. apply Hbody; [left|done].
Qed.

Lemma main_janela_keeps (db0 : Database) (P : gmap string cell -> Prop)
    (client_id safra : Z) (janela : string) (db : Database) :
  (forall r, P r ->
     InsertIntersectNdviIntoDatabase.where_unit client_id safra janela r = false) ->
  (clientes db = clientes db0
   /\ forall r, r ∈ intersect_ndvi db0 -> P r -> r ∈ intersect_ndvi db) ->
  let db' := (main_janela get_client_intersect_ndvi_summarized
                client_id safra janela db).1 in
  clientes db' = clientes db0
  /\ forall r, r ∈ intersect_ndvi db0 -> P r -> r ∈ intersect_ndvi db'.
Proof.
  intros HP [Hclientes Hrows]. unfold main_janela.
  destruct (get_client_intersect_ndvi_summarized _ _ _) as [data|e]; [|done].
  destruct (negb (empty_frame data)); [|done].
  destruct (InsertIntersectNdviIntoDatabase.insert_ndvi_data_into_database
              _ _ _ _ _) as [db1|e] eqn:Hi; [|done].
  apply insert_ndvi_data_into_database_rows in Hi
    as (Hclientes1 & stamped & Hrows1 & _).
  cbn [fst]. split; [congruence|]. intros r Hr HPr. rewrite Hrows1.
  apply elem_of_app. left. apply list_elem_of_filter. split; [by apply HP|].
  by apply Hrows.
Qed.

(** X18.  Whatever [main] finds in the folders, and whether it runs to its
    end or is stopped by an exception, it leaves the table of clients as
    it was and keeps every row of [intersect_ndvi] that belongs to none of
    the units it is asked to load: a row survives unless its client is
    listed and not removed, its season is listed and its window is
    listed. *)
Theorem main_keeps_the_rows_of_other_units (clients_id removed : list Z)
    (safra_list : list Z)
    (janela_list : list string) (db : Database) :
  let db' := (main get_client_intersect_ndvi_summarized clients_id
                (Some removed) safra_list janela_list db).1 in
  clientes db' = clientes db
  /\ forall r, r ∈ intersect_ndvi db ->
       (forall client_id safra janela,
          client_id ∈ clients_id -> client_id ∉ removed ->
          safra ∈ safra_list -> janela ∈ janela_list ->
          InsertIntersectNdviIntoDatabase.where_unit client_id safra janela r
          = false) ->
       r ∈ intersect_ndvi db'.
Proof.
  unfold main.
  apply (for_each_keeps
           (fun db' => clientes db' = clientes db
              /\ forall r, r ∈ intersect_ndvi db ->
                   (forall client_id safra janela,
                      client_id ∈ clients_id -> client_id ∉ removed ->
                      safra ∈ safra_list -> janela ∈ janela_list ->
                      InsertIntersectNdviIntoDatabase.where_unit
                        client_id safra janela r = false) ->
                   r ∈ intersect_ndvi db')); [|done].
  intros client_id db1 Hclient Hdb1.
  case_bool_decide as Hremoved; [|done].
  apply for_each_keeps; [|done]. intros safra db2 Hsafra Hdb2.
  apply for_each_keeps; [|done]. intros janela db3 Hjanela Hdb3.
  apply (main_janela_keeps db); [|done].
  intros r Hr. by apply Hr.
Qed.

(** X19.  With [clients_to_remove] left at its default [None], [main]
    raises [TypeError] at the first client and leaves the database as it
    was: nothing is loaded. *)
Theorem main_raises_without_clients_to_remove (client_id : Z)
    (clients_id : list Z)
    (safra_list : list Z) (janela_list : list string) (db : Database) :
  main get_client_intersect_ndvi_summarized (client_id :: clients_id) None
       safra_list janela_list db
  = (db, Some (TypeError "argument of type 'NoneType' is not iterable")).
Proof. unfold main, for_each. simpl. apply for_each_stopped. Qed.

End MainLoop.

Lemma main_keeps_the_rows_of_other_units_witness :
  @main iso_parser pasta_do_cliente_7 [7; 8] (Some [8]) [2025] ["J1"; "J2"]
    armazem
  = (armazem_carregado, None)
  /\ clientes armazem_carregado = clientes armazem
  /\ length (intersect_ndvi armazem_carregado) = 3%nat.
Proof.
  split; [vm_compute; reflexivity|].
  split; [|reflexivity].
  exact (proj1 (@main_keeps_the_rows_of_other_units iso_parser
                  pasta_do_cliente_7 [7; 8] [8] [2025] ["J1"; "J2"] armazem)).
Defined.

(** ** The name of the shapefile *)

Section ShapefileName.
Import GetClientIntersectNdviGeodataframe.

Lemma length_substring (n m : nat) (s : string) :
  (n + m <= String.length s)%nat ->
  String.length (String.substring n m s) = m.
Proof.
  revert n m. induction s as [|c s IH]; intros n m Hlen; simpl in Hlen.
  - assert (n = 0%nat /\ m = 0%nat) as [-> ->] by lia. done.
  - destruct n as [|n]; simpl.
    + destruct m as [|m]; [done|]. simpl. rewrite IH; [done|lia].
    + apply IH. lia.
Qed.

Lemma length_str_last (n : nat) (s : string) :
  (n <= String.length s)%nat -> String.length (str_last n s) = n.
Proof. intros Hlen. unfold str_last. apply length_substring. lia. Qed.

Lemma path_stem_length (name : string) :
  String.substring 0 14 name = "INTERSECT_NDVI" ->
  (14 <= String.length (path_stem name))%nat.
Proof.
  intros Hprefix.
  assert (14 <= String.length name)%nat as Hlen.
  { do 14 (destruct name as [|? name]; [discriminate|]). simpl. lia. }
  unfold path_stem. destruct (rfind_dot name) as [i|] eqn:Hdot; [|done].
  destruct ((0 <? i) && (i <? String.length name - 1))%nat eqn:Hcond; [|done].
  apply andb_true_iff in Hcond as [_ Hi]. apply Nat.ltb_lt in Hi.
  rewrite length_substring by lia.
  do 14 (destruct name as [|? name]; [discriminate|]).
  simpl in Hprefix. injection Hprefix as -> -> -> -> -> -> -> -> -> -> -> -> -> -> _.
  simpl in Hdot. destruct (rfind_dot name) as [i'|]; [|discriminate].
  injection Hdot as <-. lia.
Qed.

(** X20.  A file of the client's folder is taken for the shapefile of a
    window and a season only if the text [<janela>_<safra>] has exactly
    seven characters: the name is compared with the last seven characters
    of the file stem.  With a season of four digits, a window whose name
    has not two characters has no shapefile, whatever the folder holds. *)
Theorem shapefile_key_has_seven_characters (janela : string) (safra : Z)
    (shapefile : string) :
  is_intersect_ndvi_shapefile janela safra shapefile = true ->
  String.length (janela ++ "_" ++ str_of_int safra) = 7%nat.
Proof.
  unfold is_intersect_ndvi_shapefile. intros Hm.
  apply andb_true_iff in Hm as [Hm Hkey].
  apply andb_true_iff in Hm as [_ Hprefix].
  apply bool_decide_eq_true_1 in Hkey, Hprefix.
  rewrite <- Hkey. apply length_str_last.
  apply path_stem_length in Hprefix. lia.
Qed.

End ShapefileName.

Lemma shapefile_key_has_seven_characters_witness :
  GetClientIntersectNdviGeodataframe.is_intersect_ndvi_shapefile
    "J1" 2025 "INTERSECT_NDVI_J1_2025.shp" = true
  /\ String.length ("J1" ++ "_" ++ str_of_int 2025) = 7%nat
  /\ filter (fun shapefile =>
               GetClientIntersectNdviGeodataframe.is_intersect_ndvi_shapefile
                 "J1" 2025 shapefile = true) nomes_na_pasta
     = ["INTERSECT_NDVI_USINA_J1_2025.shp"; "INTERSECT_NDVI_J1_2025.shp"]
  /\ GetClientIntersectNdviGeodataframe.is_intersect_ndvi_shapefile
       "J10" 2025 "INTERSECT_NDVI_J10_2025.shp" = false.
Proof.
  assert (GetClientIntersectNdviGeodataframe.is_intersect_ndvi_shapefile
            "J1" 2025 "INTERSECT_NDVI_J1_2025.shp" = true) as Hm
    by (vm_compute; reflexivity).
  split; [exact Hm|].
  split; [exact (shapefile_key_has_seven_characters _ _ _ Hm)|].
  split; vm_compute; reflexivity.
Defined.

(** ** The class of the fifth cut and later *)

Lemma elem_of_range_5_31 (z : Z) :
  z ∈ ImproveEstagios.range_5_31 <-> 5 <= z <= 30.
Proof.
  unfold ImproveEstagios.range_5_31. rewrite list_elem_of_fmap. split.
  - intros (n & -> & Hn). apply elem_of_seq in Hn. lia.
  - intros Hz. exists (Z.to_nat (z - 5)). split; [lia|].
    apply elem_of_seq. lia.
Qed.

Lemma elem_of_create_5c_list_values (c : cell) :
  c ∈ ImproveEstagios.create_5c_list_values <->
  exists number suffix,
    5 <= number <= 30 /\ suffix ∈ sufixos_5c
    /\ c = Str (str_of_int number ++ suffix).
Proof.
  unfold ImproveEstagios.create_5c_list_values, sufixos_5c. cbv zeta.
  rewrite !elem_of_app, !list_elem_of_fmap. split.
  - intros Hin.
    repeat (destruct Hin as [Hin | Hin]);
      destruct Hin as (number & -> & Hn); apply elem_of_range_5_31 in Hn;
      eexists number, _; (split; [exact Hn|]); (split; [|reflexivity]);
      set_solver.
  - intros (number & suffix & Hn & Hs & ->).
    apply elem_of_range_5_31 in Hn. set_unfold in Hs.
    destruct Hs as [-> | [-> | [-> | [-> | [-> | [-> | [-> | [-> | []]]]]]]]];
      eauto 12.
Qed.

Lemma estagio_d_of_5c (e : cell) :
  estagio_d_of e = Str "5ºC+" <->
  isin ImproveEstagios.rules_5c e || first_is ">" e = true.
Proof.
  unfold estagio_d_of.
  destruct (isin ImproveEstagios.rules_5c e || first_is ">" e); [done|].
  repeat (match goal with
          | |- context [if ?b then _ else _] => destruct b
          end; [split; discriminate|]).
  split; discriminate.
Qed.

(** X21.  [format_estagios] gives a row the class 5ºC+ exactly when its
    stage starts with [>], or is a number from 5 to 30 followed by one of
    the eight spellings of [__create_5c_list_values] (ºC, °C, º, °,
    ºCORTE, °CORTE, ºC+, °C+). *)
Theorem fifth_cut_is_a_number_from_5_to_30_or_a_greater_sign
    (df out : DataFrame) :
  ImproveEstagios.format_estagios df = Ok out ->
  Forall2 (fun r r' =>
             at_col "ESTAGIO_D" r' = Str "5ºC+" <->
             first_is ">" (at_col "ESTAGIO" r) = true
             \/ exists number suffix,
                  5 <= number <= 30 /\ suffix ∈ sufixos_5c
                  /\ at_col "ESTAGIO" r = Str (str_of_int number ++ suffix))
          (rows df) (rows out).
Proof.
  intros Hf. apply format_estagios_rows in Hf as [_ ->].
  apply Forall2_fmap_r, Forall_Forall2_diag, Forall_true. intros r.
  cbn [compose]. rewrite at_col_insert, estagio_d_of_5c, orb_true_iff.
  unfold ImproveEstagios.rules_5c, isin. rewrite bool_decide_eq_true.
  rewrite elem_of_create_5c_list_values. tauto.
Qed.

Lemma fifth_cut_is_a_number_from_5_to_30_or_a_greater_sign_witness :
  ImproveEstagios.format_estagios estagios_variados = Ok estagios_variados_d
  /\ NdviDataValidation.column_values "ESTAGIO" (rows estagios_variados)
     = [Str "12M"; Str ">5B"; Str "3B"; NA; Str "REF"; Str "7ºCORTE"; Str "XYZ"]
  /\ (fun r => bool_decide (at_col "ESTAGIO_D" r = Str "5ºC+"))
       <$> rows estagios_variados_d
     = [false; true; false; false; false; true; false]
  /\ length (rows estagios_variados_d) = length (rows estagios_variados).
Proof.
  assert (ImproveEstagios.format_estagios estagios_variados
          = Ok estagios_variados_d) as Hf by (vm_compute; reflexivity).
  split; [exact Hf|]. split; [vm_compute; reflexivity|].
  split; [vm_compute; reflexivity|]. symmetry.
  exact (Forall2_length _ _ _
           (fifth_cut_is_a_number_from_5_to_30_or_a_greater_sign _ _ Hf)).
Defined.

(** ** What the pipeline returns *)

(** X22.  Every frame [ndvi_data] returns has the columns [ESTAGIO_D],
    [GRIDCODE] and [TP_PROP]; each of its rows holds one of the nine
    stages, a grid code from 1 to 6 and one of the three ownership
    classes; and all its rows hold the same image date, which is not
    missing. *)
Theorem ndvi_data_returns_rows_in_range `{DateParser} (safra : Z)
    (raw out : DataFrame) :
  IntersectNdvi.ndvi_data safra raw = Ok out ->
  Forall (fun col => col ∈ columns out) ["ESTAGIO_D"; "GRIDCODE"; "TP_PROP"]
  /\ Forall (fun r => at_col "ESTAGIO_D" r ∈ NdviDataValidation.estagios_values
                      /\ at_col "GRIDCODE" r ∈ NdviDataValidation.gridcode_values
                      /\ at_col "TP_PROP" r ∈ NdviDataValidation.contratos_values)
            (rows out)
  /\ exists d, d <> NA /\ Forall (fun r => at_col "DATA_IMG" r = d) (rows out).
Proof.
  unfold IntersectNdvi.ndvi_data. intros Hn.
  apply bind_Ok in Hn as (df1 & _ & Hn).
  apply bind_Ok in Hn as (df2 & _ & Hn).
  apply bind_Ok in Hn as (df3 & _ & Hn).
  apply bind_Ok in Hn as (df4 & _ & Hn).
  apply bind_Ok in Hn as (df5 & Hdate & Hn).
  apply bind_Ok in Hn as ([] & Hvalid & Hn). injection Hn as <-.
  apply validation_Ok in Hvalid as [Hcols Hrows].
  split; [exact Hcols|]. split; [exact Hrows|].
  apply classify_date_image_spec in Hdate as (d & Hd & _ & -> & _).
  exists d. split; [exact Hd|].
  rewrite rows_assign. apply Forall_fmap, Forall_true. intros r. simpl.
  apply at_col_insert.
Qed.

Lemma ndvi_data_returns_rows_in_range_witness :
  @IntersectNdvi.ndvi_data iso_parser 2025 talhoes_duas_datas
  = Ok duas_datas_classificado
  /\ Forall (fun r => at_col "ESTAGIO_D" r ∈ NdviDataValidation.estagios_values
                      /\ at_col "GRIDCODE" r ∈ NdviDataValidation.gridcode_values
                      /\ at_col "TP_PROP" r ∈ NdviDataValidation.contratos_values)
            (rows duas_datas_classificado)
  /\ NdviDataValidation.column_values "DATA_IMG" (rows duas_datas_classificado)
     = [Str "2025-03-10"; Str "2025-03-10"; Str "2025-03-10"].
Proof.
  assert (@IntersectNdvi.ndvi_data iso_parser 2025 talhoes_duas_datas
          = Ok duas_datas_classificado) as Hn by (vm_compute; reflexivity).
  destruct (@ndvi_data_returns_rows_in_range iso_parser _ _ _ Hn)
    as (_ & Hrows & _).
  split; [exact Hn|]. split; [exact Hrows | vm_compute; reflexivity].
Defined.

(** ** The rows that repair keeps *)

Section GisRows.
Context {geometry : Type} `{GisLib geometry}.

Lemma improve_geometry_rows (gdf out : GeoDataFrame geometry) :
  improve_geometry gdf = Ok out ->
  crs out = Some 4326
  /\ attrs <$> features out
     = attrs <$> filter (fun f => negb (is_empty (geom f)) = true
                                  /\ geom_type (geom f) ∈ geoM_type_list)
                        (features gdf).
Proof.
  unfold improve_geometry. intros Hi.
  apply bind_Ok in Hi as (mid & Hmid & Hi). injection Hi as <-.
  apply improve_geometry_collection_attrs in Hmid as [_ Hattrs].
  destruct (make_valid_frame_features mid) as [Hcrs (t & Ht & _)].
  split; [exact Hcrs|]. rewrite Ht, <- list_fmap_compose.
  cbn [init_MakeValidGeometries features] in Hattrs.
  clear Ht Hcrs.
  induction Hattrs as [|f f' fs fs' Hf _ IH]; [done|].
  rewrite !fmap_cons. f_equal; [exact Hf | exact IH].
Qed.

Lemma reproject_epsg_crs (code : Z) (gdf out : GeoDataFrame geometry) :
  reproject (EPSG code) gdf = Ok out ->
  crs out = Some code /\ length (features out) = length (features gdf).
Proof.
  simpl. intros [= <-]. unfold reproject_epsg.
  destruct (to_crs_or_set_features code gdf) as [Hcrs (t & -> & _)].
  split; [exact Hcrs|]. apply length_fmap.
Qed.

Lemma calculate_area_crs (column_name : string) (gdf out : GeoDataFrame geometry) :
  calculate_area column_name gdf = Ok out -> crs out = Some 4326.
Proof.
  unfold calculate_area. intros Hc. apply bind_Ok in Hc as (utm_ & _ & Hc).
  by apply improve_geometry_rows in Hc as [? _].
Qed.

End GisRows.

(** X23.  When repair returns, it has dropped exactly the rows whose
    geometry is empty or of a type other than Polygon, MultiPolygon and
    GeometryCollection (a point or a line is dropped, not reported), and
    kept the other rows in their order with their attributes; the frame it
    returns is labelled EPSG:4326. *)
Theorem improve_geometry_keeps_the_polygonal_rows {geometry : Type}
    `{GisLib geometry} (gdf out : GeoDataFrame geometry) :
  improve_geometry gdf = Ok out ->
  crs out = Some 4326
  /\ attrs <$> features out
     = attrs <$> filter (fun f => negb (is_empty (geom f)) = true
                                  /\ geom_type (geom f) ∈ geoM_type_list)
                        (features gdf).
Proof. apply improve_geometry_rows. Qed.

Lemma improve_geometry_keeps_the_polygonal_rows_witness :
  @improve_geometry _ sketch_lib para_reparar = Ok reparado
  /\ attrs <$> features para_reparar
     = [{["TALHAO" := Int 1]}; {["TALHAO" := Int 2]};
        {["TALHAO" := Int 3]}; {["TALHAO" := Int 4]}]
  /\ attrs <$> features reparado
     = [{["TALHAO" := Int 1]}; {["TALHAO" := Int 2]}]
  /\ crs reparado = Some 4326.
Proof.
  assert (@improve_geometry _ sketch_lib para_reparar = Ok reparado) as Hr
    by (vm_compute; reflexivity).
  destruct (@improve_geometry_keeps_the_polygonal_rows _ sketch_lib _ _ Hr)
    as [Hcrs _].
  split; [exact Hr|]. split; [vm_compute; reflexivity|].
  split; [vm_compute; reflexivity | exact Hcrs].
Defined.

(** ** The CRS of what the classes return *)

Section GisLabels.
Context {geometry : Type} `{GisLib geometry} `{GeoPandas geometry}.

Lemma dissolve_geodataframe_crs (dissolve_atributes : option (list string))
    (calc_area : bool) (column_area : string) (gdf out : GeoDataFrame geometry) :
  dissolve_geodataframe dissolve_atributes calc_area column_area gdf = Ok out ->
  crs out = Some 4326.
Proof.
  unfold dissolve_geodataframe. intros Hd.
  apply bind_Ok in Hd as (d & _ & Hd). destruct calc_area.
  - by apply calculate_area_crs in Hd.
  - by apply reproject_epsg_crs in Hd as [? _].
Qed.

(** X24.  Whatever CRS the input has, the frame returned by repair, by
    [Area.calculate_area], by [Dissolve.dissolve_geodataframe], by
    [Shapefile.open] with [dissolve], by [Buffer.buffer_area], by
    [Intersect.intersection] and by [SymmetricDifference] with
    [calc_area] is labelled EPSG:4326. *)
Theorem results_are_labelled_epsg_4326 :
  (forall gdf out, improve_geometry gdf = Ok out -> crs out = Some 4326)
  /\ (forall column_name gdf out,
        calculate_area column_name gdf = Ok out -> crs out = Some 4326)
  /\ (forall dissolve_atributes calc_area column_area gdf out,
        dissolve_geodataframe dissolve_atributes calc_area column_area gdf
        = Ok out -> crs out = Some 4326)
  /\ (forall file out, Shapefile_open file true = Ok out -> crs out = Some 4326)
  /\ (forall area_buffer gdf out,
        buffer_area area_buffer gdf = Ok out -> crs out = Some 4326)
  /\ (forall geodataframe1 geodataframe2 out,
        intersection geodataframe1 geodataframe2 = Ok out -> crs out = Some 4326)
  /\ (forall area_column geodataframe1 geodataframe2 out,
        symmetric_difference true area_column geodataframe1 geodataframe2
        = Ok out -> crs out = Some 4326).
Proof.
  repeat split.
  - intros gdf out Hi. by apply improve_geometry_rows in Hi as [? _].
  - intros column_name gdf out. apply calculate_area_crs.
  - intros by_ calc_area column_area gdf out. apply dissolve_geodataframe_crs.
  - intros file out Ho. unfold Shapefile_open in Ho.
    apply bind_Ok in Ho as (gdf & _ & Ho).
    by apply dissolve_geodataframe_crs in Ho.
  - intros area_buffer gdf out Hb. unfold buffer_area in Hb.
    by apply reproject_epsg_crs in Hb as [? _].
  - intros g1 g2 out Hi. unfold intersection in Hi.
    apply bind_Ok in Hi as (r1 & _ & Hi). apply bind_Ok in Hi as (r2 & _ & Hi).
    apply bind_Ok in Hi as (o & _ & Hi).
    by apply improve_geometry_rows in Hi as [? _].
  - intros area_column g1 g2 out Hs. unfold symmetric_difference in Hs.
    apply bind_Ok in Hs as (o & _ & Hs). by apply calculate_area_crs in Hs.
Qed.

(** X25.  A dissolve by attributes without area never returns an empty
    frame: an empty dissolve raises [ValueError], and the reprojection
    that follows keeps every row. *)
Theorem grouped_dissolve_returns_a_row (by_ : list string)
    (column_area : string)
    (gdf out : GeoDataFrame geometry) :
  dissolve_geodataframe (Some by_) false column_area gdf = Ok out ->
  features out <> [].
Proof.
  unfold dissolve_geodataframe. intros Hd.
  apply bind_Ok in Hd as (d & Hd' & Hd).
  apply bind_Ok in Hd' as (d' & _ & Hd').
  unfold gdf_empty in Hd'. destruct (features d') as [|f fs] eqn:Hfs;
    [discriminate|]. injection Hd' as <-.
  apply reproject_epsg_crs in Hd as [_ Hlen]. rewrite Hfs in Hlen.
  by destruct (features out).
Qed.

End GisLabels.

Lemma grouped_dissolve_returns_a_row_witness :
  @dissolve_geodataframe _ sketch_lib sketch_pandas (Some ["TALHAO"]) false
    "AREA_CALC" dois_hemisferios = Ok dois_hemisferios_dissolvido
  /\ length (features dois_hemisferios_dissolvido) = 1%nat
  /\ features dois_hemisferios_dissolvido <> []
  /\ @dissolve_geodataframe _ sketch_lib sketch_pandas (Some ["TALHAO"]) false
       "AREA_CALC" (mkGeo (Some 4326) [])
     = Raise (ValueError "GEOMETRIA DISSOLVIDA ESTA VAZIA!!!").
Proof.
  assert (@dissolve_geodataframe _ sketch_lib sketch_pandas (Some ["TALHAO"])
            false "AREA_CALC" dois_hemisferios = Ok dois_hemisferios_dissolvido)
    as Hd by (vm_compute; reflexivity).
  split; [exact Hd|]. split; [reflexivity|].
  split; [|vm_compute; reflexivity].
  exact (@grouped_dissolve_returns_a_row _ sketch_lib sketch_pandas _ _ _ _ Hd).
Defined.

(** ** When reprojection raises *)

Section GisErrors.
Context {geometry : Type} `{GisLib geometry}.


Lemma reproject_to_utm_total (l : list (Feature geometry))
    (gdf : GeoDataFrame geometry) :
  Forall (fun f => is_Some (from_latlon (centroid (geom f)).2
                                        (centroid (geom f)).1)) l ->
  exists out, foldl reproject_to_utm_step (Ok gdf) l = Ok out.
Proof.
  intros Hall. revert gdf. induction Hall as [|f l [[[[? ?] band] ?] Hll] _ IH];
    intros gdf; [by eexists|].
  simpl. rewrite Hll. destruct (Qlt_le_dec _ _); apply IH.
Qed.

(** X30.  Local-UTM reprojection returns exactly when [utm.from_latlon]
    accepts the centroid of every row, read as latitude and longitude;
    it asks for the zone of the rows north of the equator too, although it
    does not convert them.  So it raises on a frame whose coordinates are
    not degrees. *)
Theorem local_utm_returns_iff_every_centroid_is_in_range
    (gdf : GeoDataFrame geometry) :
  (exists out, reproject UTM gdf = Ok out) <->
  Forall (fun f => is_Some (from_latlon (centroid (geom f)).2
                                        (centroid (geom f)).1))
         (features gdf).
Proof.
  split.
  - intros [out Hr]. simpl in Hr. unfold reproject_to_utm in Hr.
    by apply reproject_to_utm_fold in Hr as [_ ?].
  - intros Hall. simpl. unfold reproject_to_utm. by apply reproject_to_utm_total.
Qed.

End GisErrors.

Lemma local_utm_returns_iff_every_centroid_is_in_range_witness :
  @reproject _ sketch_lib UTM talhao_em_metros
  = Raise (ValueError "OutOfRangeError")
  /\ ~ Forall (fun f => is_Some (sketch_from_latlon (sketch_centroid (geom f)).2
                                                    (sketch_centroid (geom f)).1))
              (features talhao_em_metros)
  /\ exists out, @reproject _ sketch_lib (EPSG 4326) talhao_sem_crs = Ok out
                 /\ crs out = Some 4326
                 /\ features out = features talhao_sem_crs.
Proof.
  assert (@reproject _ sketch_lib UTM talhao_em_metros
          = Raise (ValueError "OutOfRangeError")) as Hr
    by (vm_compute; reflexivity).
  split; [exact Hr|]. split.
  - intros Hall.
    apply (@local_utm_returns_iff_every_centroid_is_in_range _ sketch_lib)
      in Hall as [out Hout].
    rewrite Hr in Hout. discriminate.
  - eexists. split; [vm_compute; reflexivity|]. split; reflexivity.
Defined.
